(** * web-clean: the request-scoped logging and error-capture pipeline

    A shallow embedding of the Go sources of the request pipeline
    (package web: the request-ID, error-persistence, panic-recovery and
    context-injection stages and the request log collector; package
    repository: the error and the audit persister; package handler; the
    two entry points) and the properties of the specification that
    concern it.

    Go code that mutates the gin context, appends to the per-request log
    slice, writes files or calls the database is modelled by explicit state
    passing over [World]; a Go panic is the [Panicked] outcome of a
    computation, and [defer]/[recover] are the combinators [defer_] and
    [defer_recover]. *)

From stdpp Require Import base option list strings gmap pretty.

Local Open Scope string_scope.

(** ** Data model *)

(** The seven levels of [domain.Log]; every level has a plain, a format
    ([...f]) and a keyed-pairs ([...w]) method. *)
Inductive level := DEBUG | INFO | WARN | ERROR | DPANIC | PANIC | FATAL.

(** A [domain.Log] interface value: the process-wide base logger built by
    [log.Zap()], or a pointer to the [webLog] of the current request, which
    wraps an inner logger ([&webLogger] in [ContextMiddleware]). *)
Inductive LogRef :=
| BaseLogger
| WebLogger (inner : LogRef).

(** [web.Context]: the database handle and the logger handed to handlers. *)
Record Context := mkContext { Database : nat; Log : LogRef }.

(** Go values held behind [any] / [interface{}]. *)
#[warnings="-register-all"]
Inductive value :=
| VNil
| VStr (s : string)
| VInt (n : Z)
| VSlice (vs : list value)
| VMap (kvs : list (string * value))
| VChan (id : nat)
| VError (msg : string)
| VContext (c : Context)
| VServerInternalError (code : Z) (body : value) (err : string).

Definition is_nil (v : value) : bool :=
  match v with VNil => true | _ => false end.

(** The arguments of one logging call, by method family. *)
Inductive logcall :=
| Plain (args : list value)
| Fmt (template : string) (args : list value)
| Kv (msg : string) (keysAndValues : list value).

(** [web.Log]: one captured record. *)
Record LogRecord := mkLog { Level : string; Msg : string }.

(** [web.Errors]: the report handed to the error persister. *)
Record Errors := mkErrors {
  Stack : value;
  Method : string;
  URL : string;
  Path : string;
  IP : string;
  RequestID : string
}.

(** The rows created inside [Database.Transaction]. *)
Inductive payload :=
| ErrorModel (e : Errors)
| LogsModel (l : list LogRecord).

(** What leaves the process, in order. *)
Inductive event :=
| EvLog (lvl : level) (c : logcall)          (* a call on the base logger *)
| EvTransaction (p : payload)                (* Database.Transaction *)
| EvMkdirAll (path : string)
| EvOpenFile (path : string)
| EvWrite (path : string) (data : string)
| EvClose (path : string)
| EvJSON (code : Z) (body : value)           (* context.JSON *)
| EvIdGen                                    (* idGen() *)
| EvSawID (id : string).                     (* a handler read the request ID *)

(** The inbound [http.Request] as the pipeline reads it. *)
Record Request := mkRequest {
  req_Method : string;
  req_URL : string;
  req_Path : string;
  req_ClientIP : string;
  req_Header : gmap string string
}.

(** One request being served: the gin context ([Keys], [ctx_Errors]), the
    [logs] slice of the request's [webLog], the file system and the trace
    of external effects. *)
Record World := mkWorld {
  request : Request;
  Keys : gmap string value;
  ctx_Errors : list string;
  logs : list LogRecord;
  files : gmap string string;
  trace : list event
}.

Definition set_Keys (f : gmap string value -> gmap string value) (w : World) : World :=
  mkWorld (request w) (f (Keys w)) (ctx_Errors w) (logs w) (files w) (trace w).
Definition set_ctx_Errors (f : list string -> list string) (w : World) : World :=
  mkWorld (request w) (Keys w) (f (ctx_Errors w)) (logs w) (files w) (trace w).
Definition set_logs (f : list LogRecord -> list LogRecord) (w : World) : World :=
  mkWorld (request w) (Keys w) (ctx_Errors w) (f (logs w)) (files w) (trace w).
Definition set_files (f : gmap string string -> gmap string string) (w : World) : World :=
  mkWorld (request w) (Keys w) (ctx_Errors w) (logs w) (f (files w)) (trace w).
Definition add_event (e : event) (w : World) : World :=
  mkWorld (request w) (Keys w) (ctx_Errors w) (logs w) (files w) (trace w ++ [e]).

(** ** Computations: state, panics, defer and recover *)

Inductive result (A : Type) :=
| Ret (a : A)
| Panicked (v : value).
Arguments Ret {A} a.
Arguments Panicked {A} v.

Definition M (A : Type) : Type := World -> result A * World.

#[global] Instance M_ret : MRet M := fun A a w => (Ret a, w).
#[global] Instance M_bind : MBind M := fun A B f m w =>
  match m w with
  | (Ret a, w1) => f a w1
  | (Panicked v, w1) => (Panicked v, w1)
  end.

Definition panic {A} (v : value) : M A := fun w => (Panicked v, w).
Definition get : M World := fun w => (Ret w, w).
Definition modify (f : World -> World) : M unit := fun w => (Ret tt, f w).
Definition emit (e : event) : M unit := modify (add_event e).

(** [defer d(); body] where [d] does not call [recover]: [d] runs on both
    exits of [body]; a panic of [body] goes on after [d] unless [d] panics
    itself, which replaces it. *)
Definition defer_ {A} (d : M unit) (body : M A) : M A := fun w =>
  match body w with
  | (Ret a, w1) =>
      match d w1 with
      | (Ret _, w2) => (Ret a, w2)
      | (Panicked v', w2) => (Panicked v', w2)
      end
  | (Panicked v, w1) =>
      match d w1 with
      | (Ret _, w2) => (Panicked v, w2)
      | (Panicked v', w2) => (Panicked v', w2)
      end
  end.

(** [defer func() { err := recover(); h err }(); body]: the deferred
    function starts with [recover()], which stops the panic of [body] and
    yields its value ([None]: [body] returned).  A panic whose value is
    [VNil] is a [panic(nil)] as Go before 1.21 runs it: it is stopped, and
    [recover()] yields nil. *)
Definition defer_recover (h : option value -> M unit) (body : M unit) : M unit := fun w =>
  match body w with
  | (Ret _, w1) => h None w1
  | (Panicked v, w1) => h (Some v) w1
  end.

(** ** External collaborators

    What the pipeline calls and does not define: the JSON encoder, [fmt]'s
    [%v] rendering, the clock, [filepath.Join], the UUID generator, the
    outcome of a database transaction and of the three file-system calls,
    and whether a call on the base logger returns or panics after emitting
    (as a Panic-level call on a zap logger does).  [Some e] is the Go
    error [e], [None] is [nil]. *)
Class Externals := {
  json_Marshal : value -> string + string;
  json_MarshalIndent : value -> string -> string -> string + string;
  fmt_v : value -> string;
  time_Now_Format : string -> string;
  filepath_Join : string -> string -> string;
  uuid_NewString : string;
  db_commit : payload -> option string;
  mkdirall_err : string -> option string;
  openfile_err : string -> option string;
  write_err : string -> string -> option string;
  log_reaction : level -> logcall -> option value
}.

(** ** github.com/gin-gonic/gin: the [*gin.Context] methods in use *)
Module gin.

Definition Set_ (key : string) (v : value) : M unit :=
  modify (set_Keys (insert key v)).

Definition Get (key : string) : M (value * bool) :=
  w ← get;
  match Keys w !! key with
  | Some v => mret (v, true)
  | None => mret (VNil, false)
  end.

Definition GetHeader (key : string) : M string :=
  w ← get; mret (default "" (req_Header (request w) !! key)).

(** [c.Error(err)]: appends to [c.Errors]. *)
Definition Error (err : string) : M unit :=
  modify (set_ctx_Errors (fun es => (es ++ [err])%list)).

(** [c.JSON(code, obj)] writes the response. *)
Definition JSON (code : Z) (obj : value) : M unit := emit (EvJSON code obj).

Definition newline : string := String (Ascii.ascii_of_nat 10) EmptyString.

(** [%02d] *)
Definition pad2 (n : nat) : string :=
  if decide (n < 10) then "0" +:+ pretty n else pretty n.

(** [errorMsgs.String()]: one line [Error #NN: msg] per recorded error
    (no [Meta] is attached by [c.Error]). *)
Fixpoint String_from (i : nat) (a : list string) : string :=
  match a with
  | [] => ""
  | msg :: a' =>
      "Error #" +:+ pad2 i +:+ ": " +:+ msg +:+ newline +:+ String_from (S i) a'
  end.

Definition Errors_String (a : list string) : string := String_from 1 a.

End gin.

(** ** os: the file-system calls of [saveToFile] *)
Module os.
Section os.
Context `{!Externals}.

Definition MkdirAll (path : string) : M (option string) :=
  emit (EvMkdirAll path);; mret (mkdirall_err path).

(** [os.OpenFile(path, O_CREATE|O_WRONLY|O_APPEND, 0o644)]: the file is
    created empty when it does not exist; an existing file is kept. *)
Definition OpenFile (path : string) : M (string + string) :=
  emit (EvOpenFile path);;
  match openfile_err path with
  | Some err => mret (inr err)
  | None =>
      modify (set_files (fun fs =>
        match fs !! path with Some _ => fs | None => <[path := ""]> fs end));;
      mret (inl path)
  end.

(** [f.Write(data)] on a file opened with [O_APPEND]: the bytes go to
    the end of the file; a failing write is taken to leave the file as
    it was. *)
Definition File_Write (f : string) (data : string) : M (option string) :=
  emit (EvWrite f data);;
  match write_err f data with
  | Some err => mret (Some err)
  | None =>
      modify (set_files (fun fs => <[f := default "" (fs !! f) +:+ data]> fs));;
      mret None
  end.

Definition File_Close (f : string) : M unit := emit (EvClose f).

End os.
End os.

(** ** infra/log: the base logger *)
Module log.
Section log.
Context `{!Externals}.

(** A method of the logger built by [log.Zap()], chosen by level and
    family: the record is emitted, then the call returns or panics as
    the backend decides. *)
Definition Zap (lvl : level) (c : logcall) : M unit :=
  emit (EvLog lvl c);;
  match log_reaction lvl c with
  | Some v => panic v
  | None => mret tt
  end.

End log.
End log.

(** ** infra/web *)
Module web.
Section web.
Context `{!Externals}.

(** *** log_persist.go *)

Definition appendToLogs (level : string) (args : list value) : M unit :=
  let msg :=
    match json_Marshal (VSlice args) with
    | inr err => "序列化错误: " +:+ err +:+ ", 原始参数: " +:+ fmt_v (VSlice args)
    | inl jsonBytes => jsonBytes
    end in
  modify (set_logs (fun l => (l ++ [mkLog level msg])%list)).

(** The methods of [*webLog]; [inner] is a method call on [w.inner]. *)
Section webLog.
Variable inner : level -> logcall -> M unit.

Definition Debug (args : list value) : M unit :=
  inner DEBUG (Plain args);; appendToLogs "DEBUG" args.
Definition Info (args : list value) : M unit :=
  inner INFO (Plain args);; appendToLogs "INFO" args.
Definition Warn (args : list value) : M unit :=
  inner WARN (Plain args);; appendToLogs "WARN" args.
Definition Error (args : list value) : M unit :=
  inner ERROR (Plain args);; appendToLogs "ERROR" args.
Definition DPanic (args : list value) : M unit :=
  inner DPANIC (Plain args);; appendToLogs "DPANIC" args.
Definition Panic (args : list value) : M unit :=
  inner PANIC (Plain args);; appendToLogs "PANIC" args.
Definition Fatal (args : list value) : M unit :=
  inner FATAL (Plain args);; appendToLogs "FATAL" args.

Definition Debugf (template : string) (args : list value) : M unit :=
  inner DEBUG (Fmt template args);; appendToLogs "DEBUG" [VStr template; VSlice args].
Definition Infof (template : string) (args : list value) : M unit :=
  inner INFO (Fmt template args);; appendToLogs "INFO" [VStr template; VSlice args].
Definition Warnf (template : string) (args : list value) : M unit :=
  inner WARN (Fmt template args);; appendToLogs "WARN" [VStr template; VSlice args].
Definition Errorf (template : string) (args : list value) : M unit :=
  inner ERROR (Fmt template args);; appendToLogs "ERROR" [VStr template; VSlice args].
Definition DPanicf (template : string) (args : list value) : M unit :=
  inner DPANIC (Fmt template args);; appendToLogs "DPANIC" [VStr template; VSlice args].
Definition Panicf (template : string) (args : list value) : M unit :=
  inner PANIC (Fmt template args);; appendToLogs "PANIC" [VStr template; VSlice args].
Definition Fatalf (template : string) (args : list value) : M unit :=
  inner FATAL (Fmt template args);; appendToLogs "FATAL" [VStr template; VSlice args].

Definition Debugw (msg : string) (keysAndValues : list value) : M unit :=
  inner DEBUG (Kv msg keysAndValues);; appendToLogs "DEBUG" [VStr msg; VSlice keysAndValues].
Definition Infow (msg : string) (keysAndValues : list value) : M unit :=
  inner INFO (Kv msg keysAndValues);; appendToLogs "INFO" [VStr msg; VSlice keysAndValues].
Definition Warnw (msg : string) (keysAndValues : list value) : M unit :=
  inner WARN (Kv msg keysAndValues);; appendToLogs "WARN" [VStr msg; VSlice keysAndValues].
Definition Errorw (msg : string) (keysAndValues : list value) : M unit :=
  inner ERROR (Kv msg keysAndValues);; appendToLogs "ERROR" [VStr msg; VSlice keysAndValues].
Definition DPanicw (msg : string) (keysAndValues : list value) : M unit :=
  inner DPANIC (Kv msg keysAndValues);; appendToLogs "DPANIC" [VStr msg; VSlice keysAndValues].
Definition Panicw (msg : string) (keysAndValues : list value) : M unit :=
  inner PANIC (Kv msg keysAndValues);; appendToLogs "PANIC" [VStr msg; VSlice keysAndValues].
Definition Fatalw (msg : string) (keysAndValues : list value) : M unit :=
  inner FATAL (Kv msg keysAndValues);; appendToLogs "FATAL" [VStr msg; VSlice keysAndValues].

(** The method table of [*webLog]. *)
Definition webLog (lvl : level) (c : logcall) : M unit :=
  match c, lvl with
  | Plain args, DEBUG => Debug args
  | Plain args, INFO => Info args
  | Plain args, WARN => Warn args
  | Plain args, ERROR => Error args
  | Plain args, DPANIC => DPanic args
  | Plain args, PANIC => Panic args
  | Plain args, FATAL => Fatal args
  | Fmt template args, DEBUG => Debugf template args
  | Fmt template args, INFO => Infof template args
  | Fmt template args, WARN => Warnf template args
  | Fmt template args, ERROR => Errorf template args
  | Fmt template args, DPANIC => DPanicf template args
  | Fmt template args, PANIC => Panicf template args
  | Fmt template args, FATAL => Fatalf template args
  | Kv msg kvs, DEBUG => Debugw msg kvs
  | Kv msg kvs, INFO => Infow msg kvs
  | Kv msg kvs, WARN => Warnw msg kvs
  | Kv msg kvs, ERROR => Errorw msg kvs
  | Kv msg kvs, DPANIC => DPanicw msg kvs
  | Kv msg kvs, PANIC => Panicw msg kvs
  | Kv msg kvs, FATAL => Fatalw msg kvs
  end.
End webLog.

(** A method call on a [domain.Log] interface value. *)
Fixpoint call (l : LogRef) : level -> logcall -> M unit :=
  match l with
  | BaseLogger => log.Zap
  | WebLogger inner => webLog (call inner)
  end.

(** *** id.go *)

Definition idKey : string := "__idKey__".

Definition RequestIDMiddleware (idGen : M string) (next : M unit) : M unit :=
  requestID ← gin.GetHeader "X-Request-ID";
  requestID ← (if decide (requestID = "") then
                 requestID ← idGen;
                 gin.Set_ "X-Request-ID" (VStr requestID);;
                 mret requestID
               else mret requestID);
  gin.Set_ idKey (VStr requestID);;
  next.

Definition RequestIdGetter : M string :=
  '(s, ok) ← gin.Get idKey;
  if negb ok then mret ""
  else match s with
       | VStr s => mret s
       | _ => panic (VError "interface conversion: interface {} is not string")
       end.

(** *** recover.go *)

Definition Recover (panicHandler : value -> M unit) (next : M unit) : M unit :=
  defer_recover
    (fun err =>
       match err with
       | Some err => if is_nil err then mret tt else panicHandler err
       | None => mret tt
       end)
    next.

(** *** error_persist.go *)

Definition ErrorPersisterMiddleware
    (persistent : Errors -> M unit) (log : LogRef)
    (requestIdGetter : M string) (next : M unit) : M unit :=
  w ← get;
  let requestMethod := req_Method (request w) in
  let requestURL := req_URL (request w) in
  let requestPath := req_Path (request w) in
  let requestIP := req_ClientIP (request w) in
  requestID ← requestIdGetter;
  defer_recover
    (fun err =>
       match err with
       | Some err =>
           if is_nil err then mret tt
           else
             w ← get;
             call log ERROR
               (Kv "ErrorPersister 抛出错误"
                  [VStr "error"; err; VStr "stackErrors";
                   VSlice (VError <$> ctx_Errors w)])
       | None => mret tt
       end)
    (next;;
     w ← get;
     if decide (length (ctx_Errors w) = 0) then mret tt
     else
       let errBody := VStr (gin.Errors_String (ctx_Errors w)) in
       persistent
         {| Stack := errBody;
            Method := requestMethod;
            URL := requestURL;
            Path := requestPath;
            IP := requestIP;
            RequestID := requestID |}).

(** *** The request context and its stage *)

Definition webContextKey : string := "__webCtxKey__".

Definition ContextMiddleware
    (constructor : LogRef -> Context) (innerLogger : LogRef)
    (webLogPersister : list LogRecord -> M (option string))
    (next : M unit) : M unit :=
  (* webLogger := webLog{inner: innerLogger, context: context, logs: make([]Log, 0)} *)
  modify (set_logs (fun _ => []));;
  defer_ (w ← get; webLogPersister (logs w);; mret tt)
    (let webCtx := constructor (WebLogger innerLogger) in
     gin.Set_ webContextKey (VContext webCtx);;
     defer_ (gin.Set_ webContextKey VNil)
       next).

(** The pair of a [*Context] and a bool; [None] is the nil pointer. *)
Definition ContextMiddlewareGetter : M (option Context * bool) :=
  '(value, exists_) ← gin.Get webContextKey;
  if negb exists_ then mret (None, false)
  else match value with
       | VContext c => mret (Some c, true)
       | _ => mret (None, false)
       end.

End web.
End web.

(** ** infra and infra/database *)
Module infra.
(** [infra.Context], as far as the persisters use it. *)
Record Context := mkContext { Log : LogRef }.
End infra.

Module database.
Section database.
Context `{!Externals}.

(** [Database.Transaction(func(tx) error { return tx.Create(&row).Error })]:
    the row is committed ([nil]) or the transaction fails with an error. *)
Definition Transaction (db : nat) (row : payload) : M (option string) :=
  emit (EvTransaction row);; mret (db_commit row).

End database.
End database.

(** [web.Errors] as the value that is encoded or logged: the exported
    fields in declaration order. *)
Definition Errors_value (e : Errors) : value :=
  VMap [("Stack", Stack e); ("Method", VStr (Method e)); ("URL", VStr (URL e));
        ("Path", VStr (Path e)); ("IP", VStr (IP e));
        ("RequestID", VStr (RequestID e))].

(** ** repository *)
Module repository.

(** *** The error persister *)
Module Errors.
Section Errors.
Context `{!Externals}.

Record t := mk {
  infra_Context : infra.Context;
  FallbackFilePath : string;
  Database : nat
}.

Definition saveToFile (e : t) (rec : Errors) : M (option string) :=
  (* data, _ := json.MarshalIndent(rec, "", "  ") *)
  let data :=
    match json_MarshalIndent (Errors_value rec) "" "  " with
    | inl data => data
    | inr _ => ""
    end in
  err ← os.MkdirAll (FallbackFilePath e);
  match err with
  | Some err => mret (Some err)
  | None =>
      let fileName :=
        "error_" +:+ RequestID rec +:+ "_"
          +:+ time_Now_Format "20060102T150405.000" +:+ ".json" in
      let fullPath := filepath_Join (FallbackFilePath e) fileName in
      r ← os.OpenFile fullPath;
      match r with
      | inr err => mret (Some err)
      | inl f => defer_ (os.File_Close f) (os.File_Write f data)
      end
  end.

Definition Persist (e : t) (errors : Errors) : M unit :=
  err ← database.Transaction (Database e) (ErrorModel errors);
  match err with
  | Some _ =>
      err ← saveToFile e errors;
      match err with
      | Some err =>
          web.call (infra.Log (infra_Context e)) ERROR
            (Kv "无法向错误数据库写入错误堆栈，也无法向错误文件写入"
               [VStr "err"; VError err; VStr "errors"; Errors_value errors])
      | None => mret tt
      end
  | None => mret tt
  end.

End Errors.
End Errors.

(** *** The audit persister *)
Module Logs.
Section Logs.
Context `{!Externals}.

Record t := mk {
  infra_Context : infra.Context;
  Database : nat
}.

Definition Persist (l : t) (logs : list LogRecord) : M (option string) :=
  database.Transaction (Database l) (LogsModel logs).

End Logs.
End Logs.

End repository.

(** ** handler *)
Module handler.
Section handler.
Context `{!Externals}.

Definition WebContextNotFoundError : string :=
  "无法找到 WebContextMust，请检查 WebContextMiddleware 是否被正确".

Definition PanicServerInternalError {A} (err : value) : M A := panic err.

Definition WebContextMust
    (WebContextGetter : M (option Context * bool)) : M (option Context) :=
  '(webCtx, ok) ← WebContextGetter;
  if negb ok then
    gin.Error WebContextNotFoundError;;
    PanicServerInternalError
      (VServerInternalError 500
         (VMap [("message", VStr "WebContextMust not found")])
         WebContextNotFoundError)
  else mret webCtx.

(** [ctx.Log.<Method>(...)]: a method call through the [*web.Context]. *)
Definition ctx_Log (ctx : option Context) (lvl : level) (c : logcall) : M unit :=
  match ctx with
  | Some ctx => web.call (Log ctx) lvl c
  | None =>
      panic (VError "runtime error: invalid memory address or nil pointer dereference")
  end.

Definition GetById (WebContextGetter : M (option Context * bool)) : M unit :=
  ctx ← WebContextMust WebContextGetter;
  ctx_Log ctx INFO (Kv "GetById" [VStr "id"; VInt 1]);;
  gin.Error "a custom error".

(** Business handlers in general, as the sequence of what they do to
    the request: log through the request context, record an error,
    write a response, panic, or read the request ID. *)
Inductive action :=
| ALog (lvl : level) (c : logcall)
| AError (msg : string)
| AJSON (code : Z) (obj : value)
| APanic (v : value)
| AReadID.

Definition step (WebContextGetter : M (option Context * bool)) (a : action) : M unit :=
  match a with
  | ALog lvl c => ctx ← WebContextMust WebContextGetter; ctx_Log ctx lvl c
  | AError msg => gin.Error msg
  | AJSON code obj => gin.JSON code obj
  | APanic v => panic v
  | AReadID => id ← web.RequestIdGetter; emit (EvSawID id)
  end.

Fixpoint run (WebContextGetter : M (option Context * bool)) (s : list action) : M unit :=
  match s with
  | [] => mret tt
  | a :: s' => step WebContextGetter a;; run WebContextGetter s'
  end.

End handler.
End handler.

(** ** cmd/main.go: the wiring *)
Module cmd.
Section main.
Context `{!Externals}.

Definition context : infra.Context := infra.mkContext BaseLogger.

Definition db : nat := 0.

Definition logsPersister : repository.Logs.t :=
  repository.Logs.mk context db.

(** [func(log domain.Log) *web.Context] *)
Definition constructor (log : LogRef) : Context :=
  {| Database := db; Log := log |}.

Definition contextMiddleware : M unit -> M unit :=
  web.ContextMiddleware constructor (infra.Log context)
    (repository.Logs.Persist logsPersister).

Definition errorsPersister : repository.Errors.t :=
  repository.Errors.mk context "./errors" db.

(** [func() string { return uuid.NewString() }] *)
Definition idGen : M string := emit EvIdGen;; mret uuid_NewString.

Definition panicHandler (err : value) : M unit :=
  match err with
  | VServerInternalError _ body _ => gin.JSON 500 body
  | _ => gin.JSON 500 err
  end.

(** The four [engine.Use] stages around the route handler, in the order
    in which both entry points register them, for any panic handler and
    any [ErrorStackPersister]. *)
Definition stages (panicHandler : value -> M unit)
    (persistent : Errors -> M unit) (h : M unit) : M unit :=
  web.RequestIDMiddleware idGen
    (web.ErrorPersisterMiddleware persistent
       (infra.Log context) web.RequestIdGetter
       (web.Recover panicHandler
          (contextMiddleware h))).

(** The engine as [main] configures it. *)
Definition engine (h : M unit) : M unit :=
  stages panicHandler (repository.Errors.Persist errorsPersister) h.

(** [apiV1.GET("/", router.User.GetById)] *)
Definition GetById : M unit := handler.GetById web.ContextMiddlewareGetter.

(** A route whose handler is the script [s]. *)
Definition serve (s : list handler.action) : M unit :=
  engine (handler.run web.ContextMiddlewareGetter s).

End main.
End cmd.

(** ** The entry point with the user routes

    The second [main] of the repository builds the same context, database
    and persisters and registers the same four stages; its panic handler
    answers every panic with one fixed body. *)
Module app.
Section main.
Context `{!Externals}.

Definition panicHandler (err : value) : M unit :=
  gin.JSON 500
    (VMap [("error", VStr "internal_server_error");
           ("message", VStr "An internal error occurred")]).

Definition engine (h : M unit) : M unit :=
  cmd.stages panicHandler (repository.Errors.Persist cmd.errorsPersister) h.

End main.
End app.

(** ** Test doubles for the external collaborators

    Concrete collaborators on which the pipeline can be run: a small JSON
    encoder (strings are quoted without escaping; a channel cannot be
    encoded, as in [encoding/json]), a fixed clock and UUID, and switches
    for the failures of the database, of the file system and of the
    logging backend. *)
Module doubles.

Definition dq : string := String (Ascii.ascii_of_nat 34) EmptyString.
Definition nl : string := String (Ascii.ascii_of_nat 10) EmptyString.

Definition unsupported : string := "json: unsupported type: chan int".

(** [sep] starts every element, [close] ends the composite; with no
    indentation both are empty. *)
Fixpoint encode (indent cur : string) (v : value) : string + string :=
  let inner := cur +:+ indent in
  let sep := if decide (indent = "") then "" else nl +:+ inner in
  let close := if decide (indent = "") then "" else nl +:+ cur in
  let colon := if decide (indent = "") then ":" else ": " in
  match v with
  | VNil => inl "null"
  | VStr s => inl (dq +:+ s +:+ dq)
  | VInt n => inl (pretty n)
  | VSlice [] => inl "[]"
  | VSlice vs =>
      let fix items (first : bool) (vs : list value) : string + string :=
        match vs with
        | [] => inl ""
        | v :: vs' =>
            match encode indent inner v, items false vs' with
            | inl a, inl b => inl ((if first then "" else ",") +:+ sep +:+ a +:+ b)
            | inr e, _ => inr e
            | _, inr e => inr e
            end
        end in
      match items true vs with
      | inl body => inl ("[" +:+ body +:+ close +:+ "]")
      | inr e => inr e
      end
  | VMap [] => inl "{}"
  | VMap kvs =>
      let fix fields (first : bool) (kvs : list (string * value)) : string + string :=
        match kvs with
        | [] => inl ""
        | (k, v) :: kvs' =>
            match encode indent inner v, fields false kvs' with
            | inl a, inl b =>
                inl ((if first then "" else ",") +:+ sep
                       +:+ dq +:+ k +:+ dq +:+ colon +:+ a +:+ b)
            | inr e, _ => inr e
            | _, inr e => inr e
            end
        end in
      match fields true kvs with
      | inl body => inl ("{" +:+ body +:+ close +:+ "}")
      | inr e => inr e
      end
  | VChan _ => inr unsupported
  | VError _ => inl "{}"
  | VContext _ => inl "{}"
  | VServerInternalError _ body _ =>
      match encode indent inner body with
      | inl b => inl ("{" +:+ sep +:+ dq +:+ "Body" +:+ dq +:+ colon +:+ b +:+ close +:+ "}")
      | inr e => inr e
      end
  end.

(** [%v]: strings bare, slices in brackets, a channel as its address. *)
Fixpoint show (v : value) : string :=
  match v with
  | VNil => "<nil>"
  | VStr s => s
  | VInt n => pretty n
  | VSlice vs =>
      let fix items (first : bool) (vs : list value) : string :=
        match vs with
        | [] => ""
        | v :: vs' => (if first then "" else " ") +:+ show v +:+ items false vs'
        end in
      "[" +:+ items true vs +:+ "]"
  | VMap _ => "map[]"
  | VChan _ => "0xc000012060"
  | VError msg => msg
  | VContext _ => "&{}"
  | VServerInternalError _ _ err => "{" +:+ err +:+ "}"
  end.

(** The switches: the database error, the errors of [MkdirAll],
    [OpenFile] and [Write], and the levels at which the logging backend
    panics after emitting. *)
Record Switches := {
  db_err : option string;
  mkdir_err : option string;
  open_err : option string;
  wr_err : option string;
  panics_at : level -> bool
}.

Definition externals (s : Switches) : Externals := {|
  json_Marshal := encode "" "";
  json_MarshalIndent v prefix indent := encode indent prefix v;
  fmt_v := show;
  time_Now_Format _ := "20240131T235959.123";
  filepath_Join dir name :=
    (if String.prefix "./" dir
     then String.substring 2 (String.length dir - 2) dir
     else dir) +:+ "/" +:+ name;
  uuid_NewString := "7c9e6679-7425-40de-944b-e07fc1f90ae7";
  db_commit _ := db_err s;
  mkdirall_err _ := mkdir_err s;
  openfile_err _ := open_err s;
  write_err _ _ := wr_err s;
  log_reaction lvl c :=
    if panics_at s lvl then
      Some (VStr match c with
                 | Plain args => String.concat "" (show <$> args)
                 | Fmt template _ => template
                 | Kv msg _ => msg
                 end)
    else None
|}.

Definition never : level -> bool := fun _ => false.

(** Everything works. *)
Definition healthy : Switches :=
  {| db_err := None; mkdir_err := None; open_err := None; wr_err := None;
     panics_at := never |}.

(** The database is unreachable; the file system works. *)
Definition db_down : Switches :=
  {| db_err := Some "dial tcp 127.0.0.1:5432: connect: connection refused";
     mkdir_err := None; open_err := None; wr_err := None;
     panics_at := never |}.

(** The database is unreachable and the fallback directory cannot be
    created. *)
Definition all_down : Switches :=
  {| db_err := Some "dial tcp 127.0.0.1:5432: connect: connection refused";
     mkdir_err := Some "mkdir ./errors: permission denied";
     open_err := None; wr_err := None;
     panics_at := never |}.

(** A backend whose Panic-level methods panic after emitting, like the
    zap logger that [log.Zap()] builds. *)
Definition zap_like : Switches :=
  {| db_err := None; mkdir_err := None; open_err := None; wr_err := None;
     panics_at := fun lvl => match lvl with PANIC | DPANIC => true | _ => false end |}.

Definition GET (path : string) (headers : list (string * string)) : Request :=
  {| req_Method := "GET"; req_URL := path; req_Path := path;
     req_ClientIP := "192.0.2.7"; req_Header := list_to_map headers |}.

(** A request as gin hands it to the first stage. *)
Definition fresh (r : Request) : World :=
  {| request := r; Keys := ∅; ctx_Errors := []; logs := [];
     files := ∅; trace := [] |}.

End doubles.

(** * Specification vocabulary *)

(** ** What a trace shows

    [Logs.Persist] and [Errors.Persist] start a transaction on the data
    they are handed, whatever follows: the transactions of a trace are
    the calls the two persisters received, in order. *)
Definition logs_persisted (t : list event) : list (list LogRecord) :=
  omap (fun e => match e with EvTransaction (LogsModel l) => Some l | _ => None end) t.

Definition errors_persisted (t : list event) : list Errors :=
  omap (fun e => match e with EvTransaction (ErrorModel r) => Some r | _ => None end) t.

(** The calls that reached the base logger, and those at error level. *)
Definition base_logs (t : list event) : list (level * logcall) :=
  omap (fun e => match e with EvLog lvl c => Some (lvl, c) | _ => None end) t.

Definition error_logs (t : list event) : list logcall :=
  omap (fun e => match e with EvLog ERROR c => Some c | _ => None end) t.

(** The responses written. *)
Definition responses (t : list event) : list (Z * value) :=
  omap (fun e => match e with EvJSON code body => Some (code, body) | _ => None end) t.

(** The request IDs that handlers read. *)
Definition ids_seen (t : list event) : list string :=
  omap (fun e => match e with EvSawID id => Some id | _ => None end) t.

(** The calls of the ID generator. *)
Definition id_generations (t : list event) : list unit :=
  omap (fun e => match e with EvIdGen => Some tt | _ => None end) t.

(** Events that none of these observers looks at, the logger calls
    apart. *)
Definition silent (e : event) : Prop :=
  match e with
  | EvTransaction _ | EvJSON _ _ | EvSawID _ | EvIdGen => False
  | _ => True
  end.

(** ** Handlers only extend the request

    Whatever a handler script does, it leaves the request, the keys and
    the files alone, and only adds recorded errors, buffered log records,
    calls on the base logger, responses and reads of the request ID, each
    of which yields what the keys hold. *)
Definition handler_event (k : gmap string value) (e : event) : Prop :=
  match e with
  | EvLog _ _ | EvJSON _ _ => True
  | EvSawID id =>
      k !! web.idKey = Some (VStr id) \/ (k !! web.idKey = None /\ id = "")
  | _ => False
  end.

Record extends (w w' : World) : Prop := mk_extends {
  ext_request : request w' = request w;
  ext_Keys : Keys w' = Keys w;
  ext_files : files w' = files w;
  ext_errors : exists es, ctx_Errors w' = (ctx_Errors w ++ es)%list;
  ext_logs : exists ls, logs w' = (logs w ++ ls)%list;
  ext_trace : exists evs,
    trace w' = (trace w ++ evs)%list /\ Forall (handler_event (Keys w)) evs
}.

(** A computation that only extends the request. *)
Definition extending {A} (m : M A) : Prop := forall w, extends w (snd (m w)).

(** ** The collector *)

Definition level_name (lvl : level) : string :=
  match lvl with
  | DEBUG => "DEBUG" | INFO => "INFO" | WARN => "WARN" | ERROR => "ERROR"
  | DPANIC => "DPANIC" | PANIC => "PANIC" | FATAL => "FATAL"
  end.

(** What a method hands to [appendToLogs]: the arguments of a plain call,
    the two-element sequence of the template (or message) and the argument
    list of a format or keyed-pairs call. *)
Definition captured (c : logcall) : list value :=
  match c with
  | Plain args => args
  | Fmt template args => [VStr template; VSlice args]
  | Kv msg keysAndValues => [VStr msg; VSlice keysAndValues]
  end.

Definition buffered (r : LogRecord) (w : World) : World :=
  set_logs (fun l => (l ++ [r])%list) w.

(** ** The stages *)

(** The world in which the context-injection stage runs the rest of the
    chain, and the world it leaves. *)
Definition injected (constructor : LogRef -> Context) (innerLogger : LogRef)
    (w : World) : World :=
  set_Keys
    (insert web.webContextKey (VContext (constructor (WebLogger innerLogger))))
    (set_logs (fun _ => []) w).

Definition flushed (w : World) : World :=
  add_event (EvTransaction (LogsModel (logs w)))
    (set_Keys (insert web.webContextKey VNil) w).

(** The report the error-persistence stage builds. *)
Definition report_of (r : Request) (id : string) (errs : list string) : Errors :=
  {| Stack := VStr (gin.Errors_String errs);
     Method := req_Method r;
     URL := req_URL r;
     Path := req_Path r;
     IP := req_ClientIP r;
     RequestID := id |}.

(** The call that logs a panic of the persister. *)
Definition persister_panicked (v : value) (errs : list string) : logcall :=
  Kv "ErrorPersister 抛出错误"
     [VStr "error"; v; VStr "stackErrors"; VSlice (VError <$> errs)].

(** A panic handler that answers a panic with one response of status 500
    and returns. *)
Definition responds (panicHandler : value -> M unit) (respond : value -> value) : Prop :=
  forall v w, panicHandler v w = (Ret tt, add_event (EvJSON 500 (respond v)) w).

(** The body with which [cmd/main.go] answers a panic. *)
Definition response_body (v : value) : value :=
  match v with
  | VServerInternalError _ body _ => body
  | _ => v
  end.

(** The body with which the second entry point answers every panic. *)
Definition fixed_body (v : value) : value :=
  VMap [("error", VStr "internal_server_error");
        ("message", VStr "An internal error occurred")].

(** The response to the outcome of the handler. *)
Definition answer (respond : value -> value) (r : result unit) : list event :=
  match r with
  | Panicked v => if is_nil v then [] else [EvJSON 500 (respond v)]
  | Ret _ => []
  end.

(** The world after the panic-recovery stage, from the outcome of the
    handler. *)
Definition recovered (respond : value -> value) (r : result unit * World) : World :=
  match r with
  | (Ret _, w1) => flushed w1
  | (Panicked v, w1) =>
      if is_nil v then flushed w1
      else add_event (EvJSON 500 (respond v)) (flushed w1)
  end.

(** The message of the last resort of the error persister, and the call
    that carries it. *)
Definition both_failed : string :=
  "无法向错误数据库写入错误堆栈，也无法向错误文件写入".

Definition last_resort (err : string) (errors : Errors) : logcall :=
  Kv both_failed [VStr "err"; VError err; VStr "errors"; Errors_value errors].

(** An [ErrorStackPersister] that receives the report and then panics with
    the given value, or returns when there is none. *)
Definition faulty_persister (v : option value) (report : Errors) : M unit :=
  emit (EvTransaction (ErrorModel report));;
  match v with
  | Some v => panic v
  | None => mret tt
  end.

Ltac trace_tail := eexists; simpl; rewrite <- ?app_assoc; simpl; reflexivity.

Section vocabulary.
Context `{!Externals}.

(** The base logger returns from every call at level [lvl]. *)
Definition quiet_at (lvl : level) : Prop :=
  forall c, log_reaction lvl c = None.

(** The message [appendToLogs] stores for a sequence of arguments, and the
    record a call of the collector adds. *)
Definition message (args : list value) : string :=
  match json_Marshal (VSlice args) with
  | inl jsonBytes => jsonBytes
  | inr err => "序列化错误: " +:+ err +:+ ", 原始参数: " +:+ fmt_v (VSlice args)
  end.

Definition record (lvl : level) (c : logcall) : LogRecord :=
  mkLog (level_name lvl) (message (captured c)).

(** A sequence of calls on the collector of a request, as
    [ContextMiddleware] builds it over the base logger. *)
Fixpoint calls (cs : list (level * logcall)) : M unit :=
  match cs with
  | [] => mret tt
  | (lvl, c) :: cs' => web.call (WebLogger BaseLogger) lvl c;; calls cs'
  end.

(** The name and the path of the fallback file of a report. *)
Definition fallback_name (rec : Errors) : string :=
  "error_" +:+ RequestID rec +:+ "_"
    +:+ time_Now_Format "20060102T150405.000" +:+ ".json".

Definition fallback_path (dir : string) (rec : Errors) : string :=
  filepath_Join dir (fallback_name rec).

(** The bytes [saveToFile] writes: the indented encoding, or nothing
    when the encoder fails (the error is discarded). *)
Definition fallback_data (rec : Errors) : string :=
  match json_MarshalIndent (Errors_value rec) "" "  " with
  | inl data => data
  | inr _ => ""
  end.

(** The worlds [saveToFile] goes through. *)
Definition after_mkdir (dir : string) (w : World) : World :=
  add_event (EvMkdirAll dir) w.

Definition after_open (path : string) (w : World) : World :=
  set_files
    (fun fs => match fs !! path with Some _ => fs | None => <[path := ""]> fs end)
    (add_event (EvOpenFile path) w).

Definition after_write (path data : string) (w : World) : World :=
  set_files (fun fs => <[path := default "" (fs !! path) +:+ data]> fs)
    (add_event (EvWrite path data) w).

(** The deferred function of the error-persistence stage. *)
Definition guard (log : LogRef) (r : result unit * World) : result unit * World :=
  match r with
  | (Ret _, w) => (Ret tt, w)
  | (Panicked v, w) =>
      if is_nil v then (Ret tt, w)
      else web.call log ERROR (persister_panicked v (ctx_Errors w)) w
  end.

(** The request ID of a request: the inbound header, or a new UUID when
    the header is absent or empty. *)
Definition request_id (w : World) : string :=
  let header := default "" (req_Header (request w) !! "X-Request-ID") in
  if decide (header = "") then uuid_NewString else header.

(** The world the request-ID stage hands on, and the call of the ID
    generator it makes when the request carries no ID. *)
Definition identified (w : World) : World :=
  let header := default "" (req_Header (request w) !! "X-Request-ID") in
  if decide (header = "") then
    set_Keys (insert web.idKey (VStr uuid_NewString))
      (set_Keys (insert "X-Request-ID" (VStr uuid_NewString))
         (add_event EvIdGen w))
  else set_Keys (insert web.idKey (VStr header)) w.

Definition minted (w : World) : list event :=
  if decide (default "" (req_Header (request w) !! "X-Request-ID") = "")
  then [EvIdGen] else [].

(** The world at the entry of the route handler. *)
Definition entry (w : World) : World :=
  injected cmd.constructor BaseLogger (identified w).

End vocabulary.

(** ** The file-system calls of a trace *)

(** The paths of the [os.OpenFile] and of the [Close] calls. *)
Definition opens (t : list event) : list string :=
  omap (fun e => match e with EvOpenFile p => Some p | _ => None end) t.

Definition closes (t : list event) : list string :=
  omap (fun e => match e with EvClose p => Some p | _ => None end) t.

(** The panic value of a failed type assertion [s.(string)]. *)
Definition not_a_string : value :=
  VError "interface conversion: interface {} is not string".

(** The panic of [WebContextMust] and the body it carries. *)
Definition context_not_found_body : value :=
  VMap [("message", VStr "WebContextMust not found")].

Definition context_not_found : value :=
  VServerInternalError 500 context_not_found_body handler.WebContextNotFoundError.

(** * Start-up: the configuration loader and the database handle *)

(** ** infra/conf *)
Module conf.

Record Logger := mkLogger { Level : string }.

Record Web := mkWeb { Web_Port : Z }.

Record DatabaseConf := mkDatabaseConf {
  Driver : string;
  Host : string;
  Port : Z;
  Database : string;
  Username : string;
  Password : string;
  DSN : string
}.

(** [Conf]; its three sections are pointers, [None] being nil. *)
Record Conf := mkConf {
  ProductionMode : bool;
  Conf_Logger : option Logger;
  Conf_Web : option Web;
  Conf_Database : option DatabaseConf
}.

End conf.

(** ** infra/loader *)
Module loader.

Record LoadConfig := mkLoadConfig {
  Paths : list string;
  Files : list string
}.

(** [loader.Context]; [Config] is a pointer. *)
Record Context := mkContext {
  Config : option LoadConfig;
  Log : LogRef
}.

Definition Default : LoadConfig :=
  {| Paths := ["."; "./config"]; Files := ["config.json"; "app.json"] |}.

(** A [*LoadConfig] as a logged value. *)
Definition LoadConfig_value (c : LoadConfig) : value :=
  VMap [("Paths", VSlice (VStr <$> Paths c)); ("Files", VSlice (VStr <$> Files c))].

End loader.

(** What the loader and the database handle call and do not define:
    [strings.TrimSpace], [os.Stat] as far as [os.IsNotExist] looks at its
    error, [os.Open], the [Stat] of the open file (its size, or an error),
    what reading the open file to its end yields, [json.Unmarshal] into a
    [Conf], the build of the zap logger and [gorm.Open] on a connection
    string. *)
Class Startup := {
  strings_TrimSpace : string -> string;
  os_Stat_IsNotExist : string -> bool;
  os_Open_err : string -> option string;
  File_Stat_Size : string -> Z + string;
  io_ReadAll : string -> string + string;
  json_Unmarshal : string -> conf.Conf + string;
  zap_Build_err : option string;
  gorm_Open : string -> nat + string
}.

(** The panic value of a nil pointer dereference. *)
Definition nil_dereference : value :=
  VError "runtime error: invalid memory address or nil pointer dereference".

(** ** infra/loader/json *)
Module byjson.

(** The Go errors of the loader: an error of [os], [io] or
    [encoding/json], or an [*Error] of this package, whose [Err] may be
    nil. *)
#[warnings="-register-all"]
Inductive error :=
| Foreign (msg : string)
| Error (Msg : string) (Err : option error).

(** [err.Error()]; for an [*Error] it is [Msg]. *)
Definition Error_Error (e : error) : string :=
  match e with
  | Foreign msg => msg
  | Error Msg _ => Msg
  end.

Definition MaxConfigFileSize : Z := 100 * 1024 * 1024.

(** Go's integer division truncates. *)
Definition toMB (size : Z) : Z := Z.quot size (1024 * 1024).

Definition MaxConfigFileSizeMB : Z := toMB MaxConfigFileSize.

(** [io.LimitReader(r, n)] read to its end: at most [n] bytes. *)
Fixpoint LimitReader (data : string) (n : Z) : string :=
  match data with
  | EmptyString => EmptyString
  | String c rest => if decide (n <= 0)%Z then EmptyString else String c (LimitReader rest (n - 1))
  end.

Section byjson.
Context `{!Externals} `{!Startup}.

(** The loop of [filterEmptyString], from the slice built so far. *)
Fixpoint filterEmptyString_loop (notEmpty strs : list string) : list string :=
  match strs with
  | [] => notEmpty
  | str :: strs' =>
      if decide (String.length (strings_TrimSpace str) <> 0)
      then filterEmptyString_loop (notEmpty ++ [str])%list strs'
      else filterEmptyString_loop notEmpty strs'
  end.

Definition filterEmptyString (strs : list string) : list string :=
  filterEmptyString_loop [] strs.

Definition parse (ctx : loader.Context) (path : string)
    : M (option conf.Conf * option error) :=
  emit (EvOpenFile path);;
  match os_Open_err path with
  | Some err =>
      web.call (loader.Log ctx) ERROR (Kv "无法打开文件" [VStr "error"; VError err]);;
      mret (None, Some (Error "无法打开文件" (Some (Foreign err))))
  | None =>
      defer_ (os.File_Close path)
        match File_Stat_Size path with
        | inr err =>
            web.call (loader.Log ctx) ERROR
              (Plain [VStr "无法获得文件描述符"; VStr "error"; VError err]);;
            mret (None, Some (Error "无法获得文件描述符" (Some (Foreign err))))
        | inl size =>
            if decide (size > MaxConfigFileSize)%Z then
              web.call (loader.Log ctx) ERROR
                (Fmt "配置文件大小超过 %d" [VInt MaxConfigFileSizeMB]);;
              mret (None,
                    Some (Error ("配置文件大小超过 " +:+ pretty MaxConfigFileSizeMB) None))
            else
              match io_ReadAll path with
              | inr err =>
                  web.call (loader.Log ctx) ERROR
                    (Plain [VStr "无法读取配置文件"; VStr "error"; VError err]);;
                  mret (None, Some (Error "无法读取配置文件" (Some (Foreign err))))
              | inl contents =>
                  let data := LimitReader contents MaxConfigFileSize in
                  match json_Unmarshal data with
                  | inr err =>
                      web.call (loader.Log ctx) ERROR
                        (Plain [VStr "无法反序列化配置文件到 Conf"; VStr "error"; VError err]);;
                      mret (None,
                            Some (Error "无法反序列化配置文件到 Conf" (Some (Foreign err))))
                  | inl config => mret (Some config, None)
                  end
              end
        end
  end.

(** One turn of the inner loop of [load] on the candidate [f]: [inl] is
    the [return] of the found configuration, [inr] goes on with the errors
    collected so far. *)
Definition try_candidate (ctx : loader.Context) (f : string) (errors : list error)
    : M (option conf.Conf + list error) :=
  web.call (loader.Log ctx) DEBUG (Plain [VStr "尝试配置文件路径"]);;
  if os_Stat_IsNotExist f then
    web.call (loader.Log ctx) DEBUG (Plain [VStr "配置文件不存在"]);;
    mret (inr errors)
  else
    web.call (loader.Log ctx) DEBUG (Plain [VStr "发现配置文件"]);;
    '(parsed, err) ← parse ctx f;
    match err with
    | Some err => mret (inr (errors ++ [err])%list)
    | None => mret (inl parsed)
    end.

(** [for _, n := range notEmptyFiles] *)
Fixpoint files_loop (ctx : loader.Context) (p : string) (ns : list string)
    (errors : list error) : M (option conf.Conf + list error) :=
  match ns with
  | [] => mret (inr errors)
  | n :: ns' =>
      r ← try_candidate ctx (filepath_Join p n) errors;
      match r with
      | inl parsed => mret (inl parsed)
      | inr errors => files_loop ctx p ns' errors
      end
  end.

(** [for _, p := range notEmptyPaths] *)
Fixpoint paths_loop (ctx : loader.Context) (ps ns : list string)
    (errors : list error) : M (option conf.Conf + list error) :=
  match ps with
  | [] => mret (inr errors)
  | p :: ps' =>
      r ← files_loop ctx p ns errors;
      match r with
      | inl parsed => mret (inl parsed)
      | inr errors => paths_loop ctx ps' ns errors
      end
  end.

Definition load (ctx : loader.Context) : M (option conf.Conf * option error) :=
  match loader.Config ctx with
  | None => panic nil_dereference
  | Some loadConfig =>
      let notEmptyFiles := filterEmptyString (loader.Files loadConfig) in
      let notEmptyPaths := filterEmptyString (loader.Paths loadConfig) in
      if decide (length notEmptyPaths = 0 \/ length notEmptyFiles = 0) then
        web.call (loader.Log ctx) ERROR
          (Kv "配置文件的路径或者文件名为空"
             [VStr "config"; loader.LoadConfig_value loadConfig]);;
        mret (None, Some (Error "配置文件路径或者文件名为空" None))
      else
        r ← paths_loop ctx notEmptyPaths notEmptyFiles [];
        match r with
        | inl parsed => mret (parsed, None)
        | inr errors =>
            web.call (loader.Log ctx) ERROR
              (Kv "未找到可用的配置文件"
                 [VStr "config"; loader.LoadConfig_value loadConfig;
                  VStr "errors"; VSlice ((fun e => VError (Error_Error e)) <$> errors)]);;
            match last errors with
            | Some last =>
                mret (None, Some (Error (Error_Error last) (Some last)))
            | None => mret (None, Some (Error "未找到可用的配置文件" None))
            end
        end
  end.

(** [JSONLoader.Load] *)
Definition Load (ctx : loader.Context) : M (option conf.Conf * option error) :=
  load ctx.

End byjson.
End byjson.

(** ** infra and infra/database at start-up *)
Module startup.

(** [infra.Context] as start-up builds and reads it: the logger and the
    configuration, a pointer (the [infra.Context] of the persisters above
    is its logger alone). *)
Record Context := mkContext {
  Log : LogRef;
  Conf : option conf.Conf
}.

Section startup.
Context `{!Externals} `{!Startup}.

(** [log.Zap()]: the logger, or a panic with the error of its build. *)
Definition Zap : M LogRef :=
  match zap_Build_err with
  | Some err => panic (VError err)
  | None => mret BaseLogger
  end.

(** [infra.Prepare(PrepareConfig{Loader, config})] *)
Definition Prepare
    (Loader : loader.Context -> M (option conf.Conf * option byjson.error))
    (config : option loader.LoadConfig) : M (option Context * option byjson.error) :=
  logger ← Zap;
  let config :=
    match config with
    | None => Some loader.Default
    | Some config => Some config
    end in
  '(config, err) ← Loader (loader.mkContext config logger);
  match err with
  | Some err => mret (None, Some err)
  | None => mret (Some (mkContext logger config), None)
  end.

(** The connection string [database.From] builds with [fmt.Sprintf]. *)
Definition dsn_of (config : conf.DatabaseConf) : string :=
  "host=" +:+ conf.Host config +:+ " user=" +:+ conf.Username config
    +:+ " password=" +:+ conf.Password config
    +:+ " dbname=" +:+ conf.Database config
    +:+ " port=" +:+ pretty (conf.Port config)
    +:+ " sslmode=disable TimeZone=Asia/Shanghai".

(** [database.From(ctx)]: the handle, or the error of [gorm.Open]. *)
Definition From (ctx : Context) : M (option nat * option string) :=
  match Conf ctx with
  | None => panic nil_dereference
  | Some c =>
      match conf.Conf_Database c with
      | None => panic nil_dereference
      | Some config =>
          let dsn := dsn_of config in
          web.call (Log ctx) INFO (Kv "连接PostgresSQL数据库" [VStr "dsn"; VStr dsn]);;
          match gorm_Open dsn with
          | inr err => mret (None, Some err)
          | inl db => mret (Some db, None)
          end
      end
  end.

End startup.
End startup.

(** ** Vocabulary of the loader *)

(** A world whose trace has grown by the given events. *)
Definition traced (evs : list event) (w : World) : World :=
  mkWorld (request w) (Keys w) (ctx_Errors w) (logs w) (files w) (trace w ++ evs).

(** The events of reading configuration files: calls on the logger, and
    files opened and closed. *)
Definition reading (e : event) : Prop :=
  match e with
  | EvLog _ _ | EvOpenFile _ | EvClose _ => True
  | _ => False
  end.

Section loading.
Context `{!Externals} `{!Startup}.

(** The candidate files of [load], in the order in which it tries them:
    every path with every file name, paths first. *)
Definition candidates (ps ns : list string) : list string :=
  p ← ps; filepath_Join p <$> ns.

(** What opening, measuring, reading and decoding a file comes to. *)
Definition decoded (path : string) : conf.Conf + byjson.error :=
  match os_Open_err path with
  | Some err => inr (byjson.Error "无法打开文件" (Some (byjson.Foreign err)))
  | None =>
      match File_Stat_Size path with
      | inr err => inr (byjson.Error "无法获得文件描述符" (Some (byjson.Foreign err)))
      | inl size =>
          if decide (size > 104857600)%Z then
            inr (byjson.Error "配置文件大小超过 100" None)
          else
            match io_ReadAll path with
            | inr err => inr (byjson.Error "无法读取配置文件" (Some (byjson.Foreign err)))
            | inl contents =>
                match json_Unmarshal (byjson.LimitReader contents 104857600) with
                | inr err =>
                    inr (byjson.Error "无法反序列化配置文件到 Conf"
                           (Some (byjson.Foreign err)))
                | inl config => inl config
                end
            end
      end
  end.

(** A candidate that exists and decodes to [c], and one that is absent or
    does not decode. *)
Definition usable (f : string) (c : conf.Conf) : Prop :=
  os_Stat_IsNotExist f = false /\ decoded f = inl c.

Definition unusable (f : string) : Prop :=
  os_Stat_IsNotExist f = true \/ exists e, decoded f = inr e.

(** The errors of the candidates that exist and do not decode, in
    order. *)
Definition refusals (fs : list string) : list byjson.error :=
  omap (fun f =>
          if os_Stat_IsNotExist f then None
          else match decoded f with inr e => Some e | inl _ => None end) fs.

(** The names that [filterEmptyString] keeps. *)
Definition named (strs : list string) : list string :=
  filter (fun str => String.length (strings_TrimSpace str) <> 0) strs.

End loading.

Section searching.
Context `{!Externals} `{!Startup}.

(** The configuration of the first usable candidate, and the candidates
    that the search opens: those that exist, up to the first usable
    one. *)
Fixpoint first_usable (fs : list string) : option conf.Conf :=
  match fs with
  | [] => None
  | f :: fs' =>
      if os_Stat_IsNotExist f then first_usable fs'
      else match decoded f with
           | inl c => Some c
           | inr _ => first_usable fs'
           end
  end.

Fixpoint visited (fs : list string) : list string :=
  match fs with
  | [] => []
  | f :: fs' =>
      if os_Stat_IsNotExist f then visited fs'
      else match decoded f with
           | inl _ => [f]
           | inr _ => f :: visited fs'
           end
  end.

End searching.

(** ** Test doubles for start-up

    A disk of files that open and read without error, a [TrimSpace] that
    is exact on strings of blanks and on strings without leading or
    trailing white space, and a decoder that knows two texts. *)
Module disk.

Fixpoint blank (s : string) : bool :=
  match s with
  | EmptyString => true
  | String c rest => if decide (c = Ascii.ascii_of_nat 32) then blank rest else false
  end.

Definition TrimSpace (s : string) : string := if blank s then "" else s.

Definition production_json : string :=
  "{" +:+ doubles.dq +:+ "production" +:+ doubles.dq +:+ ":true}".

Definition production : conf.Conf := conf.mkConf true None None None.

Definition empty : conf.Conf := conf.mkConf false None None None.

Definition Unmarshal (data : string) : conf.Conf + string :=
  if decide (data = production_json) then inl production
  else if decide (data = "{}") then inl empty
  else inr "invalid character 'p' looking for beginning of value".

(** A disk holds the contents of its files by path. *)
Definition startup (files : gmap string string) : Startup := {|
  strings_TrimSpace := TrimSpace;
  os_Stat_IsNotExist f := bool_decide (files !! f = None);
  os_Open_err f :=
    match files !! f with
    | Some _ => None
    | None => Some ("open " +:+ f +:+ ": no such file or directory")
    end;
  File_Stat_Size f := inl (Z.of_nat (String.length (default "" (files !! f))));
  io_ReadAll f := inl (default "" (files !! f));
  json_Unmarshal := Unmarshal;
  zap_Build_err := None;
  gorm_Open _ := inl 0
|}.

(** A disk with a [config.json] that is not JSON in the working
    directory and a good [app.json] under [config]. *)
Definition two_files : gmap string string :=
  {[ "./config.json" := "production: true"; "config/app.json" := production_json ]}.

(** A disk with the first of the two only. *)
Definition one_file : gmap string string :=
  {[ "./config.json" := "production: true" ]}.

End disk.

(** * The user routes of the second entry point

    The domain, application, infrastructure and interface layers behind
    [/api/v1/users]. *)

(** [uuid.UUID], with [uuid.Nil], and [time.Time]. *)
Module uuid.
Definition UUID := N.
Definition Nil : UUID := 0%N.
End uuid.

Module time.
Definition Time := Z.
End time.

(** What [uuid.New()] and [time.Now()] return. *)
Class Clock := {
  uuid_New : uuid.UUID;
  time_Now : time.Time
}.

(** ** internal/domain/entity *)
Module entity.

Definition UUID := uuid.UUID.
Definition Time := time.Time.

Record User := mkUser {
  ID : UUID;
  Email : string;
  Username : string;
  Name : string;
  CreatedAt : Time;
  UpdatedAt : Time
}.

Section entity.
Context `{!Clock}.

Definition NewUser (email username name : string) : User :=
  let now := time_Now in
  {| ID := uuid_New;
     Email := email;
     Username := username;
     Name := name;
     CreatedAt := now;
     UpdatedAt := now |}.

(** [u.UpdateProfile(name)]: the user it leaves behind the pointer. *)
Definition UpdateProfile (u : User) (name : string) : User :=
  let u := mkUser (ID u) (Email u) (Username u) name (CreatedAt u) (UpdatedAt u) in
  mkUser (ID u) (Email u) (Username u) (Name u) (CreatedAt u) time_Now.

End entity.

Definition IsValid (u : User) : bool :=
  bool_decide (ID u <> uuid.Nil) && bool_decide (Email u <> "")
    && bool_decide (Username u <> "") && bool_decide (Name u <> "").

End entity.

(** ** Go errors of the user routes

    The three sentinels of the package [service], [gorm.ErrRecordNotFound],
    an error built by [fmt.Errorf] with [%w] at the end of its format, and
    any other error.  Two errors are the same interface value when they
    are equal here. *)
Inductive error :=
| ErrUserNotFound
| ErrUserAlreadyExists
| ErrInvalidUserData
| ErrRecordNotFound
| Errorf (prefix : string) (err : error)
| OtherError (msg : string).

(** [err.Error()] *)
Fixpoint Error_string (e : error) : string :=
  match e with
  | ErrUserNotFound => "user not found"
  | ErrUserAlreadyExists => "user already exists"
  | ErrInvalidUserData => "invalid user data"
  | ErrRecordNotFound => "record not found"
  | Errorf prefix err => prefix +:+ Error_string err
  | OtherError msg => msg
  end.

(** [errors.Is(err, gorm.ErrRecordNotFound)]: the chain of wrapped errors
    is followed. *)
Fixpoint Is_ErrRecordNotFound (e : error) : bool :=
  match e with
  | ErrRecordNotFound => true
  | Errorf _ err => Is_ErrRecordNotFound err
  | _ => false
  end.

(** Go's [int] and [int64]: the sum of two [int]s wraps around. *)
Definition wrap64 (z : Z) : Z :=
  ((z + 2 ^ 63) mod 2 ^ 64 - 2 ^ 63)%Z.

(** ** The database model of a user *)
Module UserModel.

Record t := mk {
  ID : entity.UUID;
  Email : string;
  Username : string;
  Name : string;
  CreatedAt : entity.Time;
  UpdatedAt : entity.Time
}.

Definition TableName : string := "users".

Definition ToEntity (m : t) : entity.User :=
  {| entity.ID := ID m;
     entity.Email := Email m;
     entity.Username := Username m;
     entity.Name := Name m;
     entity.CreatedAt := CreatedAt m;
     entity.UpdatedAt := UpdatedAt m |}.

(** [m.FromEntity(user)] assigns the six fields of [m] one after the
    other. *)
Definition FromEntity (m : t) (user : entity.User) : t :=
  let m := mk (entity.ID user) (Email m) (Username m) (Name m) (CreatedAt m) (UpdatedAt m) in
  let m := mk (ID m) (entity.Email user) (Username m) (Name m) (CreatedAt m) (UpdatedAt m) in
  let m := mk (ID m) (Email m) (entity.Username user) (Name m) (CreatedAt m) (UpdatedAt m) in
  let m := mk (ID m) (Email m) (Username m) (entity.Name user) (CreatedAt m) (UpdatedAt m) in
  let m := mk (ID m) (Email m) (Username m) (Name m) (entity.CreatedAt user) (UpdatedAt m) in
  mk (ID m) (Email m) (Username m) (Name m) (CreatedAt m) (entity.UpdatedAt user).

(** [&UserModel{}] *)
Definition zero : t := mk 0%N "" "" "" 0%Z 0%Z.

End UserModel.

(** ** internal/domain/usecase: requests and responses *)
Module usecase.

Module CreateUserRequest.
Record t := mk { Email : string; Username : string; Name : string }.
End CreateUserRequest.

Module UpdateUserProfileRequest.
Record t := mk { ID : entity.UUID; Name : string }.
End UpdateUserProfileRequest.

Module ListUsersRequest.
Record t := mk { Offset : Z; Limit : Z }.
End ListUsersRequest.

(** [Users] is a slice of pointers. *)
Module ListUsersResponse.
Record t := mk {
  Users : list (option entity.User);
  Total : Z;
  Offset : Z;
  Limit : Z;
  HasMore : bool
}.
End ListUsersResponse.

(** The interface [UserUseCase]; a [context.Context] argument is passed
    on unchanged and left out. *)
Record UserUseCase := mkUserUseCase {
  CreateUser : CreateUserRequest.t -> M (option entity.User * option error);
  GetUserByID : entity.UUID -> M (option entity.User * option error);
  GetUserByEmail : string -> M (option entity.User * option error);
  UpdateUserProfile :
    UpdateUserProfileRequest.t -> M (option entity.User * option error);
  DeleteUser : entity.UUID -> M (option error);
  ListUsers : ListUsersRequest.t -> M (option ListUsersResponse.t * option error)
}.

End usecase.

(** ** internal/domain/repository: the interface [UserRepository] *)
Module domain_repository.

Record UserRepository := mkUserRepository {
  Create : entity.User -> M (option error);
  GetByID : entity.UUID -> M (option entity.User * option error);
  GetByEmail : string -> M (option entity.User * option error);
  GetByUsername : string -> M (option entity.User * option error);
  Update : entity.User -> M (option error);
  Delete : entity.UUID -> M (option error);
  List : Z -> Z -> M (list (option entity.User) * option error);
  Count : M (Z * option error)
}.

End domain_repository.

(** The request body of [POST /users] as the handler binds it. *)
Module CreateUserBody.
Record t := mk { Email : string; Username : string; Name : string }.
End CreateUserBody.

(** What the user routes call and do not define: the outcome of each
    [Database.Transaction] of the repository ([First] by a column,
    [Create], [Updates], [Delete], [Find] with an offset and a limit,
    [Count]); [uuid.Parse] and [UUID.String]; [Time.Format];
    [strconv.Atoi]; and of gin the route parameter, the query value and the
    outcome of [ShouldBindJSON] for the two request bodies. *)
Class UserLand := {
  tx_Create : UserModel.t -> option error;
  tx_First_id : entity.UUID -> UserModel.t + error;
  tx_First_email : string -> UserModel.t + error;
  tx_First_username : string -> UserModel.t + error;
  tx_Updates : entity.UUID -> UserModel.t -> option error;
  tx_Delete : entity.UUID -> option error;
  tx_Find : Z -> Z -> list UserModel.t + error;
  tx_Count : Z * option error;
  uuid_Parse : string -> entity.UUID + string;
  uuid_String : entity.UUID -> string;
  time_Format : entity.Time -> string -> string;
  strconv_Atoi : string -> Z + string;
  gin_Param : Request -> string -> string;
  gin_GetQuery : Request -> string -> option string;
  bind_CreateUser : Request -> CreateUserBody.t + string;
  bind_Name : Request -> string + string
}.

(** ** internal/infrastructure/repository *)
Module infrastructure.
Section infrastructure.
Context `{!UserLand}.

Record UserRepositoryImpl := mkUserRepositoryImpl { db : nat }.

(** The end of the three lookups: a missing row is no user and no
    error. *)
Definition found (r : UserModel.t + error) : M (option entity.User * option error) :=
  match r with
  | inr err =>
      if Is_ErrRecordNotFound err then mret (None, None)
      else mret (None, Some err)
  | inl model => mret (Some (UserModel.ToEntity model), None)
  end.

Definition Create (r : UserRepositoryImpl) (user : entity.User) : M (option error) :=
  let model := UserModel.FromEntity UserModel.zero user in
  mret (tx_Create model).

Definition GetByID (r : UserRepositoryImpl) (id : entity.UUID)
    : M (option entity.User * option error) :=
  found (tx_First_id id).

Definition GetByEmail (r : UserRepositoryImpl) (email : string)
    : M (option entity.User * option error) :=
  found (tx_First_email email).

Definition GetByUsername (r : UserRepositoryImpl) (username : string)
    : M (option entity.User * option error) :=
  found (tx_First_username username).

Definition Update (r : UserRepositoryImpl) (user : entity.User) : M (option error) :=
  let model := UserModel.FromEntity UserModel.zero user in
  mret (tx_Updates (entity.ID user) model).

Definition Delete (r : UserRepositoryImpl) (id : entity.UUID) : M (option error) :=
  mret (tx_Delete id).

(** [for i, model := range models { users[i] = model.ToEntity() }] *)
Fixpoint List_loop (i : nat) (models : list UserModel.t)
    (users : list (option entity.User)) : list (option entity.User) :=
  match models with
  | [] => users
  | model :: models' =>
      List_loop (S i) models' (<[i := Some (UserModel.ToEntity model)]> users)
  end.

Definition List (r : UserRepositoryImpl) (offset limit : Z)
    : M (list (option entity.User) * option error) :=
  match tx_Find offset limit with
  | inr err => mret ([], Some err)
  | inl models =>
      let users := replicate (length models) None in
      mret (List_loop 0 models users, None)
  end.

Definition Count (r : UserRepositoryImpl) : M (Z * option error) :=
  mret tx_Count.

Definition NewUserRepository (db : nat) : domain_repository.UserRepository :=
  let r := mkUserRepositoryImpl db in
  {| domain_repository.Create := Create r;
     domain_repository.GetByID := GetByID r;
     domain_repository.GetByEmail := GetByEmail r;
     domain_repository.GetByUsername := GetByUsername r;
     domain_repository.Update := Update r;
     domain_repository.Delete := Delete r;
     domain_repository.List := List r;
     domain_repository.Count := Count r |}.

End infrastructure.
End infrastructure.

(** ** internal/application/service *)
Module service.
Section service.
Context `{!Externals} `{!Clock} `{!UserLand}.

Import usecase.

Record UserService := mkUserService {
  userRepo : domain_repository.UserRepository;
  logger : LogRef
}.

(** A [uuid.UUID], an error and a [*entity.User] as logged values. *)
Definition id_value (id : entity.UUID) : value := VStr (uuid_String id).

Definition err_value (err : error) : value := VError (Error_string err).

Definition user_value (user : entity.User) : value :=
  VMap [("ID", id_value (entity.ID user)); ("Email", VStr (entity.Email user));
        ("Username", VStr (entity.Username user)); ("Name", VStr (entity.Name user));
        ("CreatedAt", VInt (entity.CreatedAt user));
        ("UpdatedAt", VInt (entity.UpdatedAt user))].

Definition CreateUser (s : UserService) (req : CreateUserRequest.t)
    : M (option entity.User * option error) :=
  web.call (logger s) INFO
    (Kv "CreateUser" [VStr "email"; VStr (CreateUserRequest.Email req);
                      VStr "username"; VStr (CreateUserRequest.Username req)]);;
  '(existingUser, err) ← domain_repository.GetByEmail (userRepo s)
                            (CreateUserRequest.Email req);
  if bool_decide (err = None) && bool_decide (existingUser <> None) then
    web.call (logger s) WARN
      (Kv "User creation failed - email already exists"
         [VStr "email"; VStr (CreateUserRequest.Email req)]);;
    mret (None, Some ErrUserAlreadyExists)
  else
    '(existingUser, err) ← domain_repository.GetByUsername (userRepo s)
                              (CreateUserRequest.Username req);
    if bool_decide (err = None) && bool_decide (existingUser <> None) then
      web.call (logger s) WARN
        (Kv "User creation failed - username already exists"
           [VStr "username"; VStr (CreateUserRequest.Username req)]);;
      mret (None, Some ErrUserAlreadyExists)
    else
      let user := entity.NewUser (CreateUserRequest.Email req)
                    (CreateUserRequest.Username req) (CreateUserRequest.Name req) in
      if negb (entity.IsValid user) then
        web.call (logger s) ERROR
          (Kv "User creation failed - invalid data" [VStr "user"; user_value user]);;
        mret (None, Some ErrInvalidUserData)
      else
        err ← domain_repository.Create (userRepo s) user;
        match err with
        | Some err =>
            web.call (logger s) ERROR
              (Kv "Failed to create user"
                 [VStr "error"; err_value err; VStr "user"; user_value user]);;
            mret (None, Some (Errorf "failed to create user: " err))
        | None =>
            web.call (logger s) INFO
              (Kv "User created successfully"
                 [VStr "userID"; id_value (entity.ID user);
                  VStr "email"; VStr (entity.Email user)]);;
            mret (Some user, None)
        end.

Definition GetUserByID (s : UserService) (id : entity.UUID)
    : M (option entity.User * option error) :=
  web.call (logger s) INFO (Kv "GetUserByID" [VStr "userID"; id_value id]);;
  '(user, err) ← domain_repository.GetByID (userRepo s) id;
  match err with
  | Some err =>
      web.call (logger s) ERROR
        (Kv "Failed to get user by ID"
           [VStr "error"; err_value err; VStr "userID"; id_value id]);;
      mret (None, Some ErrUserNotFound)
  | None =>
      match user with
      | None =>
          web.call (logger s) WARN (Kv "User not found" [VStr "userID"; id_value id]);;
          mret (None, Some ErrUserNotFound)
      | Some user => mret (Some user, None)
      end
  end.

Definition GetUserByEmail (s : UserService) (email : string)
    : M (option entity.User * option error) :=
  web.call (logger s) INFO (Kv "GetUserByEmail" [VStr "email"; VStr email]);;
  '(user, err) ← domain_repository.GetByEmail (userRepo s) email;
  match err with
  | Some err =>
      web.call (logger s) ERROR
        (Kv "Failed to get user by email"
           [VStr "error"; err_value err; VStr "email"; VStr email]);;
      mret (None, Some ErrUserNotFound)
  | None =>
      match user with
      | None =>
          web.call (logger s) WARN (Kv "User not found" [VStr "email"; VStr email]);;
          mret (None, Some ErrUserNotFound)
      | Some user => mret (Some user, None)
      end
  end.

Definition UpdateUserProfile (s : UserService) (req : UpdateUserProfileRequest.t)
    : M (option entity.User * option error) :=
  let id := UpdateUserProfileRequest.ID req in
  web.call (logger s) INFO
    (Kv "UpdateUserProfile"
       [VStr "userID"; id_value id;
        VStr "name"; VStr (UpdateUserProfileRequest.Name req)]);;
  '(user, err) ← domain_repository.GetByID (userRepo s) id;
  match err with
  | Some err =>
      web.call (logger s) ERROR
        (Kv "Failed to get user for update"
           [VStr "error"; err_value err; VStr "userID"; id_value id]);;
      mret (None, Some ErrUserNotFound)
  | None =>
      match user with
      | None =>
          web.call (logger s) WARN
            (Kv "User not found for update" [VStr "userID"; id_value id]);;
          mret (None, Some ErrUserNotFound)
      | Some user =>
          let user := entity.UpdateProfile user (UpdateUserProfileRequest.Name req) in
          if negb (entity.IsValid user) then
            web.call (logger s) ERROR
              (Kv "User update failed - invalid data" [VStr "user"; user_value user]);;
            mret (None, Some ErrInvalidUserData)
          else
            err ← domain_repository.Update (userRepo s) user;
            match err with
            | Some err =>
                web.call (logger s) ERROR
                  (Kv "Failed to update user"
                     [VStr "error"; err_value err; VStr "userID"; id_value id]);;
                mret (None, Some (Errorf "failed to update user: " err))
            | None =>
                web.call (logger s) INFO
                  (Kv "User profile updated successfully"
                     [VStr "userID"; id_value (entity.ID user)]);;
                mret (Some user, None)
            end
      end
  end.

Definition DeleteUser (s : UserService) (id : entity.UUID) : M (option error) :=
  web.call (logger s) INFO (Kv "DeleteUser" [VStr "userID"; id_value id]);;
  '(user, err) ← domain_repository.GetByID (userRepo s) id;
  if bool_decide (err <> None) || bool_decide (user = None) then
    web.call (logger s) WARN
      (Kv "User not found for deletion" [VStr "userID"; id_value id]);;
    mret (Some ErrUserNotFound)
  else
    err ← domain_repository.Delete (userRepo s) id;
    match err with
    | Some err =>
        web.call (logger s) ERROR
          (Kv "Failed to delete user"
             [VStr "error"; err_value err; VStr "userID"; id_value id]);;
        mret (Some (Errorf "failed to delete user: " err))
    | None =>
        web.call (logger s) INFO
          (Kv "User deleted successfully" [VStr "userID"; id_value id]);;
        mret None
    end.

Definition ListUsers (s : UserService) (req : ListUsersRequest.t)
    : M (option ListUsersResponse.t * option error) :=
  web.call (logger s) INFO
    (Kv "ListUsers"
       [VStr "offset"; VInt (ListUsersRequest.Offset req);
        VStr "limit"; VInt (ListUsersRequest.Limit req)]);;
  let req :=
    if decide (ListUsersRequest.Limit req <= 0)%Z
    then ListUsersRequest.mk (ListUsersRequest.Offset req) 10
    else req in
  let req :=
    if decide (ListUsersRequest.Limit req > 100)%Z
    then ListUsersRequest.mk (ListUsersRequest.Offset req) 100
    else req in
  '(total, err) ← domain_repository.Count (userRepo s);
  match err with
  | Some err =>
      web.call (logger s) ERROR
        (Kv "Failed to get user count" [VStr "error"; err_value err]);;
      mret (None, Some (Errorf "failed to get user count: " err))
  | None =>
      '(users, err) ← domain_repository.List (userRepo s)
                         (ListUsersRequest.Offset req) (ListUsersRequest.Limit req);
      match err with
      | Some err =>
          web.call (logger s) ERROR
            (Kv "Failed to list users"
               [VStr "error"; err_value err;
                VStr "offset"; VInt (ListUsersRequest.Offset req);
                VStr "limit"; VInt (ListUsersRequest.Limit req)]);;
          mret (None, Some (Errorf "failed to list users: " err))
      | None =>
          let hasMore :=
            bool_decide
              (wrap64 (ListUsersRequest.Offset req + ListUsersRequest.Limit req) < total)%Z in
          let response :=
            {| ListUsersResponse.Users := users;
               ListUsersResponse.Total := total;
               ListUsersResponse.Offset := ListUsersRequest.Offset req;
               ListUsersResponse.Limit := ListUsersRequest.Limit req;
               ListUsersResponse.HasMore := hasMore |} in
          web.call (logger s) INFO
            (Kv "Users listed successfully"
               [VStr "total"; VInt total;
                VStr "returned"; VInt (Z.of_nat (length users))]);;
          mret (Some response, None)
      end
  end.

Definition NewUserService (userRepo : domain_repository.UserRepository)
    (logger : LogRef) : UserUseCase :=
  let s := mkUserService userRepo logger in
  {| usecase.CreateUser := CreateUser s;
     usecase.GetUserByID := GetUserByID s;
     usecase.GetUserByEmail := GetUserByEmail s;
     usecase.UpdateUserProfile := UpdateUserProfile s;
     usecase.DeleteUser := DeleteUser s;
     usecase.ListUsers := ListUsers s |}.

End service.
End service.

(** ** internal/interface/http *)
Module http.
Section http.
Context `{!Externals} `{!UserLand}.

Record UserHandler := mkUserHandler {
  userUseCase : usecase.UserUseCase;
  logger : LogRef
}.

Definition NewUserHandler (userUseCase : usecase.UserUseCase) (logger : LogRef)
    : UserHandler :=
  mkUserHandler userUseCase logger.

(** The response structs as the values handed to [c.JSON], by field. *)
Definition ErrorResponse (Error Message : string) : value :=
  VMap [("Error", VStr Error); ("Message", VStr Message)].

Definition UserResponse (ID Email Username Name CreatedAt UpdatedAt : string) : value :=
  VMap [("ID", VStr ID); ("Email", VStr Email); ("Username", VStr Username);
        ("Name", VStr Name); ("CreatedAt", VStr CreatedAt);
        ("UpdatedAt", VStr UpdatedAt)].

(** A bool is held as the text of its JSON encoding. *)
Definition ListUsersResponse (Users : list value) (Total Offset Limit : Z)
    (HasMore : bool) : value :=
  VMap [("Users", VSlice Users); ("Total", VInt Total); ("Offset", VInt Offset);
        ("Limit", VInt Limit); ("HasMore", VStr (if HasMore then "true" else "false"))].

(** The response built from a [*entity.User]; a nil pointer panics at its
    first field. *)
Definition response_of (user : option entity.User) : M value :=
  match user with
  | None => panic nil_dereference
  | Some user =>
      mret (UserResponse
              (uuid_String (entity.ID user))
              (entity.Email user) (entity.Username user) (entity.Name user)
              (time_Format (entity.CreatedAt user) "2006-01-02T15:04:05Z07:00")
              (time_Format (entity.UpdatedAt user) "2006-01-02T15:04:05Z07:00"))
  end.

Definition handleError (h : UserHandler) (err : error) : M unit :=
  match err with
  | ErrUserNotFound =>
      gin.JSON 404 (ErrorResponse "user_not_found" "User not found")
  | ErrUserAlreadyExists =>
      gin.JSON 409
        (ErrorResponse "user_already_exists"
           "User with email or username already exists")
  | ErrInvalidUserData =>
      gin.JSON 400 (ErrorResponse "invalid_user_data" "Invalid user data provided")
  | _ =>
      web.call (logger h) ERROR
        (Kv "Internal server error" [VStr "error"; service.err_value err]);;
      gin.JSON 500
        (ErrorResponse "internal_server_error" "An internal error occurred")
  end.

Definition CreateUser (h : UserHandler) : M unit :=
  w ← get;
  match bind_CreateUser (request w) with
  | inr err =>
      web.call (logger h) WARN
        (Kv "Invalid request for create user" [VStr "error"; VError err]);;
      gin.JSON 400 (ErrorResponse "invalid_request" err)
  | inl req =>
      let useCaseReq :=
        usecase.CreateUserRequest.mk (CreateUserBody.Email req)
          (CreateUserBody.Username req) (CreateUserBody.Name req) in
      '(user, err) ← usecase.CreateUser (userUseCase h) useCaseReq;
      match err with
      | Some err => handleError h err
      | None =>
          response ← response_of user;
          gin.JSON 201 response
      end
  end.

Definition invalid_id (h : UserHandler) (idStr err : string) : M unit :=
  web.call (logger h) WARN
    (Kv "Invalid user ID format" [VStr "id"; VStr idStr; VStr "error"; VError err]);;
  gin.JSON 400 (ErrorResponse "invalid_id" "Invalid user ID format").

Definition GetUserByID (h : UserHandler) : M unit :=
  w ← get;
  let idStr := gin_Param (request w) "id" in
  match uuid_Parse idStr with
  | inr err => invalid_id h idStr err
  | inl id =>
      '(user, err) ← usecase.GetUserByID (userUseCase h) id;
      match err with
      | Some err => handleError h err
      | None =>
          response ← response_of user;
          gin.JSON 200 response
      end
  end.

Definition UpdateUserProfile (h : UserHandler) : M unit :=
  w ← get;
  let idStr := gin_Param (request w) "id" in
  match uuid_Parse idStr with
  | inr err => invalid_id h idStr err
  | inl id =>
      match bind_Name (request w) with
      | inr err =>
          web.call (logger h) WARN
            (Kv "Invalid request for update user" [VStr "error"; VError err]);;
          gin.JSON 400 (ErrorResponse "invalid_request" err)
      | inl name =>
          let useCaseReq := usecase.UpdateUserProfileRequest.mk id name in
          '(user, err) ← usecase.UpdateUserProfile (userUseCase h) useCaseReq;
          match err with
          | Some err => handleError h err
          | None =>
              response ← response_of user;
              gin.JSON 200 response
          end
      end
  end.

Definition DeleteUser (h : UserHandler) : M unit :=
  w ← get;
  let idStr := gin_Param (request w) "id" in
  match uuid_Parse idStr with
  | inr err => invalid_id h idStr err
  | inl id =>
      err ← usecase.DeleteUser (userUseCase h) id;
      match err with
      | Some err => handleError h err
      | None => gin.JSON 204 VNil
      end
  end.

(** [c.DefaultQuery(key, defaultValue)] *)
Definition DefaultQuery (key defaultValue : string) : M string :=
  w ← get; mret (default defaultValue (gin_GetQuery (request w) key)).

(** [make([]UserResponse, n)] holds zero values. *)
Definition zero_UserResponse : value := UserResponse "" "" "" "" "" "".

(** [for i, user := range result.Users { users[i] = UserResponse{...} }] *)
Fixpoint users_loop (i : nat) (rest : list (option entity.User)) (users : list value)
    : M (list value) :=
  match rest with
  | [] => mret users
  | user :: rest' =>
      response ← response_of user;
      users_loop (S i) rest' (<[i := response]> users)
  end.

Definition invalid_offset (h : UserHandler) (offsetStr : string) : M unit :=
  web.call (logger h) WARN
    (Kv "Invalid offset parameter" [VStr "offset"; VStr offsetStr]);;
  gin.JSON 400
    (ErrorResponse "invalid_offset" "Offset must be a non-negative integer").

Definition invalid_limit (h : UserHandler) (limitStr : string) : M unit :=
  web.call (logger h) WARN
    (Kv "Invalid limit parameter" [VStr "limit"; VStr limitStr]);;
  gin.JSON 400
    (ErrorResponse "invalid_limit"
       "Limit must be a positive integer between 1 and 100").

(** [if err != nil || offset < 0] and [if err != nil || limit <= 0 ||
    limit > 100]: the number is looked at only when [Atoi] returned no
    error. *)
Definition ListUsers (h : UserHandler) : M unit :=
  offsetStr ← DefaultQuery "offset" "0";
  limitStr ← DefaultQuery "limit" "10";
  match strconv_Atoi offsetStr with
  | inr _ => invalid_offset h offsetStr
  | inl offset =>
      if bool_decide (offset < 0)%Z then invalid_offset h offsetStr
      else
        match strconv_Atoi limitStr with
        | inr _ => invalid_limit h limitStr
        | inl limit =>
            if bool_decide (limit <= 0)%Z || bool_decide (limit > 100)%Z
            then invalid_limit h limitStr
            else
              let useCaseReq := usecase.ListUsersRequest.mk offset limit in
              '(result, err) ← usecase.ListUsers (userUseCase h) useCaseReq;
              match err with
              | Some err => handleError h err
              | None =>
                  match result with
                  | None => panic nil_dereference
                  | Some result =>
                      let n := length (usecase.ListUsersResponse.Users result) in
                      users ← users_loop 0 (usecase.ListUsersResponse.Users result)
                                (replicate n zero_UserResponse);
                      gin.JSON 200
                        (ListUsersResponse users
                           (usecase.ListUsersResponse.Total result)
                           (usecase.ListUsersResponse.Offset result)
                           (usecase.ListUsersResponse.Limit result)
                           (usecase.ListUsersResponse.HasMore result))
                  end
              end
        end
  end.

End http.
End http.

(** ** The user routes as the second entry point wires them *)
Module users.
Section users.
Context `{!Externals} `{!Clock} `{!UserLand}.

Definition userRepo : domain_repository.UserRepository :=
  infrastructure.NewUserRepository cmd.db.

Definition userService : usecase.UserUseCase :=
  service.NewUserService userRepo (infra.Log cmd.context).

Definition userHandler : http.UserHandler :=
  http.NewUserHandler userService (infra.Log cmd.context).

(** The five routes under [/api/v1/users]. *)
Inductive route := POST_users | GET_users | GET_user | PUT_user | DELETE_user.

Definition handler_of (r : route) : M unit :=
  match r with
  | POST_users => http.CreateUser userHandler
  | GET_users => http.ListUsers userHandler
  | GET_user => http.GetUserByID userHandler
  | PUT_user => http.UpdateUserProfile userHandler
  | DELETE_user => http.DeleteUser userHandler
  end.

(** The health check of the entry point. *)
Definition health : M unit :=
  gin.JSON 200 (VMap [("status", VStr "healthy"); ("service", VStr "web-clean")]).

End users.
End users.

(** ** Vocabulary of the user routes *)

(** A call on the base logger. *)
Definition is_log (e : event) : Prop :=
  match e with
  | EvLog _ _ => True
  | _ => False
  end.

(** The base logger returns from the calls at the three levels at which
    the user routes log. *)
Definition calm `{!Externals} : Prop :=
  quiet_at INFO /\ quiet_at WARN /\ quiet_at ERROR.

(** The statuses of each user route. *)
Definition statuses (r : users.route) : list Z :=
  match r with
  | users.POST_users => [201; 400; 409; 500]
  | users.GET_users => [200; 400; 500]
  | users.GET_user => [200; 400; 404]
  | users.PUT_user => [200; 400; 404; 500]
  | users.DELETE_user => [204; 400; 404; 500]
  end%Z.

(** The limit [ListUsers] of the service works with. *)
Definition effective_limit (limit : Z) : Z :=
  if decide (limit <= 0)%Z then 10%Z
  else if decide (limit > 100)%Z then 100%Z else limit.

(** A lookup that found a user: a user and no error. *)
Definition taken (r : option entity.User * option error) : bool :=
  match r with
  | (Some _, None) => true
  | _ => false
  end.

(** What the service makes of a lookup of the repository. *)
Definition looked_for (r : option entity.User * option error)
    : option entity.User * option error :=
  match r with
  | (Some user, None) => (Some user, None)
  | _ => (None, Some ErrUserNotFound)
  end.

(** A computation that, on the request [r], returns [a] after calls on the
    base logger and does nothing else. *)
Definition logging {A} (r : Request) (m : M A) (a : A) : Prop :=
  exists logged,
    Forall is_log logged /\
    forall w, request w = r -> m w = (Ret a, traced logged w).

(** A handler that, on the request [r], returns after calls on the base
    logger and one response, and does nothing else. *)
Definition answering (r : Request) (h : M unit) (code : Z) (body : value) : Prop :=
  exists logged,
    Forall is_log logged /\
    forall w, request w = r ->
      h w = (Ret tt, traced (logged ++ [EvJSON code body]) w).

(** The response of the user routes for a user, and the one for a failed
    request. *)
Definition rendered `{!UserLand} (user : entity.User) : value :=
  VMap [("ID", VStr (uuid_String (entity.ID user)));
        ("Email", VStr (entity.Email user));
        ("Username", VStr (entity.Username user));
        ("Name", VStr (entity.Name user));
        ("CreatedAt", VStr (time_Format (entity.CreatedAt user) "2006-01-02T15:04:05Z07:00"));
        ("UpdatedAt", VStr (time_Format (entity.UpdatedAt user) "2006-01-02T15:04:05Z07:00"))].

Definition failure (Error Message : string) : value :=
  VMap [("Error", VStr Error); ("Message", VStr Message)].

(** The status and the body with which [handleError] answers an error. *)
Definition status_of (err : error) : Z :=
  match err with
  | ErrUserNotFound => 404
  | ErrUserAlreadyExists => 409
  | ErrInvalidUserData => 400
  | _ => 500
  end%Z.

Definition error_body (err : error) : value :=
  match err with
  | ErrUserNotFound => failure "user_not_found" "User not found"
  | ErrUserAlreadyExists =>
      failure "user_already_exists" "User with email or username already exists"
  | ErrInvalidUserData => failure "invalid_user_data" "Invalid user data provided"
  | _ => failure "internal_server_error" "An internal error occurred"
  end.

(** The page of users as the list route renders it. *)
Definition page `{!UserLand} (users : list entity.User) (total offset limit : Z)
    (more : bool) : value :=
  VMap [("Users", VSlice (rendered <$> users)); ("Total", VInt total);
        ("Offset", VInt offset); ("Limit", VInt limit);
        ("HasMore", VStr (if more then "true" else "false"))].

(** The user handler over the service over a repository, all with the
    base logger, as the entry point builds it. *)
Definition handler_over `{!Externals} `{!Clock} `{!UserLand}
    (repo : domain_repository.UserRepository) : http.UserHandler :=
  http.NewUserHandler (service.NewUserService repo BaseLogger) BaseLogger.

(** A result and an error of which exactly one is nil. *)
Definition one_of_both {A} (out : option A * option error) : Prop :=
  (exists x, out = (Some x, None)) \/ (exists err, out = (None, Some err)).

(** What holds of the value of a run that returns. *)
Definition returning {A} (r : result A * World) (P : A -> Prop) : Prop :=
  match fst r with
  | Ret a => P a
  | Panicked _ => True
  end.

(** ** user_service_test.go: the mock repository

    [MockUserRepository] returns from every method what the test has
    registered for it; the expectations are the functions of [Answers]. *)
Module mocks.

Record Answers := mkAnswers {
  on_Create : entity.User -> option error;
  on_GetByID : entity.UUID -> option entity.User * option error;
  on_GetByEmail : string -> option entity.User * option error;
  on_GetByUsername : string -> option entity.User * option error;
  on_Update : entity.User -> option error;
  on_Delete : entity.UUID -> option error;
  on_List : Z -> Z -> list (option entity.User) * option error;
  on_Count : Z * option error
}.

Definition MockUserRepository (a : Answers) : domain_repository.UserRepository :=
  {| domain_repository.Create user := mret (on_Create a user);
     domain_repository.GetByID id := mret (on_GetByID a id);
     domain_repository.GetByEmail email := mret (on_GetByEmail a email);
     domain_repository.GetByUsername username := mret (on_GetByUsername a username);
     domain_repository.Update user := mret (on_Update a user);
     domain_repository.Delete id := mret (on_Delete a id);
     domain_repository.List offset limit := mret (on_List a offset limit);
     domain_repository.Count := mret (on_Count a) |}.

End mocks.

(** A repository whose methods return the given answers and leave the
    request alone, as the mock and the repository over the database
    do. *)
Record answers_with (repo : domain_repository.UserRepository)
    (a : mocks.Answers) : Prop := mk_answers_with {
  aw_Create : forall user w,
    domain_repository.Create repo user w = (Ret (mocks.on_Create a user), w);
  aw_GetByID : forall id w,
    domain_repository.GetByID repo id w = (Ret (mocks.on_GetByID a id), w);
  aw_GetByEmail : forall email w,
    domain_repository.GetByEmail repo email w = (Ret (mocks.on_GetByEmail a email), w);
  aw_GetByUsername : forall username w,
    domain_repository.GetByUsername repo username w
      = (Ret (mocks.on_GetByUsername a username), w);
  aw_Update : forall user w,
    domain_repository.Update repo user w = (Ret (mocks.on_Update a user), w);
  aw_Delete : forall id w,
    domain_repository.Delete repo id w = (Ret (mocks.on_Delete a id), w);
  aw_List : forall offset limit w,
    domain_repository.List repo offset limit w = (Ret (mocks.on_List a offset limit), w);
  aw_Count : forall w,
    domain_repository.Count repo w = (Ret (mocks.on_Count a), w)
}.

Section stored.
Context `{!UserLand}.

(** The end of a lookup of the repository over the database. *)
Definition looked_up (r : UserModel.t + error) : option entity.User * option error :=
  match r with
  | inl model => (Some (UserModel.ToEntity model), None)
  | inr err => if Is_ErrRecordNotFound err then (None, None) else (None, Some err)
  end.

(** The answers of the repository over the database. *)
Definition stored : mocks.Answers :=
  {| mocks.on_Create user := tx_Create (UserModel.FromEntity UserModel.zero user);
     mocks.on_GetByID id := looked_up (tx_First_id id);
     mocks.on_GetByEmail email := looked_up (tx_First_email email);
     mocks.on_GetByUsername username := looked_up (tx_First_username username);
     mocks.on_Update user :=
       tx_Updates (entity.ID user) (UserModel.FromEntity UserModel.zero user);
     mocks.on_Delete id := tx_Delete id;
     mocks.on_List offset limit :=
       match tx_Find offset limit with
       | inl models => (Some <$> (UserModel.ToEntity <$> models), None)
       | inr err => ([], Some err)
       end;
     mocks.on_Count := tx_Count |}.

End stored.

(** ** Test doubles for the user routes

    A table of rows with a switch for an outage of the database, a fixed
    clock and UUID, UUIDs written as decimal numbers, and route
    parameters, query values and body fields read from the header map of
    the request under [:key], [?key] and the field name. *)
Module store.

Definition clock : Clock := {| uuid_New := 7%N; time_Now := 1700000000%Z |}.

Fixpoint digits (s : string) (acc : Z) : option Z :=
  match s with
  | EmptyString => Some acc
  | String c rest =>
      let n := Ascii.nat_of_ascii c in
      if decide (48 <= n <= 57)%nat
      then digits rest (10 * acc + Z.of_nat (n - 48))%Z
      else None
  end.

(** [strconv.Atoi] on decimal numbers with an optional minus sign. *)
Definition Atoi (s : string) : Z + string :=
  match s with
  | EmptyString => inr "invalid syntax"
  | String c rest =>
      if decide (Ascii.nat_of_ascii c = 45) then
        match rest with
        | EmptyString => inr "invalid syntax"
        | _ => match digits rest 0 with
               | Some n => inl (- n)%Z
               | None => inr "invalid syntax"
               end
        end
      else match digits s 0 with
           | Some n => inl n
           | None => inr "invalid syntax"
           end
  end.

Record Tables := mkTables {
  rows : list UserModel.t;
  outage : option error
}.

Definition first_by (t : Tables) (P : UserModel.t -> bool) : UserModel.t + error :=
  match outage t with
  | Some err => inr err
  | None =>
      match List.find P (rows t) with
      | Some row => inl row
      | None => inr ErrRecordNotFound
      end
  end.

Definition land (t : Tables) : UserLand := {|
  tx_Create _ := outage t;
  tx_First_id id := first_by t (fun row => bool_decide (UserModel.ID row = id));
  tx_First_email email := first_by t (fun row => bool_decide (UserModel.Email row = email));
  tx_First_username username :=
    first_by t (fun row => bool_decide (UserModel.Username row = username));
  tx_Updates _ _ := outage t;
  tx_Delete _ := outage t;
  tx_Find offset limit :=
    match outage t with
    | Some err => inr err
    | None => inl (take (Z.to_nat limit) (drop (Z.to_nat offset) (rows t)))
    end;
  tx_Count := (Z.of_nat (length (rows t)), outage t);
  uuid_Parse s :=
    match s with
    | EmptyString => inr "invalid UUID length: 0"
    | _ => match digits s 0 with
           | Some n => inl (Z.to_N n)
           | None => inr "invalid UUID format"
           end
    end;
  uuid_String id := pretty id;
  time_Format t _ := pretty t;
  strconv_Atoi := Atoi;
  gin_Param r key := default "" (req_Header r !! (":" +:+ key));
  gin_GetQuery r key := req_Header r !! ("?" +:+ key);
  bind_CreateUser r :=
    match req_Header r !! "email", req_Header r !! "username", req_Header r !! "name" with
    | Some email, Some username, Some name => inl (CreateUserBody.mk email username name)
    | _, _, _ => inr "EOF"
    end;
  bind_Name r :=
    match req_Header r !! "name" with
    | Some name => inl name
    | None => inr "EOF"
    end
|}.

Definition ada : UserModel.t :=
  UserModel.mk 1%N "ada@example.com" "ada" "Ada" 1600000000%Z 1600000000%Z.

Definition bob : UserModel.t :=
  UserModel.mk 2%N "bob@example.com" "bob" "Bob" 1600000001%Z 1600000001%Z.

(** Two users; the same table during an outage. *)
Definition two_users : Tables := mkTables [ada; bob] None.

Definition unreachable : Tables :=
  mkTables [ada; bob] (Some (OtherError "dial tcp 127.0.0.1:5432: connect: connection refused")).

Definition request (method path : string) (fields : list (string * string)) : Request :=
  {| req_Method := method; req_URL := path; req_Path := path;
     req_ClientIP := "192.0.2.7"; req_Header := list_to_map fields |}.

End store.

(** A query for one row that found it. *)
Definition row_found (r : UserModel.t + error) : bool :=
  match r with
  | inl _ => true
  | inr _ => false
  end.

(** * Lemmas *)

(** ** Running computations *)

Lemma bind_run {A B} (m : M A) (f : A -> M B) (w : World) :
  (m ≫= f) w =
  match m w with
  | (Ret a, w1) => f a w1
  | (Panicked v, w1) => (Panicked v, w1)
  end.
Proof. reflexivity. Qed.

Lemma Set_run (key : string) (v : value) (w : World) :
  gin.Set_ key v w = (Ret tt, set_Keys (insert key v) w).
Proof. reflexivity. Qed.

Lemma Get_run (key : string) (w : World) :
  gin.Get key w =
  (Ret match Keys w !! key with Some v => (v, true) | None => (VNil, false) end, w).
Proof.
  unfold gin.Get. rewrite bind_run. simpl. by destruct (Keys w !! key).
Qed.

(** ** Observers of a trace *)

Lemma omap_nil_Forall {A B} (f : A -> option B) (l : list A) :
  Forall (fun x => f x = None) l -> omap f l = [].
Proof.
  induction 1 as [|x l Hx _ IH]; [done|]. simpl. by rewrite Hx.
Qed.

Lemma logs_persisted_app (a b : list event) :
  logs_persisted (a ++ b) = (logs_persisted a ++ logs_persisted b)%list.
Proof. apply omap_app. Qed.

Lemma errors_persisted_app (a b : list event) :
  errors_persisted (a ++ b) = (errors_persisted a ++ errors_persisted b)%list.
Proof. apply omap_app. Qed.

Lemma responses_app (a b : list event) :
  responses (a ++ b) = (responses a ++ responses b)%list.
Proof. apply omap_app. Qed.

Lemma ids_seen_app (a b : list event) :
  ids_seen (a ++ b) = (ids_seen a ++ ids_seen b)%list.
Proof. apply omap_app. Qed.

Lemma id_generations_app (a b : list event) :
  id_generations (a ++ b) = (id_generations a ++ id_generations b)%list.
Proof. apply omap_app. Qed.

Lemma silent_observers (evs : list event) :
  Forall silent evs ->
  logs_persisted evs = [] /\ errors_persisted evs = [] /\
  responses evs = [] /\ ids_seen evs = [] /\ id_generations evs = [].
Proof.
  intros Hs. repeat split; apply omap_nil_Forall;
    (eapply Forall_impl; [exact Hs|]); by intros [].
Qed.

Lemma handler_events_observers (k : gmap string value) (evs : list event) :
  Forall (handler_event k) evs ->
  logs_persisted evs = [] /\ errors_persisted evs = [] /\
  id_generations evs = [].
Proof.
  intros Hs. repeat split; apply omap_nil_Forall;
    (eapply Forall_impl; [exact Hs|]); by intros [].
Qed.

Lemma handler_events_ids (k : gmap string value) (id : string) (evs : list event) :
  k !! web.idKey = Some (VStr id) ->
  Forall (handler_event k) evs ->
  Forall (fun i => i = id) (ids_seen evs).
Proof.
  intros Hk. induction 1 as [|e evs He _ IH]; [constructor|].
  destruct e; simpl in *; try done.
  constructor; [|exact IH].
  destruct He as [He|[He _]]; congruence.
Qed.

Lemma answer_observers (respond : value -> value) (r : result unit) :
  logs_persisted (answer respond r) = [] /\
  errors_persisted (answer respond r) = [] /\
  ids_seen (answer respond r) = [] /\
  id_generations (answer respond r) = [] /\
  responses (answer respond r) =
    match r with
    | Panicked v => if is_nil v then [] else [(500%Z, respond v)]
    | Ret _ => []
    end.
Proof.
  destruct r as [|v]; [done|]. simpl. by destruct (is_nil v).
Qed.

(** ** Handlers only extend the request *)

Lemma extends_refl w : extends w w.
Proof.
  split; try done; exists []; by rewrite app_nil_r.
Qed.

Lemma extends_trans w1 w2 w3 : extends w1 w2 -> extends w2 w3 -> extends w1 w3.
Proof.
  intros [Hr1 Hk1 Hf1 [es1 He1] [ls1 Hl1] [ev1 [Ht1 Hv1]]]
         [Hr2 Hk2 Hf2 [es2 He2] [ls2 Hl2] [ev2 [Ht2 Hv2]]].
  split; try congruence.
  - exists (es1 ++ es2)%list. by rewrite He2, He1, app_assoc.
  - exists (ls1 ++ ls2)%list. by rewrite Hl2, Hl1, app_assoc.
  - exists (ev1 ++ ev2)%list. split.
    + by rewrite Ht2, Ht1, app_assoc.
    + apply Forall_app. split; [done|]. by rewrite <- Hk1.
Qed.

Lemma extends_emit (e : event) (w : World) :
  handler_event (Keys w) e -> extends w (add_event e w).
Proof.
  intros He. split; try done; simpl.
  - exists []. by rewrite app_nil_r.
  - exists []. by rewrite app_nil_r.
  - exists [e]. split; [done | by constructor].
Qed.

Lemma extending_ret {A} (a : A) : extending (mret a : M A).
Proof. intros w. apply extends_refl. Qed.

Lemma extending_panic {A} (v : value) : extending (panic v : M A).
Proof. intros w. apply extends_refl. Qed.

Lemma extending_bind {A B} (m : M A) (f : A -> M B) :
  extending m -> (forall a, extending (f a)) -> extending (m ≫= f).
Proof.
  intros Hm Hf w. rewrite bind_run. specialize (Hm w).
  destruct (m w) as [[a|v] w1]; simpl in *; [|done].
  eapply extends_trans; [exact Hm | apply Hf].
Qed.

Lemma extending_Error (msg : string) : extending (gin.Error msg).
Proof.
  intros w. split; try done; simpl.
  - by exists [msg].
  - exists []. by rewrite app_nil_r.
  - exists []. by rewrite app_nil_r.
Qed.

Lemma extending_Get (key : string) : extending (gin.Get key).
Proof.
  intros w. rewrite Get_run. apply extends_refl.
Qed.

Section lemmas.
Context `{!Externals}.

Lemma Zap_run (lvl : level) (c : logcall) (w : World) :
  log.Zap lvl c w =
  match log_reaction lvl c with
  | Some v => (Panicked v, add_event (EvLog lvl c) w)
  | None => (Ret tt, add_event (EvLog lvl c) w)
  end.
Proof.
  unfold log.Zap. rewrite bind_run. simpl.
  destruct (log_reaction lvl c); reflexivity.
Qed.

Lemma appendToLogs_run (lvl : string) (args : list value) (w : World) :
  web.appendToLogs lvl args w = (Ret tt, buffered (mkLog lvl (message args)) w).
Proof.
  unfold web.appendToLogs, message.
  destruct (json_Marshal (VSlice args)); reflexivity.
Qed.

(** One method of the collector over any inner logger: the inner call,
    then the record of its level. *)
Lemma webLog_run (inner : level -> logcall -> M unit)
    (lvl : level) (c : logcall) (w : World) :
  web.webLog inner lvl c w =
  match inner lvl c w with
  | (Ret _, w1) => (Ret tt, buffered (record lvl c) w1)
  | (Panicked v, w1) => (Panicked v, w1)
  end.
Proof.
  destruct c, lvl; simpl;
    unfold web.Debug, web.Info, web.Warn, web.Error, web.DPanic, web.Panic,
      web.Fatal, web.Debugf, web.Infof, web.Warnf, web.Errorf, web.DPanicf,
      web.Panicf, web.Fatalf, web.Debugw, web.Infow, web.Warnw, web.Errorw,
      web.DPanicw, web.Panicw, web.Fatalw;
    rewrite bind_run;
    (destruct (inner _ _ w) as [[[]|v] w1];
     [apply appendToLogs_run | reflexivity]).
Qed.

(** The collector of a request over the base logger. *)
Lemma collector_run (lvl : level) (c : logcall) (w : World) :
  web.call (WebLogger BaseLogger) lvl c w =
  match log_reaction lvl c with
  | Some v => (Panicked v, add_event (EvLog lvl c) w)
  | None => (Ret tt, buffered (record lvl c) (add_event (EvLog lvl c) w))
  end.
Proof.
  simpl. rewrite webLog_run, Zap_run.
  destruct (log_reaction lvl c); reflexivity.
Qed.

Lemma extending_Zap (lvl : level) (c : logcall) : extending (log.Zap lvl c).
Proof.
  intros w. rewrite Zap_run.
  destruct (log_reaction lvl c); by apply extends_emit.
Qed.

Lemma extending_webLog (inner : level -> logcall -> M unit) :
  (forall lvl c, extending (inner lvl c)) ->
  forall lvl c, extending (web.webLog inner lvl c).
Proof.
  intros Hin lvl c w. rewrite webLog_run. specialize (Hin lvl c w).
  destruct (inner lvl c w) as [[[]|v] w1]; simpl in *; [|done].
  eapply extends_trans; [exact Hin|].
  split; try done; simpl.
  - exists []. by rewrite app_nil_r.
  - by eexists.
  - exists []. by rewrite app_nil_r.
Qed.

Lemma extending_call (l : LogRef) (lvl : level) (c : logcall) :
  extending (web.call l lvl c).
Proof.
  revert lvl c. induction l as [|inner IH]; intros lvl c; simpl.
  - apply extending_Zap.
  - by apply extending_webLog.
Qed.

Lemma extending_Getter : extending web.ContextMiddlewareGetter.
Proof.
  unfold web.ContextMiddlewareGetter. apply extending_bind.
  - apply extending_Get.
  - intros [v ok]. destruct ok; simpl; [|apply extending_ret].
    destruct v; apply extending_ret.
Qed.

Lemma extending_WebContextMust (getter : M (option Context * bool)) :
  extending getter -> extending (handler.WebContextMust getter).
Proof.
  intros Hg. unfold handler.WebContextMust. apply extending_bind; [done|].
  intros [c ok]. destruct ok; simpl; [apply extending_ret|].
  apply extending_bind; [apply extending_Error|].
  intros _. apply extending_panic.
Qed.

Lemma extending_step (getter : M (option Context * bool)) (a : handler.action) :
  extending getter -> extending (handler.step getter a).
Proof.
  intros Hg. destruct a as [lvl c|msg|code obj|v|]; simpl.
  - apply extending_bind; [by apply extending_WebContextMust|].
    intros [ctx|]; simpl; [apply extending_call | apply extending_panic].
  - apply extending_Error.
  - intros w. by apply extends_emit.
  - apply extending_panic.
  - intros w. unfold web.RequestIdGetter. rewrite !bind_run, Get_run.
    destruct (Keys w !! web.idKey) as [v|] eqn:Hk; simpl.
    + destruct v; try apply extends_refl.
      apply extends_emit. simpl. by left.
    + apply extends_emit. simpl. by right.
Qed.

(** Every handler script only extends the request. *)
Lemma extending_run (getter : M (option Context * bool)) (s : list handler.action) :
  extending getter -> extending (handler.run getter s).
Proof.
  intros Hg. induction s as [|a s IH]; simpl.
  - apply extending_ret.
  - apply extending_bind; [by apply extending_step | by intros _].
Qed.

(** The handler of the repository, [User.GetById], is one such script. *)
Lemma GetById_as_script (getter : M (option Context * bool)) (w : World) :
  handler.GetById getter w =
  handler.run getter
    [handler.ALog INFO (Kv "GetById" [VStr "id"; VInt 1]);
     handler.AError "a custom error"] w.
Proof.
  unfold handler.GetById. simpl. rewrite !bind_run.
  destruct (handler.WebContextMust getter w) as [[ctx|v] w1]; [|reflexivity].
  rewrite !bind_run.
  destruct (handler.ctx_Log ctx INFO (Kv "GetById" [VStr "id"; VInt 1]) w1)
    as [[[]|v] w2]; [|reflexivity].
  rewrite bind_run. reflexivity.
Qed.

(** When the base logger returns from every call of a sequence, the
    buffer gains one record per call, in call order, each with the level
    of its call. *)
Lemma calls_buffered (cs : list (level * logcall)) (w : World) :
  Forall (fun lc => log_reaction lc.1 lc.2 = None) cs ->
  fst (calls cs w) = Ret tt /\
  logs (snd (calls cs w)) = (logs w ++ ((fun lc => record lc.1 lc.2) <$> cs))%list.
Proof.
  revert w. induction cs as [|[lvl c] cs IH]; intros w Hq.
  - simpl. by rewrite app_nil_r.
  - apply Forall_cons in Hq as [Hc Hcs]. simpl in Hc.
    change (calls ((lvl, c) :: cs))
      with (web.call (WebLogger BaseLogger) lvl c ≫= fun _ => calls cs).
    rewrite bind_run, collector_run, Hc.
    destruct (IH (buffered (record lvl c) (add_event (EvLog lvl c) w)) Hcs)
      as [Hr Hl].
    split; [exact Hr|]. rewrite Hl. simpl. by rewrite <- app_assoc.
Qed.

(** ** The error persister *)

Lemma lookup_created (path p : string) (fs : gmap string string) :
  default ""
    (match fs !! path with Some _ => fs | None => <[path := ""]> fs end !! p)
  = default "" (fs !! p).
Proof.
  destruct (fs !! path) eqn:E; [done|].
  destruct (decide (path = p)) as [->|Hne].
  - by rewrite lookup_insert_eq, E.
  - by rewrite lookup_insert_ne.
Qed.

Lemma saveToFile_run (e : repository.Errors.t) (rec : Errors) (w : World) :
  let dir := repository.Errors.FallbackFilePath e in
  let path := fallback_path dir rec in
  let data := fallback_data rec in
  repository.Errors.saveToFile e rec w =
  match mkdirall_err dir with
  | Some err => (Ret (Some err), after_mkdir dir w)
  | None =>
      match openfile_err path with
      | Some err =>
          (Ret (Some err), add_event (EvOpenFile path) (after_mkdir dir w))
      | None =>
          match write_err path data with
          | Some err =>
              (Ret (Some err),
               add_event (EvClose path)
                 (add_event (EvWrite path data)
                    (after_open path (after_mkdir dir w))))
          | None =>
              (Ret None,
               add_event (EvClose path)
                 (after_write path data
                    (after_open path (after_mkdir dir w))))
          end
      end
  end.
Proof.
  intros dir path data. unfold repository.Errors.saveToFile.
  rewrite bind_run. unfold os.MkdirAll. rewrite bind_run. simpl.
  fold dir. destruct (mkdirall_err dir) as [err|]; [reflexivity|].
  fold (fallback_name rec). fold (fallback_path dir rec). fold path.
  fold (fallback_data rec). fold data.
  rewrite bind_run. unfold os.OpenFile. rewrite bind_run. simpl.
  destruct (openfile_err path) as [err|]; [reflexivity|].
  simpl. unfold defer_, os.File_Write. rewrite bind_run. simpl.
  destruct (write_err path data) as [err|]; reflexivity.
Qed.

Lemma Persist_run (dir : string) (db : nat) (errors : Errors) (w : World) :
  let e := repository.Errors.mk cmd.context dir db in
  let w1 := add_event (EvTransaction (ErrorModel errors)) w in
  repository.Errors.Persist e errors w =
  match db_commit (ErrorModel errors) with
  | None => (Ret tt, w1)
  | Some _ =>
      match repository.Errors.saveToFile e errors w1 with
      | (Ret None, w2) => (Ret tt, w2)
      | (Ret (Some err), w2) => log.Zap ERROR (last_resort err errors) w2
      | (Panicked v, w2) => (Panicked v, w2)
      end
  end.
Proof.
  intros e w1. unfold repository.Errors.Persist.
  rewrite bind_run. unfold database.Transaction. rewrite bind_run. simpl.
  fold w1. destruct (db_commit (ErrorModel errors)) as [dberr|]; [|reflexivity].
  rewrite bind_run.
  destruct (repository.Errors.saveToFile e errors w1) as [[[err|]|v] w2];
    reflexivity.
Qed.

(** The error persister returns, and beyond the transaction it attempts
    it leaves nothing that the observers look at. *)
Lemma Persist_frame (dir : string) (db : nat) (errors : Errors) (w : World) :
  quiet_at ERROR ->
  exists w' evs,
    repository.Errors.Persist (repository.Errors.mk cmd.context dir db) errors w
      = (Ret tt, w') /\
    trace w' = (trace w ++ EvTransaction (ErrorModel errors) :: evs)%list /\
    Forall silent evs /\
    logs w' = logs w /\ ctx_Errors w' = ctx_Errors w /\
    Keys w' = Keys w /\ request w' = request w.
Proof.
  intros Hq. rewrite Persist_run. cbv zeta.
  destruct (db_commit (ErrorModel errors)) as [dberr|].
  2:{ eexists _, []. by repeat split. }
  rewrite saveToFile_run. cbv zeta. simpl repository.Errors.FallbackFilePath.
  destruct (mkdirall_err dir) as [err|];
    [|destruct (openfile_err (fallback_path dir errors)) as [err|];
      [|destruct (write_err (fallback_path dir errors) (fallback_data errors))
          as [err|]]];
    rewrite ?Zap_run, ?Hq;
    (eexists _, _; split; [reflexivity|]; split;
     [simpl; rewrite <- ?app_assoc; simpl; reflexivity|];
     split; [repeat constructor|]; by repeat split).
Qed.

(** ** The stages *)

Lemma ContextMiddleware_run (constructor : LogRef -> Context)
    (innerLogger : LogRef) (l : repository.Logs.t) (next : M unit) (w : World) :
  web.ContextMiddleware constructor innerLogger (repository.Logs.Persist l) next w =
  (fst (next (injected constructor innerLogger w)),
   flushed (snd (next (injected constructor innerLogger w)))).
Proof.
  unfold web.ContextMiddleware. rewrite bind_run. simpl.
  unfold defer_ at 1. rewrite bind_run, Set_run. unfold defer_ at 1.
  fold (injected constructor innerLogger w).
  destruct (next (injected constructor innerLogger w)) as [[[]|v] w1];
    rewrite Set_run; reflexivity.
Qed.

Lemma Recover_run (panicHandler : value -> M unit) (next : M unit) (w : World) :
  web.Recover panicHandler next w =
  match next w with
  | (Ret _, w1) => (Ret tt, w1)
  | (Panicked v, w1) => if is_nil v then (Ret tt, w1) else panicHandler v w1
  end.
Proof.
  unfold web.Recover, defer_recover.
  destruct (next w) as [[[]|v] w1]; [reflexivity|].
  by destruct (is_nil v).
Qed.

Lemma RequestIdGetter_run (w : World) (id : string) :
  Keys w !! web.idKey = Some (VStr id) ->
  web.RequestIdGetter w = (Ret id, w).
Proof.
  intros Hid. unfold web.RequestIdGetter. rewrite bind_run, Get_run, Hid.
  reflexivity.
Qed.

Lemma ErrorPersisterMiddleware_run (persistent : Errors -> M unit)
    (log : LogRef) (next : M unit) (w : World) (id : string) :
  Keys w !! web.idKey = Some (VStr id) ->
  web.ErrorPersisterMiddleware persistent log web.RequestIdGetter next w =
  guard log
    match next w with
    | (Ret _, w1) =>
        if decide (length (ctx_Errors w1) = 0) then (Ret tt, w1)
        else persistent (report_of (request w) id (ctx_Errors w1)) w1
    | (Panicked v, w1) => (Panicked v, w1)
    end.
Proof.
  intros Hid. unfold web.ErrorPersisterMiddleware.
  rewrite bind_run. simpl. rewrite bind_run, (RequestIdGetter_run w id Hid).
  unfold defer_recover. rewrite bind_run.
  destruct (next w) as [[[]|v] w1]; [|simpl; by destruct (is_nil v)].
  rewrite bind_run. simpl.
  destruct (decide (length (ctx_Errors w1) = 0)); [reflexivity|].
  fold (report_of (request w) id (ctx_Errors w1)).
  destruct (persistent _ w1) as [[[]|v] w2]; [reflexivity|].
  simpl. by destruct (is_nil v).
Qed.

Lemma RequestIDMiddleware_run (next : M unit) (w : World) :
  web.RequestIDMiddleware cmd.idGen next w = next (identified w).
Proof.
  unfold web.RequestIDMiddleware, identified.
  rewrite bind_run. unfold gin.GetHeader. rewrite bind_run. simpl.
  rewrite bind_run.
  destruct (decide (default "" (req_Header (request w) !! "X-Request-ID") = ""));
    reflexivity.
Qed.

Lemma identified_id (w : World) :
  Keys (identified w) !! web.idKey = Some (VStr (request_id w)).
Proof.
  unfold identified, request_id.
  destruct (decide _); simpl; by rewrite lookup_insert_eq.
Qed.

Lemma identified_trace (w : World) :
  trace (identified w) = (trace w ++ minted w)%list.
Proof.
  unfold identified, minted. destruct (decide _); simpl; [done|].
  by rewrite app_nil_r.
Qed.

Lemma identified_request (w : World) : request (identified w) = request w.
Proof. unfold identified. by destruct (decide _). Qed.

Lemma entry_id (w : World) :
  Keys (entry w) !! web.idKey = Some (VStr (request_id w)).
Proof.
  unfold entry, injected. simpl.
  rewrite lookup_insert_ne by done. apply identified_id.
Qed.

Lemma minted_observers (w : World) :
  logs_persisted (minted w) = [] /\ errors_persisted (minted w) = [] /\
  ids_seen (minted w) = [] /\ responses (minted w) = [].
Proof. unfold minted. by destruct (decide _). Qed.

Lemma request_id_present (w : World) (h : string) :
  req_Header (request w) !! "X-Request-ID" = Some h -> h <> "" ->
  request_id w = h /\ minted w = [].
Proof.
  intros Hh Hne. unfold request_id, minted. rewrite Hh. simpl.
  rewrite !decide_False by done. by split.
Qed.

Lemma request_id_absent (w : World) :
  default "" (req_Header (request w) !! "X-Request-ID") = "" ->
  request_id w = uuid_NewString /\ minted w = [EvIdGen].
Proof.
  intros Hh. unfold request_id, minted. simpl.
  rewrite !decide_True by done. by split.
Qed.

Lemma Errors_String_nonempty (errs : list string) :
  errs <> [] -> gin.Errors_String errs <> "".
Proof. destruct errs as [|e errs]; [done|]. intros _. discriminate. Qed.

Lemma panicHandler_responds : responds cmd.panicHandler response_body.
Proof. intros v w. by destruct v. Qed.

Lemma app_panicHandler_responds : responds app.panicHandler fixed_body.
Proof. intros v w. reflexivity. Qed.

(** ** The pipeline as a whole *)

Lemma stages_run (panicHandler : value -> M unit) (respond : value -> value)
    (persistent : Errors -> M unit) (h : M unit) (w : World) :
  responds panicHandler respond ->
  let w3 := recovered respond (h (entry w)) in
  cmd.stages panicHandler persistent h w =
  guard BaseLogger
    (if decide (length (ctx_Errors w3) = 0) then (Ret tt, w3)
     else persistent (report_of (request w) (request_id w) (ctx_Errors w3)) w3).
Proof.
  intros Hph w3. unfold cmd.stages.
  rewrite RequestIDMiddleware_run.
  rewrite (ErrorPersisterMiddleware_run _ _ _ _ _ (identified_id w)).
  rewrite Recover_run. unfold cmd.contextMiddleware.
  rewrite ContextMiddleware_run. simpl infra.Log. fold (entry w).
  rewrite identified_request. subst w3. unfold recovered.
  destruct (h (entry w)) as [[[]|v] w1]; simpl fst; simpl snd; cbv iota beta.
  - reflexivity.
  - destruct (is_nil v); [reflexivity|]. by rewrite Hph.
Qed.

(** The request when the panic-recovery stage has returned, whatever
    the handler did. *)
Lemma handler_outcome (respond : value -> value)
    (s : list handler.action) (w : World) :
  let r1 := handler.run web.ContextMiddlewareGetter s (entry w) in
  let w3 := recovered respond r1 in
  exists evs,
    Forall (handler_event (Keys (entry w))) evs /\
    trace w3 =
      (trace w ++ minted w ++ evs
         ++ [EvTransaction (LogsModel (logs w3))] ++ answer respond (fst r1))%list /\
    request w3 = request w /\
    Keys w3 !! web.idKey = Some (VStr (request_id w)).
Proof.
  intros r1 w3.
  destruct (extending_run web.ContextMiddlewareGetter s extending_Getter (entry w))
    as [Hr Hk _ _ _ (evs & Ht & Hev)].
  exists evs. split; [exact Hev|].
  fold r1 in Hr, Hk, Ht.
  assert (Hreq : request (snd r1) = request w).
  { rewrite Hr. simpl. apply identified_request. }
  assert (Htr : trace (snd r1) = (trace w ++ minted w ++ evs)%list).
  { rewrite Ht. simpl. rewrite identified_trace. by rewrite <- app_assoc. }
  assert (Hid : <[web.webContextKey := VNil]> (Keys (snd r1)) !! web.idKey
                = Some (VStr (request_id w))).
  { rewrite lookup_insert_ne by done. rewrite Hk. apply entry_id. }
  subst w3. unfold recovered, answer. destruct r1 as [[[]|v] w1]; simpl in *.
  - rewrite Htr. split; [|by split]. by rewrite <- !app_assoc.
  - destruct (is_nil v); simpl; rewrite Htr; (split; [|by split]);
      by rewrite <- !app_assoc.
Qed.

(** The whole run of the four stages with the error persister of [main]:
    it returns, and its trace is the ID generation if any, what the
    handler did, the transaction of the audit persister, the response to a
    panic if any and, when errors are recorded, the transaction of the
    error persister and what its fallback did. *)
Lemma pipeline_trace (panicHandler : value -> M unit) (respond : value -> value)
    (s : list handler.action) (w : World) :
  responds panicHandler respond ->
  quiet_at ERROR ->
  let r := cmd.stages panicHandler (repository.Errors.Persist cmd.errorsPersister)
             (handler.run web.ContextMiddlewareGetter s) w in
  let handled := fst (handler.run web.ContextMiddlewareGetter s (entry w)) in
  exists evs post,
    Forall (handler_event (Keys (entry w))) evs /\
    Forall silent post /\
    fst r = Ret tt /\
    trace (snd r) =
      (trace w ++ minted w ++ evs
         ++ [EvTransaction (LogsModel (logs (snd r)))] ++ answer respond handled
         ++ if decide (ctx_Errors (snd r) = []) then []
            else EvTransaction
                   (ErrorModel
                      (report_of (request w) (request_id w) (ctx_Errors (snd r))))
                 :: post)%list /\
    Keys (snd r) !! web.idKey = Some (VStr (request_id w)).
Proof.
  intros Hph Hq r handled. subst r.
  rewrite (stages_run _ respond) by exact Hph. cbv zeta.
  destruct (handler_outcome respond s w) as (evs & Hevs & Htr & Hreq & Hid).
  fold handled in Htr.
  set (w3 := recovered respond (handler.run web.ContextMiddlewareGetter s (entry w))) in *.
  exists evs.
  destruct (decide (length (ctx_Errors w3) = 0)) as [Hlen|Hlen].
  - exists []. simpl. apply length_zero_iff_nil in Hlen.
    rewrite decide_True by done. rewrite app_nil_r.
    split; [exact Hevs|]. split; [constructor|]. by repeat split.
  - destruct (Persist_frame "./errors" cmd.db
                (report_of (request w) (request_id w) (ctx_Errors w3)) w3 Hq)
      as (w4 & post & Hrun & Ht4 & Hs4 & Hl4 & He4 & Hk4 & _).
    exists post. unfold cmd.errorsPersister. rewrite Hrun. simpl.
    rewrite decide_False by (rewrite He4; intros E; by rewrite E in Hlen).
    rewrite Ht4, He4, Hl4, Hk4, Htr.
    split; [exact Hevs|]. split; [exact Hs4|]. split; [done|].
    split; [|exact Hid]. by rewrite <- !app_assoc.
Qed.

(** What the observers see of such a run. *)
Lemma pipeline_observed (panicHandler : value -> M unit) (respond : value -> value)
    (s : list handler.action) (w : World) :
  responds panicHandler respond ->
  quiet_at ERROR ->
  let r := cmd.stages panicHandler (repository.Errors.Persist cmd.errorsPersister)
             (handler.run web.ContextMiddlewareGetter s) w in
  let handled := fst (handler.run web.ContextMiddlewareGetter s (entry w)) in
  let reports :=
    if decide (ctx_Errors (snd r) = []) then []
    else [report_of (request w) (request_id w) (ctx_Errors (snd r))] in
  fst r = Ret tt /\
  logs_persisted (trace (snd r)) = (logs_persisted (trace w) ++ [logs (snd r)])%list /\
  errors_persisted (trace (snd r)) = (errors_persisted (trace w) ++ reports)%list /\
  (exists own,
      responses (trace (snd r)) =
        (responses (trace w) ++ own ++
         match handled with
         | Panicked v => if is_nil v then [] else [(500%Z, respond v)]
         | Ret _ => []
         end)%list) /\
  id_generations (trace (snd r))
    = (id_generations (trace w) ++ id_generations (minted w))%list /\
  (exists seen,
      ids_seen (trace (snd r)) = (ids_seen (trace w) ++ seen)%list /\
      Forall (fun id => id = request_id w) seen) /\
  Keys (snd r) !! web.idKey = Some (VStr (request_id w)).
Proof.
  intros Hph Hq r handled reports.
  destruct (pipeline_trace panicHandler respond s w Hph Hq)
    as (evs & post & Hevs & Hpost & Hret & Htr & Hid).
  fold r handled in Hret, Htr, Hid.
  destruct (silent_observers post Hpost) as (Hp1 & Hp2 & Hp3 & Hp4 & Hp5).
  destruct (handler_events_observers _ evs Hevs) as (He1 & He2 & He5).
  destruct (answer_observers respond handled) as (Ha1 & Ha2 & Ha4 & Ha5 & Ha3).
  destruct (minted_observers w) as (Hm1 & Hm2 & Hm4 & Hm3).
  pose proof (handler_events_ids _ _ evs (entry_id w) Hevs) as Hseen.
  set (tail := if decide (ctx_Errors (snd r) = []) then []
               else EvTransaction
                      (ErrorModel
                         (report_of (request w) (request_id w) (ctx_Errors (snd r))))
                    :: post) in Htr.
  assert (Ht1 : logs_persisted tail = []).
  { subst tail. destruct (decide _); [done|]. exact Hp1. }
  assert (Ht2 : errors_persisted tail = reports).
  { subst tail reports. destruct (decide _); [done|].
    change (errors_persisted (EvTransaction (ErrorModel ?x) :: post))
      with (x :: errors_persisted post). by rewrite Hp2. }
  assert (Ht3 : responses tail = []).
  { subst tail. destruct (decide _); [done|]. exact Hp3. }
  assert (Ht4 : ids_seen tail = []).
  { subst tail. destruct (decide _); [done|]. exact Hp4. }
  assert (Ht5 : id_generations tail = []).
  { subst tail. destruct (decide _); [done|]. exact Hp5. }
  split; [exact Hret|]. rewrite Htr. repeat split.
  - rewrite !logs_persisted_app, Hm1, He1, Ha1, Ht1. simpl.
    by rewrite ?app_nil_r.
  - rewrite !errors_persisted_app, Hm2, He2, Ha2, Ht2. reflexivity.
  - exists (responses evs).
    rewrite !responses_app, Hm3, Ha3, Ht3. simpl.
    by rewrite ?app_nil_r.
  - rewrite !id_generations_app, He5, Ha5, Ht5. simpl.
    by rewrite ?app_nil_r.
  - exists (ids_seen evs). split; [|exact Hseen].
    rewrite !ids_seen_app, Hm4, Ha4, Ht4. simpl. by rewrite ?app_nil_r.
  - exact Hid.
Qed.

End lemmas.

(** * The claims *)

(** C1.  Whatever its handler does (return, record errors, or panic,
    by itself or in a logger call), the pipeline returns without a panic:
    a panic of the handler is recovered and answered with status 500,
    after the responses the handler wrote itself.
    The audit persister has received one buffer, the buffer of the request
    as it is at the end, and the error persister has received one report
    when at least one error is recorded on the request and none otherwise.
    The base logger is assumed to return from error-level calls. *)
Theorem C1_both_persisters_fire_once_on_every_exit
    `{!Externals} (s : list handler.action) (w : World) :
  quiet_at ERROR ->
  let r := cmd.serve s w in
  let handled := fst (handler.run web.ContextMiddlewareGetter s (entry w)) in
  fst r = Ret tt /\
  logs_persisted (trace (snd r)) = (logs_persisted (trace w) ++ [logs (snd r)])%list /\
  errors_persisted (trace (snd r)) =
    (errors_persisted (trace w) ++
     if decide (ctx_Errors (snd r) = []) then []
     else [report_of (request w) (request_id w) (ctx_Errors (snd r))])%list /\
  (exists own,
     responses (trace (snd r)) =
       (responses (trace w) ++ own ++
        match handled with
        | Panicked v => if is_nil v then [] else [(500%Z, response_body v)]
        | Ret _ => []
        end)%list).
Proof.
  intros Hq r handled.
  destruct (pipeline_observed _ _ s w panicHandler_responds Hq)
    as (H1 & H2 & H3 & H4 & _).
  by repeat split.
Qed.

(** C1 at a handler that logs, records an error and panics. *)
Lemma C1_witness :
  let X := doubles.externals doubles.healthy in
  let w := doubles.fresh (doubles.GET "/api/v1/" []) in
  let s := [handler.ALog INFO (Kv "GetById" [VStr "id"; VInt 1]);
            handler.AError "a custom error";
            handler.APanic (VStr "boom")] in
  let r := @cmd.serve X s w in
  @quiet_at X ERROR /\
  fst (@handler.run X (@web.ContextMiddlewareGetter) s (@entry X w))
    = Panicked (VStr "boom") /\
  fst r = Ret tt /\
  logs_persisted (trace (snd r))
    = [[@record X INFO (Kv "GetById" [VStr "id"; VInt 1])]] /\
  errors_persisted (trace (snd r))
    = [@report_of (doubles.GET "/api/v1/" [])
         "7c9e6679-7425-40de-944b-e07fc1f90ae7" ["a custom error"]] /\
  responses (trace (snd r)) = [(500%Z, VStr "boom")].
Proof.
  intros X w s r.
  assert (Hq : @quiet_at X ERROR) by (intros c; reflexivity).
  split; [exact Hq|]. split; [reflexivity|].
  destruct (@C1_both_persisters_fire_once_on_every_exit X s w Hq)
    as (H1 & H2 & H3 & H4).
  split; [exact H1|]. fold r in H2, H3, H4.
  split; [rewrite H2; reflexivity|].
  split; [rewrite H3; reflexivity|].
  reflexivity.
Defined.

Lemma append_empty (s : string) : s +:+ "" = s.
Proof.
  induction s as [|c s IH]; [done|].
  change (String c (s +:+ "") = String c s). by rewrite IH.
Qed.

(** C2, as the code has it.  [Errors.Persist] never panics to its caller,
    and what it does is fixed by the outcomes of the calls it makes.  For
    every report it first attempts the transactional write and, when that
    succeeds, does nothing else.  When it fails, the file fallback creates
    the fallback directory, opens the fallback file, writes and closes it,
    and stops at the first of these calls that fails; then one record is
    logged at error level, whose message says that both the database write
    and the file write failed and which carries the error of that call and
    the report, and no file has gained any content.  When the three calls
    succeed nothing is logged, and what the fallback file has gained is the
    indented JSON of the report, when the report has one.  The error of
    the encoder is discarded: a report that does not encode is written as
    no bytes at all, so that with a failing store and a working file
    system it is in no file and in no log.  The base logger is assumed to
    return from error-level calls. *)
Theorem C2_Persist_falls_back_and_loses_a_report_that_does_not_encode
    `{!Externals} (dir : string) (db : nat) (errors : Errors) (w : World) :
  quiet_at ERROR ->
  let e := repository.Errors.mk cmd.context dir db in
  let path := fallback_path dir errors in
  let encoding := json_MarshalIndent (Errors_value errors) "" "  " in
  let data := match encoding with inl json => json | inr _ => "" end in
  let both_failed := fun err => [EvLog ERROR (last_resort err errors)] in
  exists w',
    repository.Errors.Persist e errors w = (Ret tt, w') /\
    trace w' =
      (trace w ++ EvTransaction (ErrorModel errors) ::
       match db_commit (ErrorModel errors) with
       | None => []
       | Some _ =>
           EvMkdirAll dir ::
           match mkdirall_err dir with
           | Some err => both_failed err
           | None =>
               EvOpenFile path ::
               match openfile_err path with
               | Some err => both_failed err
               | None =>
                   EvWrite path data :: EvClose path ::
                   match write_err path data with
                   | Some err => both_failed err
                   | None => []
                   end
               end
           end
       end)%list /\
    (db_commit (ErrorModel errors) <> None ->
     mkdirall_err dir = None -> openfile_err path = None ->
     write_err path data = None ->
     files w' = <[path := default "" (files w !! path) +:+ data]> (files w)) /\
    (db_commit (ErrorModel errors) = None \/ mkdirall_err dir <> None \/
     openfile_err path <> None \/ write_err path data <> None ->
     forall p, default "" (files w' !! p) = default "" (files w !! p)) /\
    (db_commit (ErrorModel errors) <> None ->
     (exists err, encoding = inr err) ->
     mkdirall_err dir = None -> openfile_err path = None ->
     write_err path "" = None ->
     (forall p, default "" (files w' !! p) = default "" (files w !! p)) /\
     error_logs (trace w') = error_logs (trace w)).
Proof.
  intros Hq e path encoding data both_failed. subst e. rewrite Persist_run. cbv zeta.
  set (e := repository.Errors.mk cmd.context dir db).
  assert (Hdata : fallback_data errors = data) by reflexivity.
  destruct (db_commit (ErrorModel errors)) as [dberr|].
  2:{ eexists. split; [reflexivity|]. split; [reflexivity|].
      split; [done|]. split; [done|]. done. }
  rewrite saveToFile_run. cbv zeta. simpl repository.Errors.FallbackFilePath.
  fold path. rewrite Hdata.
  destruct (mkdirall_err dir) as [err|].
  { rewrite Zap_run, Hq. eexists. split; [reflexivity|].
    split; [simpl; by rewrite <- ?app_assoc|].
    split; [done|]. split; [done|]. done. }
  destruct (openfile_err path) as [err|].
  { rewrite Zap_run, Hq. eexists. split; [reflexivity|].
    split; [simpl; by rewrite <- ?app_assoc|].
    split; [done|]. split; [done|]. done. }
  destruct (write_err path data) as [err|] eqn:Ew.
  { rewrite Zap_run, Hq. eexists. split; [reflexivity|].
    split; [simpl; by rewrite <- ?app_assoc|].
    split; [done|]. split; [intros _ p; simpl; apply lookup_created|].
    intros _ [encerr Henc] _ _ Hw. exfalso.
    assert (Hempty : data = "")
      by (unfold data; unfold encoding in Henc |- *; by rewrite Henc).
    rewrite Hempty in Ew. congruence. }
  eexists. split; [reflexivity|].
  split; [simpl; by rewrite <- ?app_assoc|].
  assert (Hfiles :
    files (add_event (EvClose path)
             (after_write path data
                (after_open path
                   (after_mkdir dir (add_event (EvTransaction (ErrorModel errors)) w)))))
    = <[path := default "" (files w !! path) +:+ data]> (files w)).
  { simpl. rewrite lookup_created.
    destruct (files w !! path) eqn:E; [done|]. by rewrite insert_insert_eq. }
  split; [intros _ _ _ _; exact Hfiles|].
  split; [intros [?|[?|[?|?]]]; done|].
  intros _ [encerr Henc] _ _ _.
  assert (Hempty : data = "")
    by (unfold data; unfold encoding in Henc |- *; by rewrite Henc).
  split.
  - intros p. rewrite Hfiles, Hempty.
    destruct (decide (p = path)) as [->|Hne].
    + rewrite lookup_insert_eq. simpl. apply append_empty.
    + by rewrite lookup_insert_ne.
  - unfold error_logs. simpl. rewrite !omap_app. simpl. by rewrite !app_nil_r.
Qed.

(** C2 at a report whose stack is a channel, with the database out of
    reach and a working file system: the hypotheses hold, the call
    returns, the fallback file is created and left empty, and nothing is
    logged. *)
Lemma C2_witness :
  let X := doubles.externals doubles.db_down in
  let report :=
    {| Stack := VChan 1; Method := "GET";
       URL := "/api/v1/"; Path := "/api/v1/"; IP := "192.0.2.7";
       RequestID := "abc" |} in
  let w := doubles.fresh (doubles.GET "/api/v1/" []) in
  let e := repository.Errors.mk cmd.context "./errors" 0 in
  let path := "errors/error_abc_20240131T235959.123.json" in
  (@quiet_at X ERROR /\
   @db_commit X (ErrorModel report) <> None /\
   (exists err, @json_MarshalIndent X (Errors_value report) "" "  " = inr err) /\
   @mkdirall_err X "./errors" = None /\
   @openfile_err X path = None /\
   @write_err X path "" = None) /\
  exists w',
    @repository.Errors.Persist X e report w = (Ret tt, w') /\
    trace w' =
      [EvTransaction (ErrorModel report); EvMkdirAll "./errors";
       EvOpenFile path; EvWrite path ""; EvClose path] /\
    map_to_list (files w') = [(path, "")] /\
    error_logs (trace w') = [].
Proof.
  intros X report w e path.
  assert (Hq : @quiet_at X ERROR) by (intros c; reflexivity).
  assert (H1 : @db_commit X (ErrorModel report) <> None) by discriminate.
  assert (H2 : exists err, @json_MarshalIndent X (Errors_value report) "" "  " = inr err)
    by (eexists; reflexivity).
  assert (H3 : @mkdirall_err X "./errors" = None) by reflexivity.
  assert (H4 : @openfile_err X path = None) by reflexivity.
  assert (H5 : @write_err X path "" = None) by reflexivity.
  split; [done|].
  destruct (@C2_Persist_falls_back_and_loses_a_report_that_does_not_encode
              X "./errors" 0 report w Hq)
    as (w' & Hrun & Htrace & Hfiles & _ & Hlost).
  exists w'. split; [exact Hrun|]. split; [exact Htrace|].
  split.
  - rewrite (Hfiles H1 H3 H4 H5).
    change (files w) with (∅ : gmap string string).
    change (@fallback_path X "./errors" report) with path.
    rewrite lookup_empty, insert_empty. apply map_to_list_singleton.
  - destruct (Hlost H1 H2 H3 H4 H5) as [_ Hlogs]. exact Hlogs.
Defined.

(** C3, as the code has it.  When the transactional write of the log
    buffer fails, [Logs.Persist] returns the error to its caller, having
    done nothing but attempt the transaction; the context-injection stage,
    its caller, drops the returned error: the outcome of the stage is the
    outcome of the rest of the chain, and all the stage adds to the trace
    after the chain is that one transaction.  No call reaches the logger,
    at any level. *)
Theorem C3_audit_failure_is_returned_and_dropped
    `{!Externals} (next : M unit) (w : World) (err : string) :
  let w1 := snd (next (injected cmd.constructor BaseLogger w)) in
  let cleared := set_Keys (insert web.webContextKey VNil) w1 in
  db_commit (LogsModel (logs w1)) = Some err ->
  repository.Logs.Persist cmd.logsPersister (logs w1) cleared
    = (Ret (Some err), flushed w1) /\
  cmd.contextMiddleware next w
    = (fst (next (injected cmd.constructor BaseLogger w)), flushed w1) /\
  trace (flushed w1) = (trace w1 ++ [EvTransaction (LogsModel (logs w1))])%list /\
  base_logs (trace (flushed w1)) = base_logs (trace w1).
Proof.
  intros w1 cleared Hdb. split; [|split; [|split]].
  - unfold repository.Logs.Persist, database.Transaction.
    rewrite bind_run. simpl. by rewrite Hdb.
  - unfold cmd.contextMiddleware. by rewrite ContextMiddleware_run.
  - reflexivity.
  - unfold base_logs. simpl. rewrite omap_app. simpl. by rewrite app_nil_r.
Qed.

(** C3 at a request whose handler logs once while the database is
    unreachable. *)
Lemma C3_witness :
  let X := doubles.externals doubles.db_down in
  let w := doubles.fresh (doubles.GET "/api/v1/" []) in
  let next := @handler.run X (@web.ContextMiddlewareGetter)
                [handler.ALog INFO (Plain [VStr "start"])] in
  let r := @cmd.contextMiddleware X next w in
  @db_commit X (LogsModel (logs (snd r)))
    = Some "dial tcp 127.0.0.1:5432: connect: connection refused" /\
  fst r = Ret tt /\
  trace (snd r)
    = [EvLog INFO (Plain [VStr "start"]); EvTransaction (LogsModel (logs (snd r)))].
Proof.
  intros X w next r.
  assert (Hdb : @db_commit X
            (LogsModel (logs (snd (next (@injected cmd.constructor BaseLogger w)))))
          = Some "dial tcp 127.0.0.1:5432: connect: connection refused")
    by reflexivity.
  split; [reflexivity|].
  destruct (@C3_audit_failure_is_returned_and_dropped X next w _ Hdb)
    as (_ & Hrun & _ & _).
  subst r. rewrite Hrun. split; reflexivity.
Defined.

(** C3 as stated fails: with the database unreachable, the write of the
    buffer is attempted and fails, [Logs.Persist] hands the error to its
    caller, and the only call that has reached the logger is the call of
    the handler: no record of the failure or of the buffer is logged, at
    error level or at any other. *)
Lemma C3_counterexample :
  let X := doubles.externals doubles.db_down in
  let w := doubles.fresh (doubles.GET "/api/v1/" []) in
  let next := @handler.run X (@web.ContextMiddlewareGetter)
                [handler.ALog INFO (Plain [VStr "start"])] in
  let r := @cmd.contextMiddleware X next w in
  logs (snd r) = [@record X INFO (Plain [VStr "start"])] /\
  logs_persisted (trace (snd r)) = [logs (snd r)] /\
  @db_commit X (LogsModel (logs (snd r))) <> None /\
  fst (@repository.Logs.Persist X cmd.logsPersister (logs (snd r)) w)
    = Ret (Some "dial tcp 127.0.0.1:5432: connect: connection refused") /\
  base_logs (trace (snd r)) = [(INFO, Plain [VStr "start"])] /\
  error_logs (trace (snd r)) = [].
Proof.
  intros X w next r. repeat split; try reflexivity. discriminate.
Qed.

(** C4.  The error persister is invoked if and only if at least one error
    is recorded on the request: with none it receives nothing, and with
    one or more it receives exactly one report, which carries the method,
    the URL, the path and the client IP of the request, its request ID,
    and as its stack the non-empty rendering of the recorded errors.  The
    base logger is assumed to return from error-level calls. *)
Theorem C4_error_persister_invoked_iff_errors_recorded
    `{!Externals} (s : list handler.action) (w : World) :
  quiet_at ERROR ->
  let r := cmd.serve s w in
  let errs := ctx_Errors (snd r) in
  (errs = [] -> errors_persisted (trace (snd r)) = errors_persisted (trace w)) /\
  (errs <> [] ->
   exists report stack,
     errors_persisted (trace (snd r)) = (errors_persisted (trace w) ++ [report])%list /\
     Method report = req_Method (request w) /\
     URL report = req_URL (request w) /\
     Path report = req_Path (request w) /\
     IP report = req_ClientIP (request w) /\
     RequestID report = request_id w /\
     Stack report = VStr stack /\
     stack = gin.Errors_String errs /\
     stack <> "").
Proof.
  intros Hq r errs. unfold cmd.serve, cmd.engine in r.
  destruct (pipeline_observed _ _ s w panicHandler_responds Hq) as (_ & _ & H3 & _).
  fold r errs in H3. split.
  - intros Hnil. rewrite H3, decide_True by done. by rewrite app_nil_r.
  - intros Hne. rewrite decide_False in H3 by done.
    eexists _, _. split; [exact H3|]. simpl.
    repeat split; try reflexivity. by apply Errors_String_nonempty.
Qed.

(** C4 at the handler [GetById], which records one error. *)
Lemma C4_witness :
  let X := doubles.externals doubles.healthy in
  let w := doubles.fresh (doubles.GET "/api/v1/" [("X-Request-ID", "abc")]) in
  let s := [handler.ALog INFO (Kv "GetById" [VStr "id"; VInt 1]);
            handler.AError "a custom error"] in
  let r := @cmd.serve X s w in
  @quiet_at X ERROR /\
  ctx_Errors (snd r) <> [] /\
  exists report,
    errors_persisted (trace (snd r)) = [report] /\
    Method report = "GET" /\ Path report = "/api/v1/" /\
    IP report = "192.0.2.7" /\ RequestID report = "abc" /\
    Stack report = VStr ("Error #01: a custom error" +:+ gin.newline).
Proof.
  intros X w s r.
  assert (Hq : @quiet_at X ERROR) by (intros c; reflexivity).
  assert (Hne : ctx_Errors (snd r) <> []) by discriminate.
  split; [exact Hq|]. split; [exact Hne|].
  destruct (@C4_error_persister_invoked_iff_errors_recorded X s w Hq) as [_ H].
  destruct (H Hne) as (report & stack & Hp & Hm & _ & Hpath & Hip & Hid & Hst & Hs & _).
  exists report. split; [exact Hp|]. split; [exact Hm|]. split; [exact Hpath|].
  split; [exact Hip|]. split; [exact Hid|]. rewrite Hst, Hs. reflexivity.
Defined.

(** C5.  With any error persister in the pipeline of the entry point with
    the user routes, whatever the handler does, a panic included: once
    the inner stages are done, a panic of the handler having been
    recovered by the panic-recovery stage further in, the
    error-persistence stage hands the persister the report of the request
    when errors are recorded; and whatever the persister does, the stage
    returns without a panic: a panic of the persister is stopped, and all
    that follows it is one error-level record of the panic value and of
    the recorded errors.  The base logger is assumed to return from
    error-level calls. *)
Theorem C5_persistence_runs_after_recovery_and_is_guarded
    `{!Externals} (persistent : Errors -> M unit)
    (s : list handler.action) (w : World) :
  quiet_at ERROR ->
  let w3 := recovered fixed_body
              (handler.run web.ContextMiddlewareGetter s (entry w)) in
  let report := report_of (request w) (request_id w) (ctx_Errors w3) in
  let r := cmd.stages app.panicHandler persistent
             (handler.run web.ContextMiddlewareGetter s) w in
  fst r = Ret tt /\
  (ctx_Errors w3 = [] -> snd r = w3) /\
  (ctx_Errors w3 <> [] ->
   match persistent report w3 with
   | (Ret _, w4) => snd r = w4
   | (Panicked v, w4) =>
       snd r =
         if is_nil v then w4
         else add_event (EvLog ERROR (persister_panicked v (ctx_Errors w4))) w4
   end).
Proof.
  intros Hq w3 report r. subst r.
  rewrite (stages_run _ fixed_body) by exact app_panicHandler_responds.
  cbv zeta. fold w3. fold report.
  destruct (decide (length (ctx_Errors w3) = 0)) as [Hlen|Hlen].
  - apply length_zero_iff_nil in Hlen. simpl.
    split; [done|]. split; [done|]. intros Hne. by destruct Hne.
  - assert (Hne : ctx_Errors w3 <> []) by (intros E; by rewrite E in Hlen).
    destruct (persistent report w3) as [[[]|v] w4]; simpl.
    + split; [done|]. split; [intros E; by destruct Hne|done].
    + destruct (is_nil v); simpl.
      * split; [done|]. split; [intros E; by destruct Hne|done].
      * rewrite Zap_run, Hq. simpl.
        split; [done|]. split; [intros E; by destruct Hne|done].
Qed.

(** C5 at a handler that records an error and panics, with a persister
    that panics too. *)
Lemma C5_witness :
  let X := doubles.externals doubles.healthy in
  let w := doubles.fresh (doubles.GET "/api/v1/users" [("X-Request-ID", "abc")]) in
  let s := [handler.AError "user not found"; handler.APanic (VStr "boom")] in
  let r := @cmd.stages X (@app.panicHandler) (faulty_persister (Some (VStr "disk on fire")))
             (@handler.run X (@web.ContextMiddlewareGetter) s) w in
  @quiet_at X ERROR /\
  fst (@handler.run X (@web.ContextMiddlewareGetter) s (@entry X w))
    = Panicked (VStr "boom") /\
  fst r = Ret tt /\
  responses (trace (snd r)) = [(500%Z, fixed_body (VStr "boom"))] /\
  errors_persisted (trace (snd r))
    = [report_of (doubles.GET "/api/v1/users" [("X-Request-ID", "abc")])
         "abc" ["user not found"]] /\
  error_logs (trace (snd r))
    = [persister_panicked (VStr "disk on fire") ["user not found"]].
Proof.
  intros X w s r.
  assert (Hq : @quiet_at X ERROR) by (intros c; reflexivity).
  split; [exact Hq|]. split; [reflexivity|].
  destruct (@C5_persistence_runs_after_recovery_and_is_guarded X
              (faulty_persister (Some (VStr "disk on fire"))) s w Hq)
    as (H1 & _ & H3).
  split; [exact H1|]. fold r in H3.
  rewrite H3 by discriminate. repeat split; reflexivity.
Defined.

(** C6.  The request ID of a request is its inbound [X-Request-ID] header
    when that header is present and not empty, and then no ID is
    generated; when the header is absent (or empty) it is the token the
    generator returns, generated once and not empty (the UUID generator is
    assumed to return a non-empty string).  That one value is stored on the
    request for the whole pipeline, it is what every read of the request
    ID by the handler yields, and it is the request ID of every report
    handed to the error persister.  The base logger is assumed to return
    from error-level calls. *)
Theorem C6_request_id_is_reused_or_generated_and_stable
    `{!Externals} (s : list handler.action) (w : World) :
  quiet_at ERROR ->
  uuid_NewString <> "" ->
  let header := req_Header (request w) !! "X-Request-ID" in
  let r := cmd.serve s w in
  let id := request_id w in
  (forall h, header = Some h -> h <> "" ->
     id = h /\ id_generations (trace (snd r)) = id_generations (trace w)) /\
  (header = None \/ header = Some "" ->
     id = uuid_NewString /\ id <> "" /\
     id_generations (trace (snd r)) = (id_generations (trace w) ++ [tt])%list) /\
  Keys (snd r) !! web.idKey = Some (VStr id) /\
  (exists seen,
     ids_seen (trace (snd r)) = (ids_seen (trace w) ++ seen)%list /\
     Forall (fun i => i = id) seen) /\
  (exists reports,
     errors_persisted (trace (snd r)) = (errors_persisted (trace w) ++ reports)%list /\
     Forall (fun report => RequestID report = id) reports).
Proof.
  intros Hq Huuid header r id. unfold cmd.serve, cmd.engine in r.
  destruct (pipeline_observed _ _ s w panicHandler_responds Hq)
    as (_ & _ & H3 & _ & H5 & H6 & H7).
  fold r in H3, H5, H6, H7. split; [|split; [|split; [|split]]].
  - intros h Hh Hne.
    destruct (request_id_present w h Hh Hne) as [Hid Hmint].
    split; [exact Hid|]. by rewrite H5, Hmint, app_nil_r.
  - intros Hh.
    assert (Hd : default "" (req_Header (request w) !! "X-Request-ID") = "")
      by (fold header; by destruct Hh as [-> | ->]).
    destruct (request_id_absent w Hd) as [Hid Hmint].
    subst id. rewrite Hid. split; [done|]. split; [done|].
    by rewrite H5, Hmint.
  - exact H7.
  - exact H6.
  - eexists. split; [exact H3|].
    destruct (decide _); repeat constructor.
Qed.

(** C6 at a request that carries the header and whose handler reads the
    request ID, records an error and reads the ID again. *)
Lemma C6_witness :
  let X := doubles.externals doubles.healthy in
  let w := doubles.fresh (doubles.GET "/api/v1/" [("X-Request-ID", "abc")]) in
  let s := [handler.AReadID; handler.AError "a custom error"; handler.AReadID] in
  let r := @cmd.serve X s w in
  @quiet_at X ERROR /\
  @uuid_NewString X <> "" /\
  req_Header (request w) !! "X-Request-ID" = Some "abc" /\
  @request_id X w = "abc" /\
  ids_seen (trace (snd r)) = ["abc"; "abc"] /\
  RequestID <$> errors_persisted (trace (snd r)) = ["abc"].
Proof.
  intros X w s r.
  assert (Hq : @quiet_at X ERROR) by (intros c; reflexivity).
  assert (Hu : @uuid_NewString X <> "") by discriminate.
  assert (Hh : req_Header (request w) !! "X-Request-ID" = Some "abc") by reflexivity.
  split; [exact Hq|]. split; [exact Hu|]. split; [exact Hh|].
  destruct (@C6_request_id_is_reused_or_generated_and_stable X s w Hq Hu)
    as (Hre & _ & _ & _ & _).
  destruct (Hre "abc" Hh) as [Hid _]; [discriminate|].
  split; [exact Hid|]. split; reflexivity.
Defined.

(** C7 at its failing input.  With a base logger whose Panic-level
    methods panic after emitting, as the zap logger of [log.Zap()] does, a
    handler makes two logging calls through the collector, [Info("start")]
    and [Panic("boom")]: both reach the base logger, the pipeline recovers
    the panic, and the buffer handed to the audit persister holds one
    record; the [PANIC] record that [webLog.Panic] appends after the inner
    call is never reached. *)
Theorem C7_panic_level_call_is_not_buffered :
  let X := doubles.externals doubles.zap_like in
  let w := doubles.fresh (doubles.GET "/api/v1/" []) in
  let s := [handler.ALog INFO (Plain [VStr "start"]);
            handler.ALog PANIC (Plain [VStr "boom"])] in
  let r := @cmd.serve X s w in
  fst r = Ret tt /\
  base_logs (trace (snd r))
    = [(INFO, Plain [VStr "start"]); (PANIC, Plain [VStr "boom"])] /\
  logs_persisted (trace (snd r)) = [[@record X INFO (Plain [VStr "start"])]] /\
  responses (trace (snd r)) = [(500%Z, VStr "boom")].
Proof.
  intros X w s r. repeat split; reflexivity.
Qed.




(** C9, as the code has it.  For every format-string call and every
    keyed-pairs call on the collector that returns, one record is added to
    the buffer; its message is the JSON encoding of the two-element
    sequence (template or message, argument list) when that encoding
    succeeds, and otherwise the text that names the encoding error and
    renders the same sequence with [%v]. The formatted message that the
    base logger emits is never stored. *)
Theorem C9_buffered_message_of_format_and_keyed_calls
    `{!Externals} (lvl : level) (c : logcall) (s : string) (args : list value)
    (w : World) :
  let pair := [VStr s; VSlice args] in
  let r := web.call (WebLogger BaseLogger) lvl c w in
  c = Fmt s args \/ c = Kv s args ->
  fst r = Ret tt ->
  logs (snd r) =
    (logs w ++
     [mkLog (level_name lvl)
        match json_Marshal (VSlice pair) with
        | inl json => json
        | inr err => "序列化错误: " +:+ err +:+ ", 原始参数: " +:+ fmt_v (VSlice pair)
        end])%list.
Proof.
  intros pair r Hc Hr. subst r. rewrite collector_run in *.
  destruct (log_reaction lvl c); [discriminate|].
  destruct Hc as [-> | ->]; reflexivity.
Qed.

(** C9 at [Infow("GetById", "id", 1)]: the call returns and the message is
    the encoding of the pair. *)
Lemma C9_witness :
  let X := doubles.externals doubles.healthy in
  let w := doubles.fresh (doubles.GET "/api/v1/" []) in
  let c := Kv "GetById" [VStr "id"; VInt 1] in
  let r := @web.call X (WebLogger BaseLogger) INFO c w in
  (c = Fmt "GetById" [VStr "id"; VInt 1] \/ c = Kv "GetById" [VStr "id"; VInt 1]) /\
  fst r = Ret tt /\
  @json_Marshal X (VSlice [VStr "GetById"; VSlice [VStr "id"; VInt 1]])
    = inl (Msg (@record X INFO c)) /\
  logs (snd r) = [@record X INFO c].
Proof.
  intros X w c r.
  assert (Hc : c = Fmt "GetById" [VStr "id"; VInt 1]
               \/ c = Kv "GetById" [VStr "id"; VInt 1]) by (right; reflexivity).
  assert (Hr : fst r = Ret tt) by reflexivity.
  split; [exact Hc|]. split; [exact Hr|]. split; [reflexivity|].
  subst r.
  rewrite (@C9_buffered_message_of_format_and_keyed_calls X INFO c _ _ w Hc Hr).
  reflexivity.
Defined.

(** C9 as stated fails on an argument that has no JSON encoding: after
    [Infof("ch %v", ch)] with a channel [ch] the call has returned and
    buffered one record, the two-element sequence has no encoding, and the
    message of the record is the fallback text. *)
Lemma C9_counterexample :
  let X := doubles.externals doubles.healthy in
  let w := doubles.fresh (doubles.GET "/api/v1/" []) in
  let r := @web.call X (WebLogger BaseLogger) INFO (Fmt "ch %v" [VChan 1]) w in
  fst r = Ret tt /\
  logs (snd r) =
    [mkLog "INFO"
       "序列化错误: json: unsupported type: chan int, 原始参数: [ch %v [0xc000012060]]"] /\
  ~ exists json,
      @json_Marshal X (VSlice [VStr "ch %v"; VSlice [VChan 1]]) = inl json /\
      Msg <$> logs (snd r) = [json].
Proof.
  intros X w r. split; [reflexivity|]. split; [reflexivity|].
  intros (json & Hjson & _). vm_compute in Hjson. discriminate.
Qed.

(** C10.  When the context-injection stage has exited, whether the rest
    of the chain returned or panicked, the context slot of the request
    holds nil and the typed lookup answers not-found without a panic; the
    lookup also answers not-found, without a panic, whenever the slot is
    absent or holds a value that is not a [*Context]. *)
Theorem C10_context_slot_is_cleared_and_lookup_never_panics
    `{!Externals} (next : M unit) (w : World) :
  let w' := snd (cmd.contextMiddleware next w) in
  Keys w' !! web.webContextKey = Some VNil /\
  web.ContextMiddlewareGetter w' = (Ret (None, false), w') /\
  (forall w0,
     Keys w0 !! web.webContextKey = None ->
     web.ContextMiddlewareGetter w0 = (Ret (None, false), w0)) /\
  (forall w0 v,
     Keys w0 !! web.webContextKey = Some v ->
     (forall c, v <> VContext c) ->
     web.ContextMiddlewareGetter w0 = (Ret (None, false), w0)).
Proof.
  intros w'.
  assert (Hnil : Keys w' !! web.webContextKey = Some VNil).
  { subst w'. unfold cmd.contextMiddleware. rewrite ContextMiddleware_run.
    simpl. apply lookup_insert_eq. }
  assert (Habsent : forall w0,
     Keys w0 !! web.webContextKey = None ->
     web.ContextMiddlewareGetter w0 = (Ret (None, false), w0)).
  { intros w0 Hk. unfold web.ContextMiddlewareGetter.
    by rewrite bind_run, Get_run, Hk. }
  assert (Hwrong : forall w0 v,
     Keys w0 !! web.webContextKey = Some v ->
     (forall c, v <> VContext c) ->
     web.ContextMiddlewareGetter w0 = (Ret (None, false), w0)).
  { intros w0 v Hk Hv. unfold web.ContextMiddlewareGetter.
    rewrite bind_run, Get_run, Hk. simpl.
    destruct v; try reflexivity. by destruct (Hv c). }
  split; [exact Hnil|]. split; [|by split].
  apply (Hwrong w' VNil Hnil). discriminate.
Qed.

(** C10 at worlds whose slot is absent and whose slot holds a string. *)
Lemma C10_witness :
  let X := doubles.externals doubles.healthy in
  let w := doubles.fresh (doubles.GET "/api/v1/" []) in
  let w0 := set_Keys (insert web.webContextKey (VStr "not a context")) w in
  Keys w !! web.webContextKey = None /\
  @web.ContextMiddlewareGetter w = (Ret (None, false), w) /\
  Keys w0 !! web.webContextKey = Some (VStr "not a context") /\
  @web.ContextMiddlewareGetter w0 = (Ret (None, false), w0).
Proof.
  intros X w w0.
  destruct (@C10_context_slot_is_cleared_and_lookup_never_panics X (mret tt) w)
    as (_ & _ & Habsent & Hwrong).
  assert (H1 : Keys w !! web.webContextKey = None) by reflexivity.
  assert (H2 : Keys w0 !! web.webContextKey = Some (VStr "not a context"))
    by reflexivity.
  split; [exact H1|]. split; [exact (Habsent w H1)|]. split; [exact H2|].
  apply (Hwrong w0 _ H2). discriminate.
Defined.

(** X1.  When the base logger returns from each of the N logging calls a
    request makes through its collector, the buffer gains exactly N
    records, in the order of the calls, each with the level of its call. *)
Theorem X1_returning_calls_are_buffered_in_order
    `{!Externals} (cs : list (level * logcall)) (w : World) :
  Forall (fun lc => log_reaction lc.1 lc.2 = None) cs ->
  let w' := snd (calls cs w) in
  fst (calls cs w) = Ret tt /\
  length (logs w') = length (logs w) + length cs /\
  logs w' = (logs w ++ ((fun lc => record lc.1 lc.2) <$> cs))%list /\
  Level <$> drop (length (logs w)) (logs w') = (fun lc => level_name lc.1) <$> cs.
Proof.
  intros Hq w'. destruct (calls_buffered cs w Hq) as [Hr Hl].
  subst w'. rewrite Hl. split; [exact Hr|]. split; [|split; [done|]].
  - by rewrite length_app, length_fmap.
  - rewrite drop_app_length, <- list_fmap_compose. reflexivity.
Qed.

(** X1 at three calls of three levels and families. *)
Lemma X1_witness :
  let X := doubles.externals doubles.zap_like in
  let w := doubles.fresh (doubles.GET "/api/v1/" []) in
  let cs := [(INFO, Plain [VStr "start"]);
             (WARN, Fmt "slow: %d ms" [VInt 1200]);
             (ERROR, Kv "failed" [VStr "id"; VInt 1])] in
  Forall (fun lc => @log_reaction X lc.1 lc.2 = None) cs /\
  Level <$> logs (snd (@calls X cs w)) = ["INFO"; "WARN"; "ERROR"].
Proof.
  intros X w cs.
  assert (Hq : Forall (fun lc => @log_reaction X lc.1 lc.2 = None) cs)
    by (repeat constructor).
  split; [exact Hq|].
  destruct (@X1_returning_calls_are_buffered_in_order X cs w Hq)
    as (_ & _ & _ & Hlv).
  exact Hlv.
Defined.

(** * Further properties of the pipeline *)

(** X2.  The request-ID stage and [RequestIdGetter] form a round trip, for
    any ID generator: the rest of the chain reads the inbound header when
    it is not empty, and then the generator is not called; otherwise it
    reads what the generator returned, whatever that is, and a panic of the
    generator ends the stage before the rest of the chain starts.  Where
    no ID is stored the getter returns the empty string, and where the
    slot holds a value that is not a string it panics. *)
Theorem X2_request_id_round_trip
    `{!Externals} (idGen : M string) (k : string -> M unit) (w : World) :
  let header := default "" (req_Header (request w) !! "X-Request-ID") in
  web.RequestIDMiddleware idGen (web.RequestIdGetter ≫= k) w =
    (if decide (header = "") then
       match idGen w with
       | (Ret id, w1) =>
           k id (set_Keys (insert web.idKey (VStr id))
                   (set_Keys (insert "X-Request-ID" (VStr id)) w1))
       | (Panicked v, w1) => (Panicked v, w1)
       end
     else k header (set_Keys (insert web.idKey (VStr header)) w)) /\
  (Keys w !! web.idKey = None -> web.RequestIdGetter w = (Ret "", w)) /\
  (forall v, Keys w !! web.idKey = Some v -> (forall s, v <> VStr s) ->
     web.RequestIdGetter w = (Panicked not_a_string, w)).
Proof.
  intros header. split; [|split].
  - unfold web.RequestIDMiddleware.
    rewrite bind_run. unfold gin.GetHeader. rewrite bind_run. simpl.
    fold header. rewrite bind_run.
    destruct (decide (header = "")) as [He|He].
    + rewrite bind_run. destruct (idGen w) as [[id|v] w1]; [|reflexivity].
      simpl. rewrite !bind_run, !Set_run. simpl.
      rewrite bind_run.
      rewrite (RequestIdGetter_run _ id) by (simpl; apply lookup_insert_eq).
      reflexivity.
    + simpl. rewrite !bind_run, Set_run. simpl. rewrite bind_run.
      rewrite (RequestIdGetter_run _ header) by (simpl; apply lookup_insert_eq).
      reflexivity.
  - intros Hk. unfold web.RequestIdGetter. by rewrite bind_run, Get_run, Hk.
  - intros v Hk Hv. unfold web.RequestIdGetter. rewrite bind_run, Get_run, Hk.
    simpl. destruct v; try reflexivity. by destruct (Hv s).
Qed.

(** X2 at a request without the header and a generator that returns
    [fresh-1], at a request with no ID stored, and at a slot that holds
    an integer. *)
Lemma X2_witness :
  let X := doubles.externals doubles.healthy in
  let w := doubles.fresh (doubles.GET "/api/v1/" []) in
  let w0 := set_Keys (insert web.idKey (VInt 7)) w in
  let saw := fun id : string => emit (EvSawID id) in
  ids_seen (trace (snd (@web.RequestIDMiddleware (mret "fresh-1")
                          (web.RequestIdGetter ≫= saw) w))) = ["fresh-1"] /\
  Keys w !! web.idKey = None /\
  web.RequestIdGetter w = (Ret "", w) /\
  Keys w0 !! web.idKey = Some (VInt 7) /\
  web.RequestIdGetter w0 = (Panicked not_a_string, w0).
Proof.
  intros X w w0 saw.
  destruct (@X2_request_id_round_trip X (mret "fresh-1") saw w) as (H1 & H2 & _).
  destruct (@X2_request_id_round_trip X (mret "fresh-1") saw w0) as (_ & _ & H3).
  assert (Hk : Keys w !! web.idKey = None) by reflexivity.
  assert (Hk0 : Keys w0 !! web.idKey = Some (VInt 7)) by reflexivity.
  split; [rewrite H1; reflexivity|].
  split; [exact Hk|]. split; [exact (H2 Hk)|]. split; [exact Hk0|].
  apply (H3 _ Hk0). discriminate.
Defined.

(** X3.  Inside the context-injection stage the typed lookup succeeds:
    [WebContextMust] hands the rest of the chain the context that the
    constructor built around the collector of the request, without a
    panic and without recording an error, for any constructor, inner
    logger and persister.  The collector starts with an empty buffer:
    what the buffer held when the stage was entered has no influence. *)
Theorem X3_context_is_found_inside_the_stage
    `{!Externals} (constructor : LogRef -> Context) (innerLogger : LogRef)
    (webLogPersister : list LogRecord -> M (option string))
    (k : option Context -> M unit) (w : World) :
  web.ContextMiddleware constructor innerLogger webLogPersister
      (handler.WebContextMust web.ContextMiddlewareGetter ≫= k) w
    = web.ContextMiddleware constructor innerLogger webLogPersister
        (k (Some (constructor (WebLogger innerLogger)))) w /\
  forall (next : M unit) (f : list LogRecord -> list LogRecord),
    web.ContextMiddleware constructor innerLogger webLogPersister next (set_logs f w)
      = web.ContextMiddleware constructor innerLogger webLogPersister next w.
Proof.
  split.
  - unfold web.ContextMiddleware. rewrite !bind_run. simpl.
    unfold defer_ at 1 3. rewrite !bind_run, !Set_run.
    unfold defer_ at 1 2. rewrite bind_run.
    unfold handler.WebContextMust. rewrite bind_run.
    unfold web.ContextMiddlewareGetter. rewrite bind_run, Get_run. simpl.
    rewrite lookup_insert_eq. reflexivity.
  - intros next f. unfold web.ContextMiddleware. rewrite !bind_run. reflexivity.
Qed.

(** X4.  Where the context slot of the request does not hold a request
    context (it is absent, nil after the context-injection stage has
    exited, or of another type), [WebContextMust] records
    [WebContextNotFoundError] on the request and panics with a
    [ServerInternalError]; nothing after it in the handler runs.  Under
    the panic-recovery stage of [cmd/main.go] the request is answered with
    status 500 and the body of that error, and under the stage of the entry
    point with the user routes with status 500 and the fixed body. *)
Theorem X4_missing_context_is_answered_with_500
    `{!Externals} (k : option Context -> M unit) (w : World) :
  (forall c, Keys w !! web.webContextKey <> Some (VContext c)) ->
  let w1 := set_ctx_Errors (fun es => (es ++ [handler.WebContextNotFoundError])%list) w in
  handler.WebContextMust web.ContextMiddlewareGetter w = (Panicked context_not_found, w1) /\
  web.Recover cmd.panicHandler
      (handler.WebContextMust web.ContextMiddlewareGetter ≫= k) w
    = (Ret tt, add_event (EvJSON 500 context_not_found_body) w1) /\
  web.Recover app.panicHandler
      (handler.WebContextMust web.ContextMiddlewareGetter ≫= k) w
    = (Ret tt, add_event (EvJSON 500 (fixed_body context_not_found)) w1).
Proof.
  intros Hk w1.
  assert (Hget : web.ContextMiddlewareGetter w = (Ret (None, false), w)).
  { unfold web.ContextMiddlewareGetter. rewrite bind_run, Get_run.
    destruct (Keys w !! web.webContextKey) as [v|] eqn:E; [|reflexivity].
    simpl. destruct v; try reflexivity. by destruct (Hk c). }
  assert (Hmust : handler.WebContextMust web.ContextMiddlewareGetter w
                  = (Panicked context_not_found, w1)).
  { unfold handler.WebContextMust. rewrite bind_run, Hget. reflexivity. }
  split; [exact Hmust|].
  split; rewrite Recover_run, bind_run, Hmust; reflexivity.
Qed.

(** X4 at a request whose slot holds nil, as the context-injection stage
    leaves it. *)
Lemma X4_witness :
  let X := doubles.externals doubles.healthy in
  let w := set_Keys (insert web.webContextKey VNil)
             (doubles.fresh (doubles.GET "/api/v1/" [])) in
  let r := @web.Recover (@cmd.panicHandler) (@cmd.GetById X) w in
  (forall c, Keys w !! web.webContextKey <> Some (VContext c)) /\
  fst r = Ret tt /\
  ctx_Errors (snd r) = [handler.WebContextNotFoundError] /\
  responses (trace (snd r)) = [(500%Z, context_not_found_body)] /\
  base_logs (trace (snd r)) = [].
Proof.
  intros X w r.
  assert (Hk : forall c, Keys w !! web.webContextKey <> Some (VContext c))
    by (intros c; discriminate).
  split; [exact Hk|].
  destruct (@X4_missing_context_is_answered_with_500 X
              (fun ctx => handler.ctx_Log ctx INFO (Kv "GetById" [VStr "id"; VInt 1]);;
                          gin.Error "a custom error") w Hk) as (_ & H & _).
  subst r. unfold cmd.GetById, handler.GetById. rewrite H.
  repeat split; reflexivity.
Defined.

(** X5.  A panic that the panic handler raises itself, while it answers a
    panic of the route handler, leaves the panic-recovery stage; the
    error-persistence stage stops it and logs it at error level, under the
    message of a failed persister, and returns.  The error persister is
    not called: the errors recorded on the request are not persisted.  The
    base logger is assumed to return from error-level calls. *)
Theorem X5_panic_of_the_panic_handler_loses_the_report
    `{!Externals} (panicHandler : value -> M unit) (persistent : Errors -> M unit)
    (h : M unit) (w w1 w2 : World) (v v' : value) :
  quiet_at ERROR ->
  h (entry w) = (Panicked v, w1) -> is_nil v = false ->
  panicHandler v (flushed w1) = (Panicked v', w2) -> is_nil v' = false ->
  cmd.stages panicHandler persistent h w
    = (Ret tt, add_event (EvLog ERROR (persister_panicked v' (ctx_Errors w2))) w2).
Proof.
  intros Hq Hh Hv Hph Hv'. unfold cmd.stages.
  rewrite RequestIDMiddleware_run.
  rewrite (ErrorPersisterMiddleware_run _ _ _ _ _ (identified_id w)).
  rewrite Recover_run. unfold cmd.contextMiddleware.
  rewrite ContextMiddleware_run. simpl infra.Log. fold (entry w).
  rewrite Hh. simpl fst. simpl snd. cbv iota beta. rewrite Hv, Hph.
  simpl. rewrite Hv'. rewrite Zap_run, Hq. reflexivity.
Qed.

(** X5 at a handler that records an error and panics, a panic handler that
    panics while rendering, and a persister that would record the
    report. *)
Lemma X5_witness :
  let X := doubles.externals doubles.healthy in
  let w := doubles.fresh (doubles.GET "/api/v1/" [("X-Request-ID", "abc")]) in
  let h := @handler.run X (@web.ContextMiddlewareGetter)
             [handler.AError "a custom error"; handler.APanic (VStr "boom")] in
  let ph := fun _ : value => panic (VStr "render failed") in
  let r := @cmd.stages X ph (faulty_persister None) h w in
  @quiet_at X ERROR /\
  fst r = Ret tt /\
  ctx_Errors (snd r) = ["a custom error"] /\
  errors_persisted (trace (snd r)) = [] /\
  responses (trace (snd r)) = [] /\
  error_logs (trace (snd r))
    = [persister_panicked (VStr "render failed") ["a custom error"]].
Proof.
  intros X w h ph r.
  assert (Hq : @quiet_at X ERROR) by (intros c; reflexivity).
  split; [exact Hq|].
  subst r.
  rewrite (@X5_panic_of_the_panic_handler_loses_the_report X ph
             (faulty_persister None) h w
             (snd (h (@entry X w)))
             (@flushed (snd (h (@entry X w))))
             (VStr "boom") (VStr "render failed") Hq
             eq_refl eq_refl eq_refl eq_refl).
  repeat split; reflexivity.
Defined.

(** X6.  [saveToFile] gives up at the first failure and returns its error:
    when the directory cannot be created no file is opened, and when the
    file cannot be opened nothing is written.  A file that it has opened
    it closes exactly once, after the write, also when the write fails;
    it opens, writes and closes no other file. *)
Theorem X6_saveToFile_stops_at_the_first_failure_and_closes_the_file
    `{!Externals} (e : repository.Errors.t) (rec : Errors) (w : World) :
  let dir := repository.Errors.FallbackFilePath e in
  let path := fallback_path dir rec in
  let data := fallback_data rec in
  exists err evs,
    repository.Errors.saveToFile e rec w = (Ret err, snd (repository.Errors.saveToFile e rec w)) /\
    trace (snd (repository.Errors.saveToFile e rec w)) = (trace w ++ EvMkdirAll dir :: evs)%list /\
    match mkdirall_err dir, openfile_err path with
    | Some failure, _ => err = Some failure /\ evs = []
    | None, Some failure => err = Some failure /\ evs = [EvOpenFile path]
    | None, None =>
        err = write_err path data /\
        evs = [EvOpenFile path; EvWrite path data; EvClose path]
    end.
Proof.
  intros dir path data. rewrite saveToFile_run. cbv zeta.
  fold dir. fold path. fold data.
  destruct (mkdirall_err dir) as [e1|].
  { exists (Some e1), []. split; [done|]. split; [done|]. done. }
  destruct (openfile_err path) as [e2|].
  { exists (Some e2), [EvOpenFile path]. split; [done|]. split; [|done].
    simpl. by rewrite <- app_assoc. }
  destruct (write_err path data) as [e3|].
  - exists (Some e3), [EvOpenFile path; EvWrite path data; EvClose path].
    split; [done|]. split; [|done]. simpl. by rewrite <- !app_assoc.
  - exists None, [EvOpenFile path; EvWrite path data; EvClose path].
    split; [done|]. split; [|done]. simpl. by rewrite <- !app_assoc.
Qed.

(** * The configuration loader *)

Section loader_lemmas.
Context `{!Externals} `{!Startup}.

Lemma traced_nil (w : World) : traced [] w = w.
Proof. destruct w. unfold traced. simpl. by rewrite app_nil_r. Qed.

Lemma traced_app (a b : list event) (w : World) :
  traced b (traced a w) = traced (a ++ b) w.
Proof. unfold traced. simpl. by rewrite app_assoc. Qed.

Lemma base_call_run (lvl : level) (c : logcall) (w : World) :
  log_reaction lvl c = None ->
  web.call BaseLogger lvl c w = (Ret tt, traced [EvLog lvl c] w).
Proof. intros Hr. simpl. rewrite Zap_run, Hr. reflexivity. Qed.

Lemma opens_app (a b : list event) : opens (a ++ b) = (opens a ++ opens b)%list.
Proof. apply omap_app. Qed.

Lemma closes_app (a b : list event) : closes (a ++ b) = (closes a ++ closes b)%list.
Proof. apply omap_app. Qed.

Lemma error_logs_app (a b : list event) :
  error_logs (a ++ b) = (error_logs a ++ error_logs b)%list.
Proof. apply omap_app. Qed.

Lemma filterEmptyString_loop_named (notEmpty strs : list string) :
  byjson.filterEmptyString_loop notEmpty strs = (notEmpty ++ named strs)%list.
Proof.
  revert notEmpty. induction strs as [|str strs IH]; intros notEmpty; simpl.
  - by rewrite app_nil_r.
  - unfold named. rewrite filter_cons.
    destruct (decide (String.length (strings_TrimSpace str) <> 0)).
    + rewrite IH. by rewrite <- app_assoc.
    + apply IH.
Qed.

Lemma filterEmptyString_named (strs : list string) :
  byjson.filterEmptyString strs = named strs.
Proof. unfold byjson.filterEmptyString. by rewrite filterEmptyString_loop_named. Qed.

Lemma emit_run (e : event) (w : World) : emit e w = (Ret tt, traced [e] w).
Proof. reflexivity. Qed.

Lemma add_event_traced (e : event) (w : World) : add_event e w = traced [e] w.
Proof. reflexivity. Qed.

(** The outcome of [parse] as [load] reads it. *)
Lemma parse_run (config : option loader.LoadConfig) (path : string) :
  quiet_at ERROR ->
  exists logged,
    (forall w,
       byjson.parse (loader.mkContext config BaseLogger) path w =
       (Ret match decoded path with
            | inl c => (Some c, None)
            | inr e => (None, Some e)
            end,
        traced (EvOpenFile path :: logged
                  ++ match os_Open_err path with
                     | Some _ => []
                     | None => [EvClose path]
                     end) w)) /\
    match decoded path with
    | inl _ => logged = []
    | inr _ => exists c, logged = [EvLog ERROR c]
    end.
Proof.
  intros Hq. unfold byjson.parse, decoded.
  change byjson.MaxConfigFileSize with 104857600%Z.
  change (pretty byjson.MaxConfigFileSizeMB) with "100".
  unfold os.File_Close, defer_. simpl loader.Log.
  destruct (os_Open_err path) as [err|].
  { eexists. split; [|eexists; reflexivity].
    intros w. rewrite bind_run, emit_run. cbv iota beta.
    rewrite bind_run, base_call_run by apply Hq.
    simpl. rewrite ?add_event_traced, ?traced_app. reflexivity. }
  destruct (File_Stat_Size path) as [size|err].
  2:{ eexists. split; [|eexists; reflexivity].
      intros w. rewrite bind_run, emit_run. cbv iota beta.
      rewrite bind_run, base_call_run by apply Hq. simpl.
      rewrite ?emit_run, ?add_event_traced, ?traced_app. reflexivity. }
  destruct (decide (size > 104857600)%Z).
  { eexists. split; [|eexists; reflexivity].
    intros w. rewrite bind_run, emit_run. cbv iota beta.
    rewrite bind_run, base_call_run by apply Hq. simpl.
    rewrite ?emit_run, ?add_event_traced, ?traced_app. reflexivity. }
  destruct (io_ReadAll path) as [contents|err].
  2:{ eexists. split; [|eexists; reflexivity].
      intros w. rewrite bind_run, emit_run. cbv iota beta.
      rewrite bind_run, base_call_run by apply Hq. simpl.
      rewrite ?emit_run, ?add_event_traced, ?traced_app. reflexivity. }
  cbv zeta.
  destruct (json_Unmarshal (byjson.LimitReader contents 104857600)) as [c|err].
  - exists []. split; [|reflexivity].
    intros w. rewrite bind_run, emit_run. cbv iota beta. simpl.
    rewrite ?emit_run, ?add_event_traced, ?traced_app. reflexivity.
  - eexists. split; [|eexists; reflexivity].
    intros w. rewrite bind_run, emit_run. cbv iota beta.
    rewrite bind_run, base_call_run by apply Hq. simpl.
    rewrite ?emit_run, ?add_event_traced, ?traced_app. reflexivity.
Qed.

Lemma first_usable_app (a b : list string) :
  first_usable (a ++ b)%list =
  match first_usable a with Some c => Some c | None => first_usable b end.
Proof.
  induction a as [|f a IH]; [reflexivity|]. simpl.
  destruct (os_Stat_IsNotExist f); [exact IH|].
  destruct (decoded f); [reflexivity|exact IH].
Qed.

Lemma visited_app (a b : list string) :
  visited (a ++ b)%list =
  match first_usable a with
  | Some _ => visited a
  | None => (visited a ++ visited b)%list
  end.
Proof.
  induction a as [|f a IH]; [reflexivity|]. simpl.
  destruct (os_Stat_IsNotExist f); [exact IH|].
  destruct (decoded f); [reflexivity|]. rewrite IH.
  by destruct (first_usable a).
Qed.

Lemma first_usable_none (fs : list string) :
  Forall unusable fs ->
  first_usable fs = None /\
  visited fs = filter (fun f => os_Stat_IsNotExist f = false) fs.
Proof.
  induction 1 as [|f fs Hf _ [IH1 IH2]]; [done|]. simpl.
  rewrite filter_cons.
  destruct Hf as [Hf|[e Hf]].
  - rewrite Hf. rewrite decide_False by done. done.
  - destruct (os_Stat_IsNotExist f) eqn:E.
    + rewrite decide_False by done. done.
    + rewrite Hf, decide_True by done. by rewrite IH1, IH2.
Qed.

Lemma first_usable_split (before after : list string) (f : string) (c : conf.Conf) :
  Forall unusable before -> usable f c ->
  first_usable (before ++ f :: after)%list = Some c /\
  visited (before ++ f :: after)%list
    = filter (fun f => os_Stat_IsNotExist f = false) (before ++ [f])%list /\
  refusals (before ++ [f])%list = refusals before.
Proof.
  intros Hb [Hf Hd].
  destruct (first_usable_none before Hb) as [H1 H2].
  rewrite first_usable_app, visited_app, H1, H2. simpl. rewrite Hf, Hd.
  split; [done|]. split.
  - rewrite filter_app, filter_cons, decide_True by done. done.
  - unfold refusals. rewrite omap_app. simpl. rewrite Hf, Hd. simpl.
    by rewrite app_nil_r.
Qed.

(** One candidate. *)
Lemma try_candidate_run (config : option loader.LoadConfig) (f : string) :
  quiet_at DEBUG -> quiet_at ERROR ->
  exists evs,
    (forall errors w,
       byjson.try_candidate (loader.mkContext config BaseLogger) f errors w =
       (Ret (if os_Stat_IsNotExist f then inr errors
             else match decoded f with
                  | inl c => inl (Some c)
                  | inr e => inr (errors ++ [e])%list
                  end),
        traced evs w)) /\
    opens evs = (if os_Stat_IsNotExist f then [] else [f]) /\
    closes evs = (if os_Stat_IsNotExist f then []
                  else match os_Open_err f with Some _ => [] | None => [f] end) /\
    Forall reading evs.
Proof.
  intros Hd He. unfold byjson.try_candidate. simpl loader.Log.
  destruct (os_Stat_IsNotExist f).
  { exists [EvLog DEBUG (Plain [VStr "尝试配置文件路径"]);
            EvLog DEBUG (Plain [VStr "配置文件不存在"])].
    split; [|split; [reflexivity|split; [reflexivity|by repeat constructor]]].
    intros errors w. rewrite bind_run, base_call_run by apply Hd. cbv iota beta.
    rewrite bind_run, base_call_run by apply Hd. simpl.
    rewrite ?add_event_traced, ?traced_app. reflexivity. }
  destruct (parse_run config f He) as (logged & Hrun & Hlogged).
  exists ([EvLog DEBUG (Plain [VStr "尝试配置文件路径"]);
           EvLog DEBUG (Plain [VStr "发现配置文件"])]
          ++ EvOpenFile f :: logged
          ++ match os_Open_err f with Some _ => [] | None => [EvClose f] end)%list.
  split; [|split; [|split]].
  - intros errors w. rewrite bind_run, base_call_run by apply Hd. cbv iota beta.
    rewrite bind_run, base_call_run by apply Hd. cbv iota beta.
    rewrite bind_run, Hrun, !traced_app.
    destruct (decoded f); reflexivity.
  - simpl. rewrite opens_app.
    assert (Hl : opens logged = []).
    { destruct (decoded f); [by subst|]. destruct Hlogged as [c ->]. done. }
    rewrite Hl. by destruct (os_Open_err f).
  - simpl. rewrite closes_app.
    assert (Hl : closes logged = []).
    { destruct (decoded f); [by subst|]. destruct Hlogged as [c ->]. done. }
    rewrite Hl. by destruct (os_Open_err f).
  - assert (Hl : Forall reading logged).
    { destruct (decoded f); [by subst|]. destruct Hlogged as [c ->].
      by repeat constructor. }
    repeat (apply Forall_cons; split; [exact I|]).
    apply Forall_app. split; [exact Hl|].
    destruct (os_Open_err f); by repeat constructor.
Qed.

(** The inner and the outer loop of [load]. *)
Lemma files_loop_run (config : option loader.LoadConfig) (p : string) (ns : list string) :
  quiet_at DEBUG -> quiet_at ERROR ->
  let fs := filepath_Join p <$> ns in
  exists evs,
    (forall errors w,
       byjson.files_loop (loader.mkContext config BaseLogger) p ns errors w =
       (Ret match first_usable fs with
            | Some c => inl (Some c)
            | None => inr (errors ++ refusals fs)%list
            end,
        traced evs w)) /\
    opens evs = visited fs /\
    closes evs = filter (fun f => os_Open_err f = None) (visited fs) /\
    Forall reading evs.
Proof.
  intros Hd He. induction ns as [|n ns IH]; simpl.
  { exists []. split; [|done]. intros errors w.
    by rewrite traced_nil, app_nil_r. }
  destruct IH as (evs2 & Hrun2 & Ho2 & Hc2 & Hr2).
  destruct (try_candidate_run config (filepath_Join p n) Hd He)
    as (evs1 & Hrun1 & Ho1 & Hc1 & Hr1).
  destruct (os_Stat_IsNotExist (filepath_Join p n)) eqn:Ex.
  { exists (evs1 ++ evs2)%list. split; [|split; [|split]].
    - intros errors w. rewrite bind_run, Hrun1. cbv iota beta.
      rewrite Hrun2, traced_app. reflexivity.
    - by rewrite opens_app, Ho1, Ho2.
    - by rewrite closes_app, Hc1, Hc2.
    - by apply Forall_app. }
  destruct (decoded (filepath_Join p n)) as [c|e] eqn:Ed.
  { exists evs1. split; [|split; [|split]].
    - intros errors w. by rewrite bind_run, Hrun1.
    - exact Ho1.
    - rewrite Hc1, filter_cons. destruct (os_Open_err (filepath_Join p n)).
      + by rewrite decide_False.
      + by rewrite decide_True.
    - exact Hr1. }
  exists (evs1 ++ evs2)%list. split; [|split; [|split]].
  - intros errors w. rewrite bind_run, Hrun1. cbv iota beta.
    rewrite Hrun2, traced_app.
    change (list_fmap string string (filepath_Join p) ns)
      with (filepath_Join p <$> ns).
    destruct (first_usable _); [reflexivity|].
    by rewrite <- app_assoc.
  - by rewrite opens_app, Ho1, Ho2.
  - rewrite closes_app, Hc1, Hc2, filter_cons.
    destruct (os_Open_err (filepath_Join p n)).
    + by rewrite decide_False.
    + by rewrite decide_True.
  - by apply Forall_app.
Qed.

Lemma paths_loop_run (config : option loader.LoadConfig) (ps ns : list string) :
  quiet_at DEBUG -> quiet_at ERROR ->
  let fs := candidates ps ns in
  exists evs,
    (forall errors w,
       byjson.paths_loop (loader.mkContext config BaseLogger) ps ns errors w =
       (Ret match first_usable fs with
            | Some c => inl (Some c)
            | None => inr (errors ++ refusals fs)%list
            end,
        traced evs w)) /\
    opens evs = visited fs /\
    closes evs = filter (fun f => os_Open_err f = None) (visited fs) /\
    Forall reading evs.
Proof.
  intros Hd He. induction ps as [|p ps IH].
  { exists []. split; [|done]. intros errors w. simpl.
    by rewrite traced_nil, app_nil_r. }
  destruct IH as (evs2 & Hrun2 & Ho2 & Hc2 & Hr2).
  destruct (files_loop_run config p ns Hd He) as (evs1 & Hrun1 & Ho1 & Hc1 & Hr1).
  cbv zeta in *.
  change (candidates (p :: ps) ns)
    with ((filepath_Join p <$> ns) ++ candidates ps ns)%list.
  rewrite first_usable_app, visited_app.
  unfold refusals at 1. rewrite omap_app. fold (refusals (filepath_Join p <$> ns)).
  fold (refusals (candidates ps ns)).
  destruct (first_usable (filepath_Join p <$> ns)) as [c|] eqn:E1.
  { exists evs1. split; [|by repeat split].
    intros errors w. simpl. by rewrite bind_run, Hrun1. }
  exists (evs1 ++ evs2)%list. split; [|split; [|split]].
  - intros errors w. simpl. rewrite bind_run, Hrun1. cbv iota beta.
    rewrite Hrun2, traced_app.
    destruct (first_usable (candidates ps ns)); [reflexivity|].
    by rewrite <- app_assoc.
  - by rewrite opens_app, Ho1, Ho2.
  - by rewrite closes_app, Hc1, Hc2, filter_app.
  - by apply Forall_app.
Qed.

(** The whole search. *)
Lemma load_run (lc : loader.LoadConfig) :
  quiet_at DEBUG -> quiet_at ERROR ->
  named (loader.Paths lc) <> [] -> named (loader.Files lc) <> [] ->
  let fs := candidates (named (loader.Paths lc)) (named (loader.Files lc)) in
  exists evs,
    (forall w,
       byjson.load (loader.mkContext (Some lc) BaseLogger) w =
       match first_usable fs with
       | Some c => (Ret (Some c, None), traced evs w)
       | None =>
           (Ret (None,
                 Some match last (refusals fs) with
                      | Some e => byjson.Error (byjson.Error_Error e) (Some e)
                      | None => byjson.Error "未找到可用的配置文件" None
                      end),
            traced (evs ++
                    [EvLog ERROR
                       (Kv "未找到可用的配置文件"
                          [VStr "config"; loader.LoadConfig_value lc;
                           VStr "errors";
                           VSlice ((fun e => VError (byjson.Error_Error e))
                                     <$> refusals fs)])]) w)
       end) /\
    opens evs = visited fs /\
    closes evs = filter (fun f => os_Open_err f = None) (visited fs) /\
    Forall reading evs.
Proof.
  intros Hd He Hp Hn fs.
  destruct (paths_loop_run (Some lc) (named (loader.Paths lc)) (named (loader.Files lc))
              Hd He) as (evs & Hrun & Ho & Hc & Hr).
  exists evs. split; [|by repeat split].
  intros w. unfold byjson.load. cbn [loader.Config loader.Log]. cbv zeta.
  rewrite !filterEmptyString_named.
  rewrite decide_False.
  2:{ intros [E|E]; apply length_zero_iff_nil in E; contradiction. }
  rewrite bind_run, Hrun. fold fs.
  destruct (first_usable fs) as [c|]; [reflexivity|].
  cbv iota beta. simpl app.
  rewrite bind_run, base_call_run by apply He. cbv iota beta.
  rewrite traced_app.
  destruct (last (refusals fs)); reflexivity.
Qed.

Lemma LimitReader_all (data : string) (n : Z) :
  (Z.of_nat (String.length data) <= n)%Z -> byjson.LimitReader data n = data.
Proof.
  revert n. induction data as [|c data IH]; intros n Hn; [reflexivity|].
  simpl in *. rewrite decide_False by lia. f_equal. apply IH. lia.
Qed.

Lemma candidates_nonempty (ps ns : list string) :
  candidates ps ns <> [] -> ps <> [] /\ ns <> [].
Proof.
  intros Hc. split; intros ->; apply Hc; [reflexivity|].
  clear Hc. unfold candidates. induction ps as [|p ps IH]; [reflexivity|].
  simpl. exact IH.
Qed.

(** The two outcomes of the search. *)
Lemma load_first_usable (lc : loader.LoadConfig)
    (before after : list string) (f : string) (c : conf.Conf) (w : World) :
  quiet_at DEBUG -> quiet_at ERROR ->
  candidates (byjson.filterEmptyString (loader.Paths lc))
             (byjson.filterEmptyString (loader.Files lc))
    = (before ++ f :: after)%list ->
  Forall unusable before ->
  usable f c ->
  exists evs,
    byjson.load (loader.mkContext (Some lc) BaseLogger) w
      = (Ret (Some c, None), traced evs w) /\
    opens evs = filter (fun f => os_Stat_IsNotExist f = false) (before ++ [f])%list /\
    closes evs = filter (fun f => os_Open_err f = None) (opens evs) /\
    Forall reading evs.
Proof.
  intros Hd He Hcs Hb Hf. rewrite !filterEmptyString_named in Hcs.
  assert (Hne : candidates (named (loader.Paths lc)) (named (loader.Files lc)) <> []).
  { rewrite Hcs. by destruct before. }
  destruct (candidates_nonempty _ _ Hne) as [Hp Hn].
  destruct (load_run lc Hd He Hp Hn) as (evs & Hrun & Ho & Hc & Hr).
  cbv zeta in *. rewrite Hcs in *.
  destruct (first_usable_split before after f c Hb Hf) as (H1 & H2 & _).
  exists evs. rewrite Hrun, H1. split; [done|].
  rewrite Ho, Hc, H2. done.
Qed.

Lemma load_none_usable (lc : loader.LoadConfig) (w : World) :
  let fs := candidates (byjson.filterEmptyString (loader.Paths lc))
                       (byjson.filterEmptyString (loader.Files lc)) in
  quiet_at DEBUG -> quiet_at ERROR ->
  fs <> [] ->
  Forall unusable fs ->
  exists evs,
    byjson.load (loader.mkContext (Some lc) BaseLogger) w =
      (Ret (None,
            Some match last (refusals fs) with
                 | Some e => byjson.Error (byjson.Error_Error e) (Some e)
                 | None => byjson.Error "未找到可用的配置文件" None
                 end),
       traced (evs ++
               [EvLog ERROR
                  (Kv "未找到可用的配置文件"
                     [VStr "config"; loader.LoadConfig_value lc;
                      VStr "errors";
                      VSlice ((fun e => VError (byjson.Error_Error e))
                                <$> refusals fs)])]) w) /\
    opens evs = filter (fun f => os_Stat_IsNotExist f = false) fs /\
    closes evs = filter (fun f => os_Open_err f = None) (opens evs) /\
    Forall reading evs.
Proof.
  intros fs Hd He Hne Hu. subst fs. rewrite !filterEmptyString_named in *.
  destruct (candidates_nonempty _ _ Hne) as [Hp Hn].
  destruct (load_run lc Hd He Hp Hn) as (evs & Hrun & Ho & Hc & Hr).
  cbv zeta in *.
  destruct (first_usable_none _ Hu) as [H1 H2].
  exists evs. rewrite Hrun, H1. split; [done|].
  rewrite Ho, Hc, H2. done.
Qed.

End loader_lemmas.

(** X7.  [filterEmptyString] keeps, in their order, exactly the strings
    that [strings.TrimSpace] does not reduce to the empty string; filtering
    a second time changes nothing, and the result for two slices one after
    the other is the two results one after the other. *)
Theorem X7_filterEmptyString_keeps_the_named_in_order
    `{!Startup} (strs : list string) :
  byjson.filterEmptyString strs
    = filter (fun str => String.length (strings_TrimSpace str) <> 0) strs /\
  byjson.filterEmptyString (byjson.filterEmptyString strs)
    = byjson.filterEmptyString strs /\
  forall more,
    byjson.filterEmptyString (strs ++ more)%list
      = (byjson.filterEmptyString strs ++ byjson.filterEmptyString more)%list.
Proof.
  rewrite !filterEmptyString_named. fold (named strs).
  split; [done|]. split.
  - unfold named. induction strs as [|str strs IH]; [done|].
    rewrite filter_cons.
    destruct (decide (String.length (strings_TrimSpace str) <> 0)) as [Hs|Hs];
      [|exact IH].
    rewrite filter_cons, decide_True by done. by rewrite IH.
  - intros more. rewrite !filterEmptyString_named. apply filter_app.
Qed.

(** X8.  When no path or no file name is left after the blank ones are
    dropped, [load] returns the error [配置文件路径或者文件名为空] and no
    configuration, having logged one error-level record of the load
    configuration and touched no file.  On a nil load configuration it
    panics.  The base logger is assumed to return from error-level
    calls. *)
Theorem X8_load_with_nothing_to_search_fails_without_touching_files
    `{!Externals} `{!Startup} (lc : loader.LoadConfig) (log : LogRef) (w : World) :
  (quiet_at ERROR ->
   byjson.filterEmptyString (loader.Paths lc) = [] \/
   byjson.filterEmptyString (loader.Files lc) = [] ->
   byjson.load (loader.mkContext (Some lc) BaseLogger) w =
     (Ret (None, Some (byjson.Error "配置文件路径或者文件名为空" None)),
      traced [EvLog ERROR
                (Kv "配置文件的路径或者文件名为空"
                   [VStr "config"; loader.LoadConfig_value lc])] w)) /\
  byjson.load (loader.mkContext None log) w = (Panicked nil_dereference, w).
Proof.
  split; [|reflexivity].
  intros He Hnone. unfold byjson.load. cbn [loader.Config loader.Log]. cbv zeta.
  rewrite decide_True.
  2:{ destruct Hnone as [-> | ->]; [by left|by right]. }
  rewrite bind_run, base_call_run by apply He. reflexivity.
Qed.

(** X8 at a load configuration whose only file name is blank. *)
Lemma X8_witness :
  let X := doubles.externals doubles.healthy in
  let S := disk.startup disk.two_files in
  let lc := loader.mkLoadConfig ["."] ["   "] in
  let r := @byjson.load X S (loader.mkContext (Some lc) BaseLogger)
             (doubles.fresh (doubles.GET "/" [])) in
  @quiet_at X ERROR /\
  @byjson.filterEmptyString S (loader.Files lc) = [] /\
  fst r = Ret (None, Some (byjson.Error "配置文件路径或者文件名为空" None)) /\
  opens (trace (snd r)) = [].
Proof.
  intros X S lc r.
  assert (Hq : @quiet_at X ERROR) by (intros c; reflexivity).
  assert (Hf : @byjson.filterEmptyString S (loader.Files lc) = []) by reflexivity.
  split; [exact Hq|]. split; [exact Hf|].
  destruct (@X8_load_with_nothing_to_search_fails_without_touching_files X S lc
              BaseLogger (doubles.fresh (doubles.GET "/" []))) as [H1 _].
  subst r. rewrite (H1 Hq (or_intror Hf)). split; reflexivity.
Defined.

(** X9.  [load] returns the configuration of the first usable candidate:
    the candidates are every path joined with every file name, paths
    first, the blank ones dropped; when every candidate before [f] is
    absent or does not decode and [f] exists and decodes to [c], [load]
    returns [c] and no error.  It has opened the candidates up to [f] that
    exist, and no candidate after [f]; every file it opened it has closed.
    The base logger is assumed to return from debug-level and error-level
    calls. *)
Theorem X9_load_returns_the_first_usable_candidate
    `{!Externals} `{!Startup} (lc : loader.LoadConfig)
    (before after : list string) (f : string) (c : conf.Conf) (w : World) :
  quiet_at DEBUG -> quiet_at ERROR ->
  candidates (byjson.filterEmptyString (loader.Paths lc))
             (byjson.filterEmptyString (loader.Files lc))
    = (before ++ f :: after)%list ->
  Forall unusable before ->
  usable f c ->
  exists evs,
    byjson.load (loader.mkContext (Some lc) BaseLogger) w
      = (Ret (Some c, None), traced evs w) /\
    opens evs = filter (fun f => os_Stat_IsNotExist f = false) (before ++ [f])%list /\
    closes evs = filter (fun f => os_Open_err f = None) (opens evs) /\
    Forall reading evs.
Proof. apply load_first_usable. Qed.

(** X9 at the default names on a disk whose [config.json] is not JSON and
    whose [config/app.json] is: the second file is the one returned. *)
Lemma X9_witness :
  let X := doubles.externals doubles.healthy in
  let S := disk.startup disk.two_files in
  let r := @byjson.load X S (loader.mkContext (Some loader.Default) BaseLogger)
             (doubles.fresh (doubles.GET "/" [])) in
  (@quiet_at X DEBUG /\ @quiet_at X ERROR) /\
  @candidates X (@byjson.filterEmptyString S (loader.Paths loader.Default))
                (@byjson.filterEmptyString S (loader.Files loader.Default))
    = ["./config.json"; "./app.json"; "config/config.json"; "config/app.json"] /\
  Forall (@unusable S) ["./config.json"; "./app.json"; "config/config.json"] /\
  @usable S "config/app.json" disk.production /\
  fst r = Ret (Some disk.production, None) /\
  opens (trace (snd r)) = ["./config.json"; "config/app.json"] /\
  closes (trace (snd r)) = ["./config.json"; "config/app.json"].
Proof.
  intros X S r.
  assert (Hd : @quiet_at X DEBUG) by (intros c; reflexivity).
  assert (He : @quiet_at X ERROR) by (intros c; reflexivity).
  assert (Hcs : @candidates X (@byjson.filterEmptyString S (loader.Paths loader.Default))
                  (@byjson.filterEmptyString S (loader.Files loader.Default))
                = (["./config.json"; "./app.json"; "config/config.json"]
                     ++ "config/app.json" :: [])%list) by reflexivity.
  assert (Hb : Forall (@unusable S) ["./config.json"; "./app.json"; "config/config.json"]).
  { apply Forall_cons. split; [right; eexists; reflexivity|].
    apply Forall_cons. split; [left; reflexivity|].
    apply Forall_cons. split; [left; reflexivity|]. constructor. }
  assert (Hu : @usable S "config/app.json" disk.production) by (split; reflexivity).
  split; [by split|]. split; [exact Hcs|]. split; [exact Hb|]. split; [exact Hu|].
  destruct (@X9_load_returns_the_first_usable_candidate X S loader.Default _ _ _ _
              (doubles.fresh (doubles.GET "/" [])) Hd He Hcs Hb Hu)
    as (evs & Hrun & Ho & Hc & _).
  subst r. rewrite Hrun. simpl. rewrite Hc, Ho. repeat split; reflexivity.
Defined.

(** X10.  When there are candidates and none is usable, [load] returns no
    configuration and an [*Error] that wraps the error of the last
    candidate that exists and does not decode, with the message of that
    error, or the error [未找到可用的配置文件] when no candidate exists at all.
    Before it returns it logs one error-level record that holds the load
    configuration and the errors of all the candidates that exist, in
    order.  It has opened every candidate that exists, in order, and
    closed every file it opened.  The base logger is assumed to return
    from debug-level and error-level calls. *)
Theorem X10_load_fails_with_the_error_of_the_last_candidate
    `{!Externals} `{!Startup} (lc : loader.LoadConfig) (w : World) :
  let fs := candidates (byjson.filterEmptyString (loader.Paths lc))
                       (byjson.filterEmptyString (loader.Files lc)) in
  quiet_at DEBUG -> quiet_at ERROR ->
  fs <> [] ->
  Forall unusable fs ->
  exists evs,
    byjson.load (loader.mkContext (Some lc) BaseLogger) w =
      (Ret (None,
            Some match last (refusals fs) with
                 | Some e => byjson.Error (byjson.Error_Error e) (Some e)
                 | None => byjson.Error "未找到可用的配置文件" None
                 end),
       traced (evs ++
               [EvLog ERROR
                  (Kv "未找到可用的配置文件"
                     [VStr "config"; loader.LoadConfig_value lc;
                      VStr "errors";
                      VSlice ((fun e => VError (byjson.Error_Error e))
                                <$> refusals fs)])]) w) /\
    opens evs = filter (fun f => os_Stat_IsNotExist f = false) fs /\
    closes evs = filter (fun f => os_Open_err f = None) (opens evs) /\
    Forall reading evs.
Proof. apply load_none_usable. Qed.

(** X10 at the default names on a disk whose only file is a
    [config.json] that is not JSON. *)
Lemma X10_witness :
  let X := doubles.externals doubles.healthy in
  let S := disk.startup disk.one_file in
  let r := @byjson.load X S (loader.mkContext (Some loader.Default) BaseLogger)
             (doubles.fresh (doubles.GET "/" [])) in
  let refusal :=
    byjson.Error "无法反序列化配置文件到 Conf"
      (Some (byjson.Foreign "invalid character 'p' looking for beginning of value")) in
  (@quiet_at X DEBUG /\ @quiet_at X ERROR) /\
  Forall (@unusable S)
    (@candidates X (@byjson.filterEmptyString S (loader.Paths loader.Default))
                   (@byjson.filterEmptyString S (loader.Files loader.Default))) /\
  fst r = Ret (None, Some (byjson.Error "无法反序列化配置文件到 Conf" (Some refusal))) /\
  opens (trace (snd r)) = ["./config.json"] /\
  closes (trace (snd r)) = ["./config.json"].
Proof.
  intros X S r refusal.
  assert (Hd : @quiet_at X DEBUG) by (intros c; reflexivity).
  assert (He : @quiet_at X ERROR) by (intros c; reflexivity).
  assert (Hu : Forall (@unusable S)
    (@candidates X (@byjson.filterEmptyString S (loader.Paths loader.Default))
                   (@byjson.filterEmptyString S (loader.Files loader.Default)))).
  { apply Forall_cons. split; [right; eexists; reflexivity|].
    apply Forall_cons. split; [left; reflexivity|].
    apply Forall_cons. split; [left; reflexivity|].
    apply Forall_cons. split; [left; reflexivity|]. constructor. }
  split; [by split|]. split; [exact Hu|].
  destruct (@X10_load_fails_with_the_error_of_the_last_candidate X S loader.Default
              (doubles.fresh (doubles.GET "/" [])) Hd He) as (evs & Hrun & Ho & Hc & _);
    [discriminate|exact Hu|].
  subst r. rewrite Hrun. simpl fst. simpl snd.
  unfold traced. simpl trace. rewrite opens_app, closes_app, Hc, Ho.
  repeat split; reflexivity.
Defined.

(** X11.  [parse] returns either a configuration and no error, or no
    configuration and an error, and in the second case it has logged the
    failure once, at error level.  It returns a configuration exactly when
    the file opens, its size is at most 100 MiB, it reads to the end and
    what was read, cut at 100 MiB, decodes; a file of a larger size is
    refused with the message [配置文件大小超过 100] whatever it holds, and a
    file within the limit is decoded whole.  The file is opened once and,
    when it opened, closed once, after everything else.  The base logger
    is assumed to return from error-level calls. *)
Theorem X11_parse_closes_what_it_opens_and_refuses_oversized_files
    `{!Externals} `{!Startup} (config : option loader.LoadConfig) (path : string)
    (w : World) :
  quiet_at ERROR ->
  exists r logged,
    byjson.parse (loader.mkContext config BaseLogger) path w
      = (Ret r,
         traced (EvOpenFile path :: logged
                   ++ match os_Open_err path with
                      | Some _ => []
                      | None => [EvClose path]
                      end) w) /\
    r = match decoded path with
        | inl c => (Some c, None)
        | inr e => (None, Some e)
        end /\
    ((exists c, r = (Some c, None) /\ logged = []) \/
     (exists e call, r = (None, Some e) /\ logged = [EvLog ERROR call])) /\
    (forall c,
       r = (Some c, None) <->
       os_Open_err path = None /\
       (exists size, File_Stat_Size path = inl size /\ (size <= 104857600)%Z) /\
       exists contents,
         io_ReadAll path = inl contents /\
         json_Unmarshal (byjson.LimitReader contents 104857600) = inl c) /\
    (forall size,
       os_Open_err path = None -> File_Stat_Size path = inl size ->
       (size > 104857600)%Z ->
       r = (None, Some (byjson.Error "配置文件大小超过 100" None))) /\
    (forall contents,
       (Z.of_nat (String.length contents) <= 104857600)%Z ->
       byjson.LimitReader contents 104857600 = contents).
Proof.
  intros He. destruct (parse_run config path He) as (logged & Hrun & Hlogged).
  eexists _, logged. split; [apply Hrun|]. split; [reflexivity|].
  split; [|split; [|split]].
  - destruct (decoded path) as [c|e].
    + left. by exists c.
    + right. destruct Hlogged as [call ->]. by exists e, call.
  - intros c. unfold decoded.
    destruct (os_Open_err path) as [err|].
    { split; [discriminate|]. by intros [? _]. }
    destruct (File_Stat_Size path) as [size|err].
    2:{ split; [discriminate|]. by intros (_ & (size & ? & _) & _). }
    destruct (decide (size > 104857600)%Z) as [Hs|Hs].
    { split; [discriminate|]. intros (_ & (size' & [= <-] & ?) & _). lia. }
    destruct (io_ReadAll path) as [contents|err].
    2:{ split; [discriminate|]. by intros (_ & _ & (contents & ? & _)). }
    destruct (json_Unmarshal (byjson.LimitReader contents 104857600)) as [c'|err] eqn:Ej.
    + split.
      * intros [= ->]. split; [done|]. split; [exists size; split; [done|lia]|].
        by exists contents.
      * intros (_ & _ & (contents' & [= <-] & Hj)). rewrite Ej in Hj. by injection Hj as ->.
    + split; [discriminate|].
      intros (_ & _ & (contents' & [= <-] & Hj)). rewrite Ej in Hj. discriminate.
  - intros size Ho Hs Hbig. unfold decoded. rewrite Ho, Hs.
    by rewrite decide_True.
  - intros contents. apply LimitReader_all.
Qed.

(** X11 at a file that is not JSON: it is opened, the failure is logged
    and the file is closed. *)
Lemma X11_witness :
  let X := doubles.externals doubles.healthy in
  let S := disk.startup disk.one_file in
  let w := doubles.fresh (doubles.GET "/" []) in
  @quiet_at X ERROR /\
  exists e call,
    @byjson.parse X S (loader.mkContext None BaseLogger) "./config.json" w
      = (Ret (None, Some e),
         traced [EvOpenFile "./config.json"; EvLog ERROR call;
                 EvClose "./config.json"] w).
Proof.
  intros X S w.
  assert (He : @quiet_at X ERROR) by (intros c; reflexivity).
  split; [exact He|].
  destruct (@X11_parse_closes_what_it_opens_and_refuses_oversized_files X S None
              "./config.json" w He)
    as (r & logged & Hrun & Hr & Hcase & _).
  destruct Hcase as [(c & -> & ->) | (e & call & -> & ->)].
  - vm_compute in Hr. discriminate.
  - exists e, call. rewrite Hrun. reflexivity.
Defined.

(** * Start-up *)

(** X12.  [infra.Prepare] without a load configuration searches the
    default places: [config.json] and [app.json] in the working directory,
    then in [./config].  When the first of these four that is usable
    decodes to [c], it returns a context that holds the base logger and
    [c], having opened no candidate after that one; when none of the four
    is usable it returns no context and the error of the loader.  When the
    logger cannot be built it panics with the error of the build before it
    reads anything.  The base logger is assumed to return from debug-level
    and error-level calls, and [strings.TrimSpace] to leave the four
    default names non-empty. *)
Theorem X12_Prepare_searches_the_default_places
    `{!Externals} `{!Startup} (w : World) :
  let places :=
    [filepath_Join "." "config.json"; filepath_Join "." "app.json";
     filepath_Join "./config" "config.json"; filepath_Join "./config" "app.json"] in
  let kept := fun s : string => String.length (strings_TrimSpace s) <> 0 in
  (forall err Loader config,
     zap_Build_err = Some err ->
     startup.Prepare Loader config w = (Panicked (VError err), w)) /\
  (zap_Build_err = None -> quiet_at DEBUG -> quiet_at ERROR ->
   Forall kept ["."; "./config"; "config.json"; "app.json"] ->
   (forall before f after c,
      places = (before ++ f :: after)%list ->
      Forall unusable before -> usable f c ->
      exists evs,
        startup.Prepare byjson.Load None w
          = (Ret (Some (startup.mkContext BaseLogger (Some c)), None), traced evs w) /\
        opens evs = filter (fun f => os_Stat_IsNotExist f = false) (before ++ [f])%list /\
        Forall reading evs) /\
   (Forall unusable places ->
    exists e w',
      startup.Prepare byjson.Load None w = (Ret (None, Some e), w') /\
      byjson.Error_Error e =
        match last (refusals places) with
        | Some e' => byjson.Error_Error e'
        | None => "未找到可用的配置文件"
        end)).
Proof.
  intros places kept. split.
  { intros err Loader config Hz. unfold startup.Prepare, startup.Zap.
    rewrite bind_run, Hz. reflexivity. }
  intros Hz Hd He Hkept.
  assert (Hrun : startup.Prepare byjson.Load None w =
            match byjson.load (loader.mkContext (Some loader.Default) BaseLogger) w with
            | (Ret (config, None), w') =>
                (Ret (Some (startup.mkContext BaseLogger config), None), w')
            | (Ret (_, Some err), w') => (Ret (None, Some err), w')
            | (Panicked v, w') => (Panicked v, w')
            end).
  { unfold startup.Prepare, startup.Zap, byjson.Load. rewrite bind_run, Hz.
    simpl. rewrite bind_run.
    destruct (byjson.load _ w) as [[[config [err|]]|v] w']; reflexivity. }
  assert (Hplaces :
    candidates (byjson.filterEmptyString (loader.Paths loader.Default))
               (byjson.filterEmptyString (loader.Files loader.Default)) = places).
  { rewrite !filterEmptyString_named. unfold named. simpl.
    inversion Hkept as [|? ? H1 Hk1]; subst.
    inversion Hk1 as [|? ? H2 Hk2]; subst.
    inversion Hk2 as [|? ? H3 Hk3]; subst.
    inversion Hk3 as [|? ? H4 _]; subst. unfold kept in *.
    rewrite !filter_cons, !filter_nil.
    rewrite !decide_True by done. reflexivity. }
  split.
  - intros before f after c Hsplit Hb Hf.
    destruct (load_first_usable loader.Default before after f c w Hd He) as (evs & Hl & Ho & _ & Hr);
      [by rewrite Hplaces|done|done|].
    exists evs. rewrite Hrun, Hl. done.
  - intros Hu.
    destruct (load_none_usable loader.Default w Hd He) as (evs & Hl & _);
      [rewrite Hplaces; discriminate|by rewrite Hplaces|].
    rewrite Hplaces in Hl.
    eexists _, _. rewrite Hrun, Hl. split; [reflexivity|].
    by destruct (last (refusals places)).
Qed.

(** X12 on a disk whose [config.json] is not JSON and whose
    [config/app.json] is. *)
Lemma X12_witness :
  let X := doubles.externals doubles.healthy in
  let S := disk.startup disk.two_files in
  let w := doubles.fresh (doubles.GET "/" []) in
  let before := ["./config.json"; "./app.json"; "config/config.json"] in
  (@zap_Build_err S = None /\ @quiet_at X DEBUG /\ @quiet_at X ERROR) /\
  Forall (fun s => String.length (@strings_TrimSpace S s) <> 0)
    ["."; "./config"; "config.json"; "app.json"] /\
  Forall (@unusable S) before /\
  @usable S "config/app.json" disk.production /\
  exists evs,
    @startup.Prepare S (@byjson.Load X S) None w
      = (Ret (Some (startup.mkContext BaseLogger (Some disk.production)), None),
         traced evs w) /\
    opens evs = ["./config.json"; "config/app.json"].
Proof.
  intros X S w before.
  assert (Hz : @zap_Build_err S = None) by reflexivity.
  assert (Hd : @quiet_at X DEBUG) by (intros c; reflexivity).
  assert (He : @quiet_at X ERROR) by (intros c; reflexivity).
  assert (Hk : Forall (fun s => String.length (@strings_TrimSpace S s) <> 0)
                 ["."; "./config"; "config.json"; "app.json"]).
  { repeat (apply Forall_cons; split; [discriminate|]). constructor. }
  assert (Hb : Forall (@unusable S) before).
  { apply Forall_cons. split; [right; eexists; reflexivity|].
    apply Forall_cons. split; [left; reflexivity|].
    apply Forall_cons. split; [left; reflexivity|]. constructor. }
  assert (Hu : @usable S "config/app.json" disk.production) by (split; reflexivity).
  split; [by repeat split|]. split; [exact Hk|]. split; [exact Hb|]. split; [exact Hu|].
  destruct (@X12_Prepare_searches_the_default_places X S w) as [_ H].
  destruct (H Hz Hd He Hk) as [Hfound _].
  destruct (Hfound before "config/app.json" [] disk.production eq_refl Hb Hu)
    as (evs & Hrun & Ho & _).
  exists evs. split; [exact Hrun|]. rewrite Ho. reflexivity.
Defined.

(** X13.  [database.From] builds its connection string from the host, the
    user name, the password, the database name and the port of the
    database section, logs that string, the password in clear, at info
    level, and only then opens the connection, whose handle or error it
    returns.  The [DSN] and [Driver] fields of the section have no
    influence.  Without a configuration, or with a configuration that has
    no database section, it panics on the nil pointer before it logs
    anything.  The base logger is assumed to return from info-level
    calls. *)
Theorem X13_From_logs_the_connection_string_and_ignores_DSN
    `{!Externals} `{!Startup} (log : LogRef) (c : conf.Conf)
    (config : conf.DatabaseConf) (w : World) :
  let dsn :=
    "host=" +:+ conf.Host config +:+ " user=" +:+ conf.Username config
      +:+ " password=" +:+ conf.Password config
      +:+ " dbname=" +:+ conf.Database config
      +:+ " port=" +:+ pretty (conf.Port config)
      +:+ " sslmode=disable TimeZone=Asia/Shanghai" in
  (quiet_at INFO -> conf.Conf_Database c = Some config ->
   startup.From (startup.mkContext BaseLogger (Some c)) w =
     (Ret match gorm_Open dsn with
          | inl db => (Some db, None)
          | inr err => (None, Some err)
          end,
      traced [EvLog INFO (Kv "连接PostgresSQL数据库" [VStr "dsn"; VStr dsn])] w)) /\
  (forall c' config',
     conf.Conf_Database c = Some config ->
     conf.Conf_Database c' = Some config' ->
     conf.Host config' = conf.Host config ->
     conf.Username config' = conf.Username config ->
     conf.Password config' = conf.Password config ->
     conf.Database config' = conf.Database config ->
     conf.Port config' = conf.Port config ->
     startup.From (startup.mkContext log (Some c')) w
       = startup.From (startup.mkContext log (Some c)) w) /\
  (conf.Conf_Database c = None ->
   startup.From (startup.mkContext log (Some c)) w = (Panicked nil_dereference, w)) /\
  startup.From (startup.mkContext log None) w = (Panicked nil_dereference, w).
Proof.
  intros dsn. split; [|split; [|split]].
  - intros Hq Hc. unfold startup.From. cbn [startup.Conf startup.Log]. rewrite Hc.
    cbv zeta. fold dsn. change (startup.dsn_of config) with dsn.
    rewrite bind_run, base_call_run by apply Hq.
    by destruct (gorm_Open dsn).
  - intros c' config' Hc Hc' H1 H2 H3 H4 H5.
    unfold startup.From. cbn [startup.Conf startup.Log]. rewrite Hc, Hc'.
    unfold startup.dsn_of. by rewrite H1, H2, H3, H4, H5.
  - intros Hc. unfold startup.From. cbn [startup.Conf]. by rewrite Hc.
  - reflexivity.
Qed.

(** X13 at a database section with a password and a [DSN]. *)
Lemma X13_witness :
  let X := doubles.externals doubles.healthy in
  let S := disk.startup disk.one_file in
  let w := doubles.fresh (doubles.GET "/" []) in
  let section :=
    conf.mkDatabaseConf "postgres" "db.internal" 5432 "app" "svc" "s3cret"
      "postgres://other" in
  let c := conf.mkConf false None None (Some section) in
  let r := @startup.From X S (startup.mkContext BaseLogger (Some c)) w in
  @quiet_at X INFO /\
  conf.Conf_Database c = Some section /\
  fst r = Ret (Some 0, None) /\
  base_logs (trace (snd r)) =
    [(INFO,
      Kv "连接PostgresSQL数据库"
        [VStr "dsn";
         VStr "host=db.internal user=svc password=s3cret dbname=app port=5432 sslmode=disable TimeZone=Asia/Shanghai"])].
Proof.
  intros X S w section c r.
  assert (Hq : @quiet_at X INFO) by (intros call; reflexivity).
  assert (Hc : conf.Conf_Database c = Some section) by reflexivity.
  split; [exact Hq|]. split; [exact Hc|].
  destruct (@X13_From_logs_the_connection_string_and_ignores_DSN X S BaseLogger c
              section w) as [H1 _].
  subst r. rewrite (H1 Hq Hc). split; reflexivity.
Defined.

(** * The user routes *)

Section user_lemmas.
Context `{!Externals} `{!Clock} `{!UserLand}.

Lemma mock_answers (a : mocks.Answers) : answers_with (mocks.MockUserRepository a) a.
Proof. by split. Qed.

(** The loop of [List] fills the slice from [i] on. *)
Lemma List_loop_fills (models : list UserModel.t) (i : nat)
    (users : list (option entity.User)) :
  i + length models <= length users ->
  infrastructure.List_loop i models users =
  (take i users ++ (Some <$> (UserModel.ToEntity <$> models))
     ++ drop (i + length models) users)%list.
Proof.
  revert i users. induction models as [|model models IH]; intros i users Hlen; simpl.
  - rewrite Nat.add_0_r. by rewrite take_drop.
  - simpl in Hlen. rewrite IH by (rewrite length_insert; lia).
    rewrite take_S_r with (x := Some (UserModel.ToEntity model))
      by (apply list_lookup_insert_eq; lia).
    rewrite take_insert_ge by lia.
    rewrite drop_insert_lt by lia.
    rewrite <- app_assoc. simpl.
    replace (i + S (length models)) with (S (i + length models)) by lia.
    reflexivity.
Qed.

Lemma stored_answers (db : nat) :
  answers_with (infrastructure.NewUserRepository db) stored.
Proof.
  split; simpl; intros; try reflexivity.
  - unfold infrastructure.GetByID, infrastructure.found, looked_up.
    destruct (tx_First_id id) as [m|e]; [done|]. by destruct (Is_ErrRecordNotFound e).
  - unfold infrastructure.GetByEmail, infrastructure.found, looked_up.
    destruct (tx_First_email email) as [m|e]; [done|]. by destruct (Is_ErrRecordNotFound e).
  - unfold infrastructure.GetByUsername, infrastructure.found, looked_up.
    destruct (tx_First_username username) as [m|e]; [done|].
    by destruct (Is_ErrRecordNotFound e).
  - unfold infrastructure.List. destruct (tx_Find offset limit) as [models|e]; [|done].
    rewrite List_loop_fills by (rewrite length_replicate; lia).
    simpl. rewrite drop_ge by (rewrite length_replicate; lia).
    by rewrite app_nil_r.
Qed.

(** Computations that only log compose. *)
Lemma logging_ret {A} (r : Request) (a : A) : logging r (mret a) a.
Proof. exists []. split; [constructor|]. intros w _. by rewrite traced_nil. Qed.

Lemma logging_bind {A B} (r : Request) (m : M A) (f : A -> M B) (a : A) (b : B) :
  logging r m a -> logging r (f a) b -> logging r (m ≫= f) b.
Proof.
  intros (l1 & Hl1 & Hm) (l2 & Hl2 & Hf). exists (l1 ++ l2)%list.
  split; [by apply Forall_app|].
  intros w Hw. rewrite bind_run, (Hm w Hw), (Hf (traced l1 w) Hw), traced_app. done.
Qed.

Lemma logging_call (r : Request) (lvl : level) (c : logcall) :
  quiet_at lvl -> logging r (web.call BaseLogger lvl c) tt.
Proof.
  intros Hq. exists [EvLog lvl c]. split; [by repeat constructor|].
  intros w _. apply base_call_run, Hq.
Qed.

Lemma logging_answer {A} (r : Request) (m : M A) (a : A) :
  (forall w, m w = (Ret a, w)) -> logging r m a.
Proof.
  intros Hm. exists []. split; [constructor|]. intros w _. by rewrite Hm, traced_nil.
Qed.

Lemma logging_read {A} (r : Request) (f : World -> M A) (g : M A) (a : A) :
  (forall w, request w = r -> f w = g) -> logging r g a -> logging r (get ≫= f) a.
Proof.
  intros Hf (l & Hl & Hg). exists l. split; [exact Hl|].
  intros w Hw. rewrite bind_run. unfold get. rewrite (Hf w Hw). by apply Hg.
Qed.

Lemma answering_JSON (r : Request) (code : Z) (body : value) :
  answering r (gin.JSON code body) code body.
Proof. exists []. split; [constructor|]. intros w _. reflexivity. Qed.

Lemma answering_bind {A} (r : Request) (m : M A) (f : A -> M unit) (a : A)
    (code : Z) (body : value) :
  logging r m a -> answering r (f a) code body -> answering r (m ≫= f) code body.
Proof.
  intros (l1 & Hl1 & Hm) (l2 & Hl2 & Hf). exists (l1 ++ l2)%list.
  split; [by apply Forall_app|].
  intros w Hw. rewrite bind_run, (Hm w Hw), (Hf (traced l1 w) Hw), traced_app.
  by rewrite app_assoc.
Qed.

Lemma answering_read (r : Request) (f : World -> M unit) (g : M unit)
    (code : Z) (body : value) :
  (forall w, request w = r -> f w = g) -> answering r g code body ->
  answering r (get ≫= f) code body.
Proof.
  intros Hf (l & Hl & Hg). exists l. split; [exact Hl|].
  intros w Hw. rewrite bind_run. unfold get. rewrite (Hf w Hw). by apply Hg.
Qed.

End user_lemmas.

Ltac logging_head :=
  first
    [ apply logging_call; assumption
    | apply logging_ret
    | match goal with
      | Ha : answers_with _ _ |- _ =>
          first [ apply logging_answer, (aw_Create _ _ Ha)
                | apply logging_answer, (aw_GetByID _ _ Ha)
                | apply logging_answer, (aw_GetByEmail _ _ Ha)
                | apply logging_answer, (aw_GetByUsername _ _ Ha)
                | apply logging_answer, (aw_Update _ _ Ha)
                | apply logging_answer, (aw_Delete _ _ Ha)
                | apply logging_answer, (aw_List _ _ Ha)
                | apply logging_answer, (aw_Count _ _ Ha) ]
      end ].

Ltac decide_nil :=
  match goal with
  | |- context [@bool_decide (Some ?x = None) ?d] =>
      change (@bool_decide (Some x = None) d) with false
  | |- context [@bool_decide (None = None) ?d] =>
      change (@bool_decide (None = None) d) with true
  | |- context [@bool_decide (Some ?x <> None) ?d] =>
      change (@bool_decide (Some x <> None) d) with true
  | |- context [@bool_decide (None <> None) ?d] =>
      change (@bool_decide (None <> None) d) with false
  end.

Ltac logging :=
  repeat first
    [ apply logging_ret
    | decide_nil
    | match goal with
      | |- logging _ (_ ≫= _) _ => eapply logging_bind; [logging_head|]
      | E : ?x = _ |- context [?x] => rewrite E
      end
    | progress cbn [orb andb negb taken looked_for]
    | progress cbv iota beta ].

Ltac answering :=
  repeat first
    [ apply answering_JSON
    | decide_nil
    | match goal with
      | |- answering _ (_ ≫= _) _ _ =>
          eapply answering_bind; [first [logging_head|eassumption]|]
      | E : ?x = _ |- context [?x] => rewrite E
      end
    | progress cbn [orb andb negb taken looked_for]
    | progress cbv iota beta ].

Section user_service.
Context `{!Externals} `{!Clock} `{!UserLand}.

(** The methods of the service over a repository that answers [a], with
    the base logger. *)
Lemma GetUserByID_logs (r : Request) (repo : domain_repository.UserRepository)
    (a : mocks.Answers) (id : entity.UUID) :
  answers_with repo a -> calm ->
  logging r (service.GetUserByID (service.mkUserService repo BaseLogger) id)
    (looked_for (mocks.on_GetByID a id)).
Proof.
  intros Ha (Hi & Hw & He). unfold service.GetUserByID.
  cbn [service.logger service.userRepo].
  destruct (mocks.on_GetByID a id) as [[user|] [err|]] eqn:E; logging.
Qed.

Lemma GetUserByEmail_logs (r : Request) (repo : domain_repository.UserRepository)
    (a : mocks.Answers) (email : string) :
  answers_with repo a -> calm ->
  logging r (service.GetUserByEmail (service.mkUserService repo BaseLogger) email)
    (looked_for (mocks.on_GetByEmail a email)).
Proof.
  intros Ha (Hi & Hw & He). unfold service.GetUserByEmail.
  cbn [service.logger service.userRepo].
  destruct (mocks.on_GetByEmail a email) as [[user|] [err|]] eqn:E; logging.
Qed.

Lemma DeleteUser_logs (r : Request) (repo : domain_repository.UserRepository)
    (a : mocks.Answers) (id : entity.UUID) :
  answers_with repo a -> calm ->
  logging r (service.DeleteUser (service.mkUserService repo BaseLogger) id)
    (if taken (mocks.on_GetByID a id) then
       match mocks.on_Delete a id with
       | Some err => Some (Errorf "failed to delete user: " err)
       | None => None
       end
     else Some ErrUserNotFound).
Proof.
  intros Ha (Hi & Hw & He). unfold service.DeleteUser.
  cbn [service.logger service.userRepo].
  destruct (mocks.on_GetByID a id) as [[user|] [err|]] eqn:E;
    try destruct (mocks.on_Delete a id) as [derr|] eqn:Ed; logging.
Qed.

Lemma clamp_limit (req : usecase.ListUsersRequest.t) :
  let first :=
    if decide (usecase.ListUsersRequest.Limit req <= 0)%Z
    then usecase.ListUsersRequest.mk (usecase.ListUsersRequest.Offset req) 10
    else req in
  (if decide (usecase.ListUsersRequest.Limit first > 100)%Z
   then usecase.ListUsersRequest.mk (usecase.ListUsersRequest.Offset first) 100
   else first)
  = usecase.ListUsersRequest.mk (usecase.ListUsersRequest.Offset req)
      (effective_limit (usecase.ListUsersRequest.Limit req)).
Proof.
  unfold effective_limit. destruct req as [o l]. simpl.
  destruct (decide (l <= 0)%Z); simpl.
  - first [reflexivity | rewrite decide_False by lia; reflexivity].
  - destruct (decide (l > 100)%Z); reflexivity.
Qed.

Lemma ListUsers_logs (r : Request) (repo : domain_repository.UserRepository)
    (a : mocks.Answers) (req : usecase.ListUsersRequest.t) :
  answers_with repo a -> calm ->
  let offset := usecase.ListUsersRequest.Offset req in
  let limit := effective_limit (usecase.ListUsersRequest.Limit req) in
  logging r (service.ListUsers (service.mkUserService repo BaseLogger) req)
    match mocks.on_Count a with
    | (_, Some err) => (None, Some (Errorf "failed to get user count: " err))
    | (total, None) =>
        match mocks.on_List a offset limit with
        | (_, Some err) => (None, Some (Errorf "failed to list users: " err))
        | (users, None) =>
            (Some (usecase.ListUsersResponse.mk users total offset limit
                     (bool_decide (wrap64 (offset + limit) < total)%Z)),
             None)
        end
    end.
Proof.
  intros Ha (Hi & Hw & He) offset limit. unfold service.ListUsers.
  cbn [service.logger service.userRepo]. cbv zeta.
  rewrite (clamp_limit req). fold offset limit.
  cbn [usecase.ListUsersRequest.Offset usecase.ListUsersRequest.Limit].
  destruct (mocks.on_Count a) as [total [err|]] eqn:Ec; [logging|].
  destruct (mocks.on_List a offset limit) as [users [err|]] eqn:El; logging.
Qed.

Lemma CreateUser_logs (r : Request) (repo : domain_repository.UserRepository)
    (a : mocks.Answers) (req : usecase.CreateUserRequest.t) :
  answers_with repo a -> calm ->
  let email := usecase.CreateUserRequest.Email req in
  let username := usecase.CreateUserRequest.Username req in
  let user := entity.NewUser email username (usecase.CreateUserRequest.Name req) in
  logging r (service.CreateUser (service.mkUserService repo BaseLogger) req)
    (if taken (mocks.on_GetByEmail a email) || taken (mocks.on_GetByUsername a username)
     then (None, Some ErrUserAlreadyExists)
     else if entity.IsValid user then
            match mocks.on_Create a user with
            | Some err => (None, Some (Errorf "failed to create user: " err))
            | None => (Some user, None)
            end
          else (None, Some ErrInvalidUserData)).
Proof.
  intros Ha (Hi & Hw & He) email username user. unfold service.CreateUser.
  cbn [service.logger service.userRepo]. cbv zeta. fold email username. fold user.
  destruct (mocks.on_GetByEmail a email) as [[u1|] [e1|]] eqn:E1;
    try (logging; fail);
    (destruct (mocks.on_GetByUsername a username) as [[u2|] [e2|]] eqn:E2;
     try (logging; fail);
     (destruct (entity.IsValid user) eqn:Ev;
      [destruct (mocks.on_Create a user) as [err|] eqn:Ec|]; logging)).
Qed.

Lemma UpdateUserProfile_logs (r : Request) (repo : domain_repository.UserRepository)
    (a : mocks.Answers) (req : usecase.UpdateUserProfileRequest.t) :
  answers_with repo a -> calm ->
  let id := usecase.UpdateUserProfileRequest.ID req in
  logging r (service.UpdateUserProfile (service.mkUserService repo BaseLogger) req)
    match mocks.on_GetByID a id with
    | (Some found, None) =>
        let user :=
          entity.UpdateProfile found (usecase.UpdateUserProfileRequest.Name req) in
        if entity.IsValid user then
          match mocks.on_Update a user with
          | Some err => (None, Some (Errorf "failed to update user: " err))
          | None => (Some user, None)
          end
        else (None, Some ErrInvalidUserData)
    | _ => (None, Some ErrUserNotFound)
    end.
Proof.
  intros Ha (Hi & Hw & He) id. unfold service.UpdateUserProfile.
  cbn [service.logger service.userRepo]. cbv zeta. fold id.
  destruct (mocks.on_GetByID a id) as [[found|] [e1|]] eqn:E1; try (logging; fail).
  logging.
  set (user := entity.UpdateProfile found (usecase.UpdateUserProfileRequest.Name req)).
  destruct (entity.IsValid user) eqn:Ev;
    [destruct (mocks.on_Update a user) as [err|] eqn:Eu|]; logging.
Qed.

(** The handlers. *)
Lemma handleError_answers (r : Request) (repo : domain_repository.UserRepository)
    (err : error) :
  quiet_at ERROR ->
  answering r (http.handleError (handler_over repo) err) (status_of err) (error_body err).
Proof.
  intros He. unfold http.handleError. cbn [handler_over http.NewUserHandler http.logger].
  destruct err; answering.
Qed.

Lemma invalid_id_answers (r : Request) (repo : domain_repository.UserRepository)
    (idStr err : string) :
  quiet_at WARN ->
  answering r (http.invalid_id (handler_over repo) idStr err) 400
    (failure "invalid_id" "Invalid user ID format").
Proof.
  intros Hw. unfold http.invalid_id. cbn [handler_over http.NewUserHandler http.logger].
  answering.
Qed.

Lemma users_loop_logs (r : Request) (us : list entity.User) (i : nat)
    (users : list value) :
  i + length us <= length users ->
  logging r (http.users_loop i (Some <$> us) users)
    (take i users ++ (rendered <$> us) ++ drop (i + length us) users)%list.
Proof.
  revert i users. induction us as [|u us IH]; intros i users Hlen; simpl.
  - rewrite Nat.add_0_r, take_drop. apply logging_ret.
  - simpl in Hlen. eapply logging_bind; [apply logging_ret|].
    set (x := rendered u).
    change (http.UserResponse _ _ _ _ _ _) with x.
    assert (Heq :
      (take (S i) (<[i := x]> users) ++ (rendered <$> us)
         ++ drop (S i + length us) (<[i := x]> users))%list
      = (take i users ++ x :: (rendered <$> us)
           ++ drop (i + S (length us)) users)%list).
    { rewrite (take_S_r _ _ x) by (apply list_lookup_insert_eq; lia).
      rewrite take_insert_ge by lia. rewrite drop_insert_lt by lia.
      rewrite <- app_assoc. simpl.
      replace (i + S (length us)) with (S (i + length us)) by lia. reflexivity. }
    assert (Hlen' : S i + length us <= length (<[i := x]> users))
      by (rewrite length_insert; lia).
    pose proof (IH (S i) (<[i := x]> users) Hlen') as Hgoal.
    rewrite Heq in Hgoal. exact Hgoal.
Qed.

Lemma GetUserByID_answers (r : Request) (repo : domain_repository.UserRepository)
    (a : mocks.Answers) :
  answers_with repo a -> calm ->
  let h := http.GetUserByID (handler_over repo) in
  match uuid_Parse (gin_Param r "id") with
  | inr _ => answering r h 400 (failure "invalid_id" "Invalid user ID format")
  | inl id =>
      match mocks.on_GetByID a id with
      | (Some user, None) => answering r h 200 (rendered user)
      | _ => answering r h 404 (failure "user_not_found" "User not found")
      end
  end.
Proof.
  intros Ha Hc h. pose proof Hc as (Hi & Hw & He). subst h.
  unfold http.GetUserByID.
  destruct (uuid_Parse (gin_Param r "id")) as [id|err] eqn:Ep.
  2:{ eapply answering_read; [intros w Hr; rewrite Hr, Ep; reflexivity|].
      by apply invalid_id_answers. }
  assert (Hs := GetUserByID_logs r repo a id Ha Hc).
  destruct (mocks.on_GetByID a id) as [[user|] [e|]] eqn:E;
    (eapply answering_read; [intros w Hr; rewrite Hr, Ep; reflexivity|];
     eapply answering_bind; [exact Hs|]; cbn [looked_for]; cbv iota beta;
     first [by apply (handleError_answers r repo ErrUserNotFound)
           |unfold http.response_of; answering]).
Qed.

Lemma DeleteUser_answers (r : Request) (repo : domain_repository.UserRepository)
    (a : mocks.Answers) :
  answers_with repo a -> calm ->
  let h := http.DeleteUser (handler_over repo) in
  match uuid_Parse (gin_Param r "id") with
  | inr _ => answering r h 400 (failure "invalid_id" "Invalid user ID format")
  | inl id =>
      if taken (mocks.on_GetByID a id) then
        match mocks.on_Delete a id with
        | Some err =>
            answering r h 500 (failure "internal_server_error" "An internal error occurred")
        | None => answering r h 204 VNil
        end
      else answering r h 404 (failure "user_not_found" "User not found")
  end.
Proof.
  intros Ha Hc h. pose proof Hc as (Hi & Hw & He). subst h.
  unfold http.DeleteUser.
  destruct (uuid_Parse (gin_Param r "id")) as [id|err] eqn:Ep.
  2:{ eapply answering_read; [intros w Hr; rewrite Hr, Ep; reflexivity|].
      by apply invalid_id_answers. }
  assert (Hs := DeleteUser_logs r repo a id Ha Hc).
  destruct (taken (mocks.on_GetByID a id));
    [destruct (mocks.on_Delete a id) as [err|]|];
    (eapply answering_read; [intros w Hr; rewrite Hr, Ep; reflexivity|];
     eapply answering_bind; [exact Hs|]; cbv iota beta;
     first [by apply (handleError_answers r repo ErrUserNotFound)
           |by apply (handleError_answers r repo (Errorf _ _))
           |answering]).
Qed.

Lemma CreateUser_answers (r : Request) (repo : domain_repository.UserRepository)
    (a : mocks.Answers) :
  answers_with repo a -> calm ->
  let h := http.CreateUser (handler_over repo) in
  match bind_CreateUser r with
  | inr err => answering r h 400 (failure "invalid_request" err)
  | inl body =>
      let email := CreateUserBody.Email body in
      let username := CreateUserBody.Username body in
      let user := entity.NewUser email username (CreateUserBody.Name body) in
      if taken (mocks.on_GetByEmail a email) || taken (mocks.on_GetByUsername a username)
      then answering r h 409
             (failure "user_already_exists" "User with email or username already exists")
      else if entity.IsValid user then
             match mocks.on_Create a user with
             | Some _ =>
                 answering r h 500
                   (failure "internal_server_error" "An internal error occurred")
             | None => answering r h 201 (rendered user)
             end
           else answering r h 400
                  (failure "invalid_user_data" "Invalid user data provided")
  end.
Proof.
  intros Ha Hc h. pose proof Hc as (Hi & Hw & He). subst h.
  unfold http.CreateUser.
  destruct (bind_CreateUser r) as [body|err] eqn:Eb.
  2:{ eapply answering_read; [intros w Hr; rewrite Hr, Eb; reflexivity|].
      cbn [handler_over http.NewUserHandler http.logger]. answering. }
  cbv zeta.
  assert (Hs := CreateUser_logs r repo a
                  (usecase.CreateUserRequest.mk (CreateUserBody.Email body)
                     (CreateUserBody.Username body) (CreateUserBody.Name body)) Ha Hc).
  cbv zeta in Hs. cbn [usecase.CreateUserRequest.Email usecase.CreateUserRequest.Username
                       usecase.CreateUserRequest.Name] in Hs.
  destruct (taken (mocks.on_GetByEmail a (CreateUserBody.Email body))
            || taken (mocks.on_GetByUsername a (CreateUserBody.Username body)));
    [|destruct (entity.IsValid _);
      [destruct (mocks.on_Create a _) as [err|]|]];
    (eapply answering_read; [intros w Hr; rewrite Hr, Eb; reflexivity|];
     eapply answering_bind; [exact Hs|]; cbv iota beta;
     first [by apply (handleError_answers r repo ErrUserAlreadyExists)
           |by apply (handleError_answers r repo ErrInvalidUserData)
           |by apply (handleError_answers r repo (Errorf _ _))
           |unfold http.response_of; answering]).
Qed.

Lemma UpdateUserProfile_answers (r : Request) (repo : domain_repository.UserRepository)
    (a : mocks.Answers) :
  answers_with repo a -> calm ->
  let h := http.UpdateUserProfile (handler_over repo) in
  match uuid_Parse (gin_Param r "id") with
  | inr _ => answering r h 400 (failure "invalid_id" "Invalid user ID format")
  | inl id =>
      match bind_Name r with
      | inr err => answering r h 400 (failure "invalid_request" err)
      | inl name =>
          match mocks.on_GetByID a id with
          | (Some found, None) =>
              let user := entity.UpdateProfile found name in
              if entity.IsValid user then
                match mocks.on_Update a user with
                | Some _ =>
                    answering r h 500
                      (failure "internal_server_error" "An internal error occurred")
                | None => answering r h 200 (rendered user)
                end
              else answering r h 400
                     (failure "invalid_user_data" "Invalid user data provided")
          | _ => answering r h 404 (failure "user_not_found" "User not found")
          end
      end
  end.
Proof.
  intros Ha Hc h. pose proof Hc as (Hi & Hw & He). subst h.
  unfold http.UpdateUserProfile.
  destruct (uuid_Parse (gin_Param r "id")) as [id|err] eqn:Ep.
  2:{ eapply answering_read; [intros w Hr; rewrite Hr, Ep; reflexivity|].
      by apply invalid_id_answers. }
  destruct (bind_Name r) as [name|err] eqn:Eb.
  2:{ eapply answering_read; [intros w Hr; rewrite Hr, Ep, Eb; reflexivity|].
      cbn [handler_over http.NewUserHandler http.logger]. answering. }
  assert (Hs := UpdateUserProfile_logs r repo a
                  (usecase.UpdateUserProfileRequest.mk id name) Ha Hc).
  cbv zeta in Hs. cbn [usecase.UpdateUserProfileRequest.ID
                       usecase.UpdateUserProfileRequest.Name] in Hs.
  cbv zeta.
  destruct (mocks.on_GetByID a id) as [[found|] [e|]];
    try (eapply answering_read; [intros w Hr; rewrite Hr, Ep, Eb; reflexivity|];
         eapply answering_bind; [exact Hs|]; cbv iota beta;
         by apply (handleError_answers r repo ErrUserNotFound)).
  destruct (entity.IsValid _); [destruct (mocks.on_Update a _) as [err|]|];
    (eapply answering_read; [intros w Hr; rewrite Hr, Ep, Eb; reflexivity|];
     eapply answering_bind; [exact Hs|]; cbv iota beta;
     first [by apply (handleError_answers r repo ErrInvalidUserData)
           |by apply (handleError_answers r repo (Errorf _ _))
           |unfold http.response_of; answering]).
Qed.

Lemma DefaultQuery_logs (r : Request) (key defaultValue : string) :
  logging r (http.DefaultQuery key defaultValue)
    (default defaultValue (gin_GetQuery r key)).
Proof.
  unfold http.DefaultQuery.
  eapply logging_read; [intros w Hr; rewrite Hr; reflexivity|]. apply logging_ret.
Qed.

Lemma effective_limit_valid (limit : Z) :
  (0 < limit <= 100)%Z -> effective_limit limit = limit.
Proof.
  intros Hl. unfold effective_limit.
  rewrite decide_False by lia. by rewrite decide_False by lia.
Qed.

Lemma ListUsers_answers (r : Request) (repo : domain_repository.UserRepository)
    (a : mocks.Answers) :
  answers_with repo a -> calm ->
  let h := http.ListUsers (handler_over repo) in
  let invalid_offset :=
    answering r h 400
      (failure "invalid_offset" "Offset must be a non-negative integer") in
  let invalid_limit :=
    answering r h 400
      (failure "invalid_limit" "Limit must be a positive integer between 1 and 100") in
  let internal :=
    answering r h 500 (failure "internal_server_error" "An internal error occurred") in
  match strconv_Atoi (default "0" (gin_GetQuery r "offset")) with
  | inr _ => invalid_offset
  | inl offset =>
      if bool_decide (offset < 0)%Z then invalid_offset
      else
        match strconv_Atoi (default "10" (gin_GetQuery r "limit")) with
        | inr _ => invalid_limit
        | inl limit =>
            if bool_decide (limit <= 0)%Z || bool_decide (limit > 100)%Z
            then invalid_limit
            else
              match mocks.on_Count a with
              | (_, Some _) => internal
              | (total, None) =>
                  match mocks.on_List a offset limit with
                  | (_, Some _) => internal
                  | (users, None) =>
                      forall us, users = Some <$> us ->
                        answering r h 200
                          (page us total offset limit
                             (bool_decide (wrap64 (offset + limit) < total)%Z))
                  end
              end
        end
  end.
Proof.
  intros Ha Hc h invalid_offset invalid_limit internal.
  pose proof Hc as (Hi & Hw & He). subst invalid_offset invalid_limit internal h.
  unfold http.ListUsers.
  pose proof (DefaultQuery_logs r "offset" "0") as Ho.
  pose proof (DefaultQuery_logs r "limit" "10") as Hl.
  set (offsetStr := default "0" (gin_GetQuery r "offset")) in *.
  set (limitStr := default "10" (gin_GetQuery r "limit")) in *.
  destruct (strconv_Atoi offsetStr) as [offset|err] eqn:Eo.
  2:{ eapply answering_bind; [exact Ho|]. eapply answering_bind; [exact Hl|].
      rewrite Eo. unfold http.invalid_offset.
      cbn [handler_over http.NewUserHandler http.logger]. answering. }
  destruct (bool_decide (offset < 0)%Z) eqn:Eneg.
  { eapply answering_bind; [exact Ho|]. eapply answering_bind; [exact Hl|].
    rewrite Eo, Eneg. unfold http.invalid_offset.
    cbn [handler_over http.NewUserHandler http.logger]. answering. }
  destruct (strconv_Atoi limitStr) as [limit|err] eqn:El.
  2:{ eapply answering_bind; [exact Ho|]. eapply answering_bind; [exact Hl|].
      rewrite Eo, Eneg, El. unfold http.invalid_limit.
      cbn [handler_over http.NewUserHandler http.logger]. answering. }
  destruct (bool_decide (limit <= 0)%Z || bool_decide (limit > 100)%Z) eqn:Erange.
  { eapply answering_bind; [exact Ho|]. eapply answering_bind; [exact Hl|].
    rewrite Eo, Eneg, El, Erange. unfold http.invalid_limit.
    cbn [handler_over http.NewUserHandler http.logger]. answering. }
  assert (Hlim : effective_limit limit = limit).
  { apply effective_limit_valid. apply orb_false_iff in Erange as [Hlo Hhi].
    apply bool_decide_eq_false in Hlo, Hhi. lia. }
  assert (Hs := ListUsers_logs r repo a (usecase.ListUsersRequest.mk offset limit) Ha Hc).
  cbv zeta in Hs.
  cbn [usecase.ListUsersRequest.Offset usecase.ListUsersRequest.Limit] in Hs.
  rewrite Hlim in Hs.
  destruct (mocks.on_Count a) as [total [err|]].
  { eapply answering_bind; [exact Ho|]. eapply answering_bind; [exact Hl|].
    rewrite Eo, Eneg, El, Erange. cbv zeta.
    eapply answering_bind; [exact Hs|]. cbv iota beta.
    by apply (handleError_answers r repo (Errorf _ _)). }
  destruct (mocks.on_List a offset limit) as [users [err|]].
  { eapply answering_bind; [exact Ho|]. eapply answering_bind; [exact Hl|].
    rewrite Eo, Eneg, El, Erange. cbv zeta.
    eapply answering_bind; [exact Hs|]. cbv iota beta.
    by apply (handleError_answers r repo (Errorf _ _)). }
  intros us ->.
  eapply answering_bind; [exact Ho|]. eapply answering_bind; [exact Hl|].
  rewrite Eo, Eneg, El, Erange. cbv zeta.
  eapply answering_bind; [exact Hs|]. cbv iota beta.
  cbn [usecase.ListUsersResponse.Users usecase.ListUsersResponse.Total
       usecase.ListUsersResponse.Offset usecase.ListUsersResponse.Limit
       usecase.ListUsersResponse.HasMore].
  eapply answering_bind.
  { apply users_loop_logs. rewrite length_replicate, length_fmap. lia. }
  rewrite take_0, app_nil_l.
  rewrite drop_ge by (rewrite length_replicate, length_fmap; lia).
  rewrite app_nil_r. apply answering_JSON.
Qed.

(** Every user route answers once, with one of its statuses. *)
Lemma route_answers (route : users.route) (r : Request) :
  calm ->
  exists code body,
    answering r (users.handler_of route) code body /\ code ∈ statuses route.
Proof.
  intros Hc.
  pose proof (stored_answers cmd.db) as Ha.
  destruct route; simpl users.handler_of; simpl statuses.
  - pose proof (CreateUser_answers r _ _ Ha Hc) as Hh. cbv zeta in Hh.
    destruct (bind_CreateUser r) as [body|err].
    2:{ eexists _, _. split; [exact Hh|set_solver]. }
    destruct (taken _ || taken _).
    { eexists _, _. split; [exact Hh|set_solver]. }
    destruct (entity.IsValid _).
    2:{ eexists _, _. split; [exact Hh|set_solver]. }
    destruct (mocks.on_Create _ _); eexists _, _; (split; [exact Hh|set_solver]).
  - pose proof (ListUsers_answers r _ _ Ha Hc) as Hh. cbv zeta in Hh.
    destruct (strconv_Atoi (default "0" _)) as [offset|].
    2:{ eexists _, _. split; [exact Hh|set_solver]. }
    destruct (bool_decide (offset < 0)%Z).
    { eexists _, _. split; [exact Hh|set_solver]. }
    destruct (strconv_Atoi (default "10" _)) as [limit|].
    2:{ eexists _, _. split; [exact Hh|set_solver]. }
    destruct (bool_decide (limit <= 0)%Z || bool_decide (limit > 100)%Z).
    { eexists _, _. split; [exact Hh|set_solver]. }
    simpl mocks.on_Count in Hh. simpl mocks.on_List in Hh.
    destruct tx_Count as [total [err|]].
    { eexists _, _. split; [exact Hh|set_solver]. }
    destruct (tx_Find offset limit) as [models|err].
    2:{ eexists _, _. split; [exact Hh|set_solver]. }
    eexists _, _. split; [exact (Hh _ eq_refl)|set_solver].
  - pose proof (GetUserByID_answers r _ _ Ha Hc) as Hh. cbv zeta in Hh.
    destruct (uuid_Parse _) as [id|].
    2:{ eexists _, _. split; [exact Hh|set_solver]. }
    destruct (mocks.on_GetByID stored id) as [[user|] [err|]];
      eexists _, _; (split; [exact Hh|set_solver]).
  - pose proof (UpdateUserProfile_answers r _ _ Ha Hc) as Hh. cbv zeta in Hh.
    destruct (uuid_Parse _) as [id|].
    2:{ eexists _, _. split; [exact Hh|set_solver]. }
    destruct (bind_Name r) as [name|].
    2:{ eexists _, _. split; [exact Hh|set_solver]. }
    destruct (mocks.on_GetByID stored id) as [[user|] [err|]];
      try (eexists _, _; (split; [exact Hh|set_solver])).
    destruct (entity.IsValid _).
    2:{ eexists _, _. split; [exact Hh|set_solver]. }
    destruct (mocks.on_Update _ _); eexists _, _; (split; [exact Hh|set_solver]).
  - pose proof (DeleteUser_answers r _ _ Ha Hc) as Hh. cbv zeta in Hh.
    destruct (uuid_Parse _) as [id|].
    2:{ eexists _, _. split; [exact Hh|set_solver]. }
    destruct (taken _).
    2:{ eexists _, _. split; [exact Hh|set_solver]. }
    destruct (mocks.on_Delete _ _); eexists _, _; (split; [exact Hh|set_solver]).
Qed.

Lemma logs_are_silent (evs : list event) : Forall is_log evs -> Forall silent evs.
Proof. intros Hl. eapply Forall_impl; [exact Hl|]. by intros []. Qed.

(** A handler that answers once, behind the four stages. *)
Lemma answered_behind_the_stages (panicHandler : value -> M unit)
    (respond : value -> value) (h : M unit) (code : Z) (body : value) (w : World) :
  responds panicHandler respond ->
  ctx_Errors w = [] ->
  answering (request w) h code body ->
  let r := cmd.stages panicHandler (repository.Errors.Persist cmd.errorsPersister) h w in
  fst r = Ret tt /\
  responses (trace (snd r)) = (responses (trace w) ++ [(code, body)])%list /\
  logs_persisted (trace (snd r)) = (logs_persisted (trace w) ++ [[]])%list /\
  errors_persisted (trace (snd r)) = errors_persisted (trace w) /\
  logs (snd r) = [] /\ ctx_Errors (snd r) = [].
Proof.
  intros Hph Hnone (logged & Hlog & Hh) r. subst r.
  rewrite (stages_run _ respond) by exact Hph. cbv zeta.
  assert (Hreq : request (entry w) = request w).
  { unfold entry, injected. simpl. apply identified_request. }
  rewrite (Hh (entry w) Hreq). unfold recovered.
  assert (Herrs : ctx_Errors (identified w) = []).
  { unfold identified. by destruct (decide _). }
  set (w3 := flushed (traced (logged ++ [EvJSON code body]) (entry w))).
  assert (He3 : ctx_Errors w3 = []) by exact Herrs.
  rewrite decide_True by (by rewrite He3). unfold guard. cbn [fst snd].
  destruct (silent_observers logged (logs_are_silent _ Hlog))
    as (Hl1 & Hl2 & Hl3 & _).
  destruct (minted_observers w) as (Hm1 & Hm2 & _ & Hm4).
  assert (Htrace : trace w3 =
            (trace w ++ minted w ++ logged ++ [EvJSON code body]
               ++ [EvTransaction (LogsModel [])])%list).
  { subst w3. simpl. rewrite identified_trace. by rewrite <- !app_assoc. }
  rewrite Htrace.
  rewrite !responses_app, !logs_persisted_app, !errors_persisted_app.
  rewrite Hl1, Hl2, Hl3, Hm1, Hm2, Hm4. simpl.
  rewrite ?app_nil_r. repeat split; try done.
Qed.

End user_service.

(** X14.  The database model and the entity of a user convert into each
    other without loss: the entity made from the model that [FromEntity]
    filled is the entity it was filled from, the model filled from the
    entity of a model is that model, and what [FromEntity] leaves in a
    model does not depend on what the model held before. *)
Theorem X14_UserModel_and_entity_round_trip
    (m m' : UserModel.t) (user : entity.User) :
  UserModel.ToEntity (UserModel.FromEntity m user) = user /\
  UserModel.FromEntity m' (UserModel.ToEntity m) = m /\
  UserModel.FromEntity m user = UserModel.FromEntity m' user.
Proof. destruct m, m', user. repeat split; reflexivity. Qed.

(** X15.  The repository over the database.  [List] returns, for the rows
    the query found, one entity per row, in the order of the rows and none
    of them nil, and no error; when the query fails it returns the error
    and no users.  A lookup by ID returns the entity of the row found and
    no error; when the row is missing (the error is
    [gorm.ErrRecordNotFound], also wrapped) it returns no user and no
    error; any other error it returns as it is, with no user.  None of these calls touches the request. *)
Theorem X15_repository_over_the_database
    `{!UserLand} (db : nat) (offset limit : Z) (id : entity.UUID) (w : World) :
  let repo := infrastructure.NewUserRepository db in
  domain_repository.List repo offset limit w =
    (Ret match tx_Find offset limit with
         | inl models => (Some <$> (UserModel.ToEntity <$> models), None)
         | inr err => ([], Some err)
         end, w) /\
  domain_repository.GetByID repo id w =
    (Ret match tx_First_id id with
         | inl model => (Some (UserModel.ToEntity model), None)
         | inr err => if Is_ErrRecordNotFound err then (None, None) else (None, Some err)
         end, w).
Proof.
  intros repo. pose proof (stored_answers db) as Ha. split.
  - apply (aw_List _ _ Ha).
  - apply (aw_GetByID _ _ Ha).
Qed.

(** X16.  [ListUsers] of the service, over any repository that answers
    from what it holds.  It returns either a page and no error or no page
    and an error.  The limit of a page is the limit of the request when
    that is between 1 and 100, 10 when it is zero or negative and 100 when
    it is larger: it is always between 1 and 100, and it is the limit
    handed to the repository.  The page carries the offset of the request,
    the count and the users the repository returned, and [HasMore] says
    whether the sum of the offset and the limit, as a 64-bit integer, is
    below the count: whether users are left after the page, as long as
    that sum does not overflow.  The base logger is assumed to return from
    info-level, warn-level and error-level calls. *)
Theorem X16_ListUsers_keeps_the_limit_between_1_and_100
    `{!Externals} `{!Clock} `{!UserLand} (repo : domain_repository.UserRepository)
    (a : mocks.Answers) (req : usecase.ListUsersRequest.t) (w : World) :
  answers_with repo a -> calm ->
  let offset := usecase.ListUsersRequest.Offset req in
  let asked := usecase.ListUsersRequest.Limit req in
  let out := fst (service.ListUsers (service.mkUserService repo BaseLogger) req w) in
  ((exists page, out = Ret (Some page, None)) \/ (exists err, out = Ret (None, Some err))) /\
  forall page,
    out = Ret (Some page, None) ->
    let limit := usecase.ListUsersResponse.Limit page in
    let total := usecase.ListUsersResponse.Total page in
    (1 <= limit <= 100)%Z /\
    ((1 <= asked <= 100)%Z -> limit = asked) /\
    ((asked <= 0)%Z -> limit = 10%Z) /\
    ((asked > 100)%Z -> limit = 100%Z) /\
    usecase.ListUsersResponse.Offset page = offset /\
    mocks.on_Count a = (total, None) /\
    mocks.on_List a offset limit = (usecase.ListUsersResponse.Users page, None) /\
    (usecase.ListUsersResponse.HasMore page = true <->
     (wrap64 (offset + limit) < total)%Z) /\
    ((- 2 ^ 63 <= offset + limit < 2 ^ 63)%Z ->
     (usecase.ListUsersResponse.HasMore page = true <-> (offset + limit < total)%Z)).
Proof.
  intros Ha Hc offset asked out.
  destruct (ListUsers_logs (request w) repo a req Ha Hc) as (logged & _ & Hrun).
  subst out. rewrite (Hrun w eq_refl). cbn [fst]. fold offset. fold asked.
  assert (Hrange : (1 <= effective_limit asked <= 100)%Z).
  { unfold effective_limit. repeat destruct (decide _); lia. }
  destruct (mocks.on_Count a) as [total [err|]] eqn:Ec.
  { split; [right; eauto|]. intros page [=]. }
  destruct (mocks.on_List a offset (effective_limit asked)) as [users [err|]] eqn:El.
  { split; [right; eauto|]. intros page [=]. }
  split; [left; eauto|].
  intros page [= <-]. cbn [usecase.ListUsersResponse.Limit usecase.ListUsersResponse.Total
    usecase.ListUsersResponse.Offset usecase.ListUsersResponse.Users
    usecase.ListUsersResponse.HasMore].
  split; [exact Hrange|].
  split; [intros Hin; unfold effective_limit; by rewrite !decide_False by lia|].
  split; [intros Hin; unfold effective_limit; by rewrite decide_True by lia|].
  split.
  { intros Hin. unfold effective_limit. rewrite decide_False by lia.
    by rewrite decide_True by lia. }
  split; [done|]. split; [done|]. split; [exact El|].
  split; [apply bool_decide_eq_true|].
  intros Hsum. rewrite bool_decide_eq_true.
  assert (Hw : wrap64 (offset + effective_limit asked) = (offset + effective_limit asked)%Z).
  { unfold wrap64. rewrite Z.mod_small by lia. lia. }
  by rewrite Hw.
Qed.

(** X16 at the mock repository with 25 users, for a request without a
    limit: the limit is 10 and more users are left. *)
Lemma X16_witness :
  let X := doubles.externals doubles.healthy in
  let a :=
    mocks.mkAnswers (fun _ => None) (fun _ => (None, None)) (fun _ => (None, None))
      (fun _ => (None, None)) (fun _ => None) (fun _ => None)
      (fun _ _ => ([], None)) (25%Z, None) in
  let req := usecase.ListUsersRequest.mk 0 0 in
  let w := doubles.fresh (doubles.GET "/api/v1/users" []) in
  answers_with (mocks.MockUserRepository a) a /\ @calm X /\
  exists page,
    fst (@service.ListUsers X (service.mkUserService (mocks.MockUserRepository a) BaseLogger)
           req w) = Ret (Some page, None) /\
    usecase.ListUsersResponse.Limit page = 10%Z /\
    usecase.ListUsersResponse.HasMore page = true.
Proof.
  intros X a req w.
  assert (Ha : answers_with (mocks.MockUserRepository a) a) by apply mock_answers.
  assert (Hc : @calm X) by (repeat split; intros c; reflexivity).
  split; [exact Ha|]. split; [exact Hc|].
  destruct (@X16_ListUsers_keeps_the_limit_between_1_and_100 X store.clock
              (store.land store.two_users) _ a req w Ha Hc) as [_ Hpage].
  eexists. split; [reflexivity|].
  destruct (Hpage _ eq_refl) as (_ & _ & H10 & _ & _ & _ & _ & Hmore & _).
  split; [apply H10; simpl; lia|]. apply Hmore. reflexivity.
Defined.

(** Takes apart a run of binds, conditionals and matches that returned. *)
Ltac unwind H :=
  repeat first
    [ discriminate H
    | progress (rewrite bind_run in H)
    | progress (cbv iota beta in H)
    | match type of H with
      | context [match ?x with (_, _) => _ end] =>
          first [ is_var x; destruct x | destruct x as [[?|?] ?] ]
      | context [if ?b then _ else _] => destruct b
      | context [match ?x with Some _ => _ | None => _ end] => destruct x
      end ].

Ltac one_of_both H :=
  unwind H; injection H as <- <-; first [left; eauto; fail | right; eauto].

(** X17.  The methods of the service that return a result and an error
    never return neither and never return both, whatever the repository
    and the logger do: also over a repository that returns no user and no
    error, or a user together with an error, a call that returns gives
    either a result and a nil error or a nil result and an error. *)
Theorem X17_service_returns_a_result_or_an_error
    `{!Externals} `{!Clock} `{!UserLand} (s : service.UserService) (w : World) :
  (forall req, returning (service.CreateUser s req w) one_of_both) /\
  (forall id, returning (service.GetUserByID s id w) one_of_both) /\
  (forall email, returning (service.GetUserByEmail s email w) one_of_both) /\
  (forall req, returning (service.UpdateUserProfile s req w) one_of_both) /\
  (forall req, returning (service.ListUsers s req w) one_of_both).
Proof.
  unfold returning. repeat split; intros x.
  - destruct (service.CreateUser s x w) as [[out|v] w'] eqn:Hrun; [|exact I].
    unfold service.CreateUser in Hrun. cbn [fst]. one_of_both Hrun.
  - destruct (service.GetUserByID s x w) as [[out|v] w'] eqn:Hrun; [|exact I].
    unfold service.GetUserByID in Hrun. cbn [fst]. one_of_both Hrun.
  - destruct (service.GetUserByEmail s x w) as [[out|v] w'] eqn:Hrun; [|exact I].
    unfold service.GetUserByEmail in Hrun. cbn [fst]. one_of_both Hrun.
  - destruct (service.UpdateUserProfile s x w) as [[out|v] w'] eqn:Hrun; [|exact I].
    unfold service.UpdateUserProfile in Hrun. cbn [fst]. one_of_both Hrun.
  - destruct (service.ListUsers s x w) as [[out|v] w'] eqn:Hrun; [|exact I].
    unfold service.ListUsers in Hrun. cbv zeta in Hrun. cbn [fst]. one_of_both Hrun.
Qed.

(** X18.  [CreateUser] of the service, over any repository that answers
    from what it holds.  It refuses with [ErrUserAlreadyExists] exactly
    when the lookup by email or the lookup by username returned a user
    and no error: a lookup that fails does not stop the creation.  The
    user it returns is the new user of the request, with the new UUID and
    both times at the present, which is valid (no field of the request is
    empty) and which the repository stored without error.  Every other
    outcome is [ErrInvalidUserData] or the error of the repository behind
    the prefix of the service.  The base logger is assumed to return from
    info-level, warn-level and error-level calls. *)
Theorem X18_CreateUser_refuses_duplicates_and_returns_the_new_user
    `{!Externals} `{!Clock} `{!UserLand} (repo : domain_repository.UserRepository)
    (a : mocks.Answers) (req : usecase.CreateUserRequest.t) (w : World) :
  answers_with repo a -> calm ->
  let email := usecase.CreateUserRequest.Email req in
  let username := usecase.CreateUserRequest.Username req in
  let name := usecase.CreateUserRequest.Name req in
  let out := fst (service.CreateUser (service.mkUserService repo BaseLogger) req w) in
  (out = Ret (None, Some ErrUserAlreadyExists) <->
   taken (mocks.on_GetByEmail a email) = true \/
   taken (mocks.on_GetByUsername a username) = true) /\
  (forall user,
     out = Ret (Some user, None) ->
     user = entity.mkUser uuid_New email username name time_Now time_Now /\
     mocks.on_Create a user = None /\
     uuid_New <> uuid.Nil /\ email <> "" /\ username <> "" /\ name <> "") /\
  ((exists user, out = Ret (Some user, None)) \/
   out = Ret (None, Some ErrUserAlreadyExists) \/
   out = Ret (None, Some ErrInvalidUserData) \/
   exists cause,
     mocks.on_Create a (entity.NewUser email username name) = Some cause /\
     out = Ret (None, Some (Errorf "failed to create user: " cause))).
Proof.
  intros Ha Hc email username name out.
  destruct (CreateUser_logs (request w) repo a req Ha Hc) as (logged & _ & Hrun).
  subst out. rewrite (Hrun w eq_refl). cbn [fst]. fold email username name.
  destruct (taken (mocks.on_GetByEmail a email)) eqn:Ee;
    [|destruct (taken (mocks.on_GetByUsername a username)) eqn:Eu]; cbn [orb].
  1,2: split; [split; [intros _; auto|done]|]; split; [intros user [=]|auto].
  destruct (entity.IsValid (entity.NewUser email username name)) eqn:Ev.
  2:{ split; [split; [intros [=]|intros [[=]|[=]]]|].
      split; [intros user [=]|auto]. }
  destruct (mocks.on_Create a (entity.NewUser email username name)) as [cause|] eqn:Ec.
  { split; [split; [intros [=]|intros [[=]|[=]]]|].
    split; [intros user [=]|]. right. right. right. eauto. }
  split; [split; [intros [=]|intros [[=]|[=]]]|].
  split; [|left; eauto].
  intros user [= <-]. split; [reflexivity|]. split; [exact Ec|].
  unfold entity.IsValid in Ev. simpl in Ev.
  repeat (apply andb_true_iff in Ev as [Ev ?]).
  repeat match goal with
         | Hb : bool_decide _ = true |- _ => apply bool_decide_eq_true in Hb
         end.
  auto.
Qed.

(** X18 during an outage of the database: both lookups fail, so the
    request is not refused as a duplicate. *)
Lemma X18_witness :
  let X := doubles.externals doubles.healthy in
  let L := store.land store.unreachable in
  let repo := @infrastructure.NewUserRepository L cmd.db in
  let req := usecase.CreateUserRequest.mk "ada@example.com" "ada" "Ada" in
  let w := doubles.fresh (doubles.GET "/api/v1/users" []) in
  answers_with repo (@stored L) /\ @calm X /\
  fst (@service.CreateUser X store.clock L (service.mkUserService repo BaseLogger) req w)
    <> Ret (None, Some ErrUserAlreadyExists).
Proof.
  intros X L repo req w.
  assert (Ha : answers_with repo (@stored L)) by apply (@stored_answers L).
  assert (Hc : @calm X) by (repeat split; intros c; reflexivity).
  split; [exact Ha|]. split; [exact Hc|].
  destruct (@X18_CreateUser_refuses_duplicates_and_returns_the_new_user X store.clock
              L repo _ req w Ha Hc) as [Hdup _].
  intros Heq. apply Hdup in Heq. destruct Heq as [Heq|Heq]; vm_compute in Heq; discriminate.
Defined.

(** A handler that answers once, behind the stages of the second entry
    point. *)
Lemma answered_behind_the_engine `{!Externals} (h : M unit) (code : Z) (body : value)
    (w : World) :
  ctx_Errors w = [] ->
  answering (request w) h code body ->
  let r := app.engine h w in
  fst r = Ret tt /\
  responses (trace (snd r)) = (responses (trace w) ++ [(code, body)])%list.
Proof.
  intros Hnone Hans r.
  destruct (answered_behind_the_stages app.panicHandler fixed_body h code body w
              app_panicHandler_responds Hnone Hans) as (Hret & Hresp & _).
  split; [exact Hret|exact Hresp].
Qed.

(** X19.  [GET /api/v1/users/:id] behind the stages of the second entry
    point, for a request without recorded errors.  The request is answered
    exactly once: with 400 and [invalid_id] when the route parameter is
    not a UUID; with 200 and the row as the user response when the lookup
    finds a row; and with 404 and [user_not_found] whenever the lookup
    fails, for a missing row as for any other error of the database, so
    never with 500.  The base logger is assumed to return from info-level,
    warn-level and error-level calls. *)
Theorem X19_GET_user_answers_the_row_or_404
    `{!Externals} `{!Clock} `{!UserLand} (w : World) :
  calm -> ctx_Errors w = [] ->
  let r := app.engine (users.handler_of users.GET_user) w in
  fst r = Ret tt /\
  responses (trace (snd r)) =
    (responses (trace w) ++
     [match uuid_Parse (gin_Param (request w) "id") with
      | inr _ => (400%Z, failure "invalid_id" "Invalid user ID format")
      | inl id =>
          match tx_First_id id with
          | inl model => (200%Z, rendered (UserModel.ToEntity model))
          | inr _ => (404%Z, failure "user_not_found" "User not found")
          end
      end])%list.
Proof.
  intros Hc Hnone.
  pose proof (GetUserByID_answers (request w) _ _ (stored_answers cmd.db) Hc) as Hh.
  cbv zeta in Hh. simpl mocks.on_GetByID in Hh. unfold looked_up in Hh.
  destruct (uuid_Parse _) as [id|].
  2:{ by apply answered_behind_the_engine. }
  destruct (tx_First_id id) as [model|err].
  { by apply answered_behind_the_engine. }
  destruct (Is_ErrRecordNotFound err); by apply answered_behind_the_engine.
Qed.

(** X19 during an outage of the database: the lookup of user 1 is
    answered with 404. *)
Lemma X19_witness :
  let X := doubles.externals doubles.healthy in
  let L := store.land store.unreachable in
  let w := doubles.fresh
             (store.request "GET" "/api/v1/users/1" [(":id", "1")]) in
  let r := @app.engine X (@users.handler_of X store.clock L users.GET_user) w in
  @calm X /\ ctx_Errors w = [] /\
  fst r = Ret tt /\
  responses (trace (snd r)) = [(404%Z, failure "user_not_found" "User not found")].
Proof.
  intros X L w r.
  assert (Hc : @calm X) by (repeat split; intros c; reflexivity).
  split; [exact Hc|]. split; [reflexivity|].
  destruct (@X19_GET_user_answers_the_row_or_404 X store.clock L w Hc eq_refl)
    as [Hret Hresp].
  split; [exact Hret|]. subst r. rewrite Hresp. reflexivity.
Defined.

(** X20.  [GET /api/v1/users] behind the stages of the second entry point,
    for a request without recorded errors.  The request is answered
    exactly once.  The offset is read from the query with 0 as its default
    and the limit with 10; an offset that is not a number or is negative
    is answered with 400 and [invalid_offset], and a limit that is not a
    number or is outside 1..100 with 400 and [invalid_limit]; otherwise
    the query is made with the offset and the limit of the request as
    they are.  A failing count or a failing query is answered with 500.
    Otherwise the answer is 200 with one user response per row found, in
    the order of the rows, the count, the offset and the limit of the
    request, and [HasMore] as the use case computes it.  The base logger is
    assumed to return from info-level, warn-level and error-level
    calls. *)
Theorem X20_GET_users_validates_the_page_and_answers_the_rows
    `{!Externals} `{!Clock} `{!UserLand} (w : World) :
  calm -> ctx_Errors w = [] ->
  let r := app.engine (users.handler_of users.GET_users) w in
  let query key fallback := default fallback (gin_GetQuery (request w) key) in
  let invalid_offset :=
    (400%Z, failure "invalid_offset" "Offset must be a non-negative integer") in
  let invalid_limit :=
    (400%Z, failure "invalid_limit"
              "Limit must be a positive integer between 1 and 100") in
  let internal :=
    (500%Z, failure "internal_server_error" "An internal error occurred") in
  fst r = Ret tt /\
  responses (trace (snd r)) =
    (responses (trace w) ++
     [match strconv_Atoi (query "offset" "0") with
      | inr _ => invalid_offset
      | inl offset =>
          if bool_decide (offset < 0)%Z then invalid_offset
          else
            match strconv_Atoi (query "limit" "10") with
            | inr _ => invalid_limit
            | inl limit =>
                if bool_decide (limit <= 0)%Z || bool_decide (limit > 100)%Z
                then invalid_limit
                else
                  match tx_Count with
                  | (_, Some _) => internal
                  | (total, None) =>
                      match tx_Find offset limit with
                      | inr _ => internal
                      | inl models =>
                          (200%Z,
                           page (UserModel.ToEntity <$> models) total offset limit
                             (bool_decide (wrap64 (offset + limit) < total)%Z))
                      end
                  end
            end
      end])%list.
Proof.
  intros Hc Hnone.
  pose proof (ListUsers_answers (request w) _ _ (stored_answers cmd.db) Hc) as Hh.
  cbv zeta in Hh. cbv zeta beta.
  destruct (strconv_Atoi (default "0" _)) as [offset|].
  2:{ by apply answered_behind_the_engine. }
  destruct (bool_decide (offset < 0)%Z).
  { by apply answered_behind_the_engine. }
  destruct (strconv_Atoi (default "10" _)) as [limit|].
  2:{ by apply answered_behind_the_engine. }
  destruct (bool_decide (limit <= 0)%Z || bool_decide (limit > 100)%Z).
  { by apply answered_behind_the_engine. }
  simpl mocks.on_Count in Hh. simpl mocks.on_List in Hh.
  destruct tx_Count as [total [err|]].
  { by apply answered_behind_the_engine. }
  destruct (tx_Find offset limit) as [models|err].
  2:{ by apply answered_behind_the_engine. }
  apply answered_behind_the_engine; [exact Hnone|]. exact (Hh _ eq_refl).
Qed.

(** X20 on the table of two users: the second page of one user, and a
    limit of 0. *)
Lemma X20_witness :
  let X := doubles.externals doubles.healthy in
  let L := store.land store.two_users in
  let w := doubles.fresh
             (store.request "GET" "/api/v1/users" [("?offset", "1"); ("?limit", "1")]) in
  let w0 := doubles.fresh (store.request "GET" "/api/v1/users" [("?limit", "0")]) in
  let h := @users.handler_of X store.clock L users.GET_users in
  @calm X /\ ctx_Errors w = [] /\ ctx_Errors w0 = [] /\
  responses (trace (snd (@app.engine X h w))) =
    [(200%Z, @page L [UserModel.ToEntity store.bob] 2 1 1 false)] /\
  responses (trace (snd (@app.engine X h w0))) =
    [(400%Z, failure "invalid_limit"
               "Limit must be a positive integer between 1 and 100")].
Proof.
  intros X L w w0 h.
  assert (Hc : @calm X) by (repeat split; intros c; reflexivity).
  split; [exact Hc|]. split; [reflexivity|]. split; [reflexivity|].
  destruct (@X20_GET_users_validates_the_page_and_answers_the_rows X store.clock L w
              Hc eq_refl) as [_ Hresp].
  destruct (@X20_GET_users_validates_the_page_and_answers_the_rows X store.clock L w0
              Hc eq_refl) as [_ Hresp0].
  subst h. split; [rewrite Hresp|rewrite Hresp0]; reflexivity.
Defined.

(** X21.  Every user route behind the stages of the second entry point,
    for a request without recorded errors: the pipeline returns, the
    request is answered exactly once, with one of the statuses of its
    route, no error report is persisted, and the request's logs handed to
    the logs persister are empty, because the service and the handler log
    through the base logger and not through the logger of the request.
    The base logger is assumed to return from info-level, warn-level and
    error-level calls. *)
Theorem X21_user_routes_answer_once_with_a_status_of_the_route
    `{!Externals} `{!Clock} `{!UserLand} (route : users.route) (w : World) :
  calm -> ctx_Errors w = [] ->
  let r := app.engine (users.handler_of route) w in
  fst r = Ret tt /\
  (exists code body,
     responses (trace (snd r)) = (responses (trace w) ++ [(code, body)])%list /\
     code ∈ statuses route) /\
  logs_persisted (trace (snd r)) = (logs_persisted (trace w) ++ [[]])%list /\
  errors_persisted (trace (snd r)) = errors_persisted (trace w).
Proof.
  intros Hc Hnone r.
  destruct (route_answers route (request w) Hc) as (code & body & Hans & Hin).
  destruct (answered_behind_the_stages app.panicHandler fixed_body _ code body w
              app_panicHandler_responds Hnone Hans) as (Hret & Hresp & Hlogs & Herrs & _).
  split; [exact Hret|]. split; [by exists code, body|]. by split.
Qed.

(** X21 at the creation of a user whose email is taken: 409. *)
Lemma X21_witness :
  let X := doubles.externals doubles.healthy in
  let L := store.land store.two_users in
  let w := doubles.fresh
             (store.request "POST" "/api/v1/users"
                [("email", "ada@example.com"); ("username", "lovelace"); ("name", "Ada")]) in
  let r := @app.engine X (@users.handler_of X store.clock L users.POST_users) w in
  @calm X /\ ctx_Errors w = [] /\
  fst r = Ret tt /\
  responses (trace (snd r)) =
    [(409%Z, failure "user_already_exists" "User with email or username already exists")] /\
  logs_persisted (trace (snd r)) = [[]] /\
  errors_persisted (trace (snd r)) = [].
Proof.
  intros X L w r.
  assert (Hc : @calm X) by (repeat split; intros c; reflexivity).
  split; [exact Hc|]. split; [reflexivity|].
  destruct (@X21_user_routes_answer_once_with_a_status_of_the_route X store.clock L
              users.POST_users w Hc eq_refl) as (Hret & _ & Hlogs & Herrs).
  split; [exact Hret|]. split; [vm_compute; reflexivity|].
  split; [exact Hlogs|exact Herrs].
Defined.

(** X22.  [UpdateUserProfile] of the service, over any repository that
    answers from what it holds.  Whenever the lookup by ID does not return
    a user and no error, the outcome is [ErrUserNotFound], whatever the
    error of the lookup was.  The user it returns is the user found with
    the name of the request and the time of its last update at the
    present, and nothing else changed; the name is not empty and the
    repository stored that user without error.  With an empty name the
    outcome is [ErrUserNotFound] or [ErrInvalidUserData].  The base logger
    is assumed to return from info-level, warn-level and error-level
    calls. *)
Theorem X22_UpdateUserProfile_changes_the_name_and_the_time
    `{!Externals} `{!Clock} `{!UserLand} (repo : domain_repository.UserRepository)
    (a : mocks.Answers) (req : usecase.UpdateUserProfileRequest.t) (w : World) :
  answers_with repo a -> calm ->
  let id := usecase.UpdateUserProfileRequest.ID req in
  let name := usecase.UpdateUserProfileRequest.Name req in
  let out :=
    fst (service.UpdateUserProfile (service.mkUserService repo BaseLogger) req w) in
  (taken (mocks.on_GetByID a id) = false -> out = Ret (None, Some ErrUserNotFound)) /\
  (forall user,
     out = Ret (Some user, None) ->
     exists found,
       mocks.on_GetByID a id = (Some found, None) /\
       user = entity.mkUser (entity.ID found) (entity.Email found)
                (entity.Username found) name (entity.CreatedAt found) time_Now /\
       mocks.on_Update a user = None /\ name <> "") /\
  (name = "" ->
   out = Ret (None, Some ErrUserNotFound) \/ out = Ret (None, Some ErrInvalidUserData)).
Proof.
  intros Ha Hc id name out.
  destruct (UpdateUserProfile_logs (request w) repo a req Ha Hc) as (logged & _ & Hrun).
  subst out. rewrite (Hrun w eq_refl). cbn [fst]. cbv zeta. fold id name.
  destruct (mocks.on_GetByID a id) as [[found|] [err|]] eqn:Eg; cbn [taken].
  1,3,4: split; [done|]; split; [intros user [=]|auto].
  split; [done|].
  destruct (entity.IsValid (entity.UpdateProfile found name)) eqn:Ev.
  2:{ split; [intros user [=]|auto]. }
  assert (Hname : name <> "").
  { unfold entity.IsValid in Ev. simpl in Ev.
    apply andb_true_iff in Ev as [_ Ev]. by apply bool_decide_eq_true in Ev. }
  destruct (mocks.on_Update a (entity.UpdateProfile found name)) as [cause|] eqn:Eu.
  { split; [intros user [=]|done]. }
  split; [|done].
  intros user [= <-]. exists found. split; [reflexivity|].
  split; [reflexivity|]. split; [exact Eu|exact Hname].
Qed.

(** X22 on the table of two users: user 1 is renamed. *)
Lemma X22_witness :
  let X := doubles.externals doubles.healthy in
  let L := store.land store.two_users in
  let repo := @infrastructure.NewUserRepository L cmd.db in
  let req := usecase.UpdateUserProfileRequest.mk 1%N "Countess" in
  let w := doubles.fresh (store.request "PUT" "/api/v1/users/1" []) in
  let out :=
    fst (@service.UpdateUserProfile X store.clock L
           (service.mkUserService repo BaseLogger) req w) in
  answers_with repo (@stored L) /\ @calm X /\
  out = Ret (Some (entity.mkUser 1%N "ada@example.com" "ada" "Countess"
                     1600000000%Z 1700000000%Z), None).
Proof.
  intros X L repo req w out.
  assert (Ha : answers_with repo (@stored L)) by apply (@stored_answers L).
  assert (Hc : @calm X) by (repeat split; intros c; reflexivity).
  split; [exact Ha|]. split; [exact Hc|].
  destruct (@X22_UpdateUserProfile_changes_the_name_and_the_time X store.clock L repo _
              req w Ha Hc) as (_ & Hok & _).
  destruct (Hok _ eq_refl) as (found & Hfound & -> & _).
  injection Hfound as <-. reflexivity.
Defined.

(** X23.  [DELETE /api/v1/users/:id] behind the stages of the second entry
    point, for a request without recorded errors.  The request is answered
    exactly once: with 400 and [invalid_id] when the route parameter is
    not a UUID; with 404 and [user_not_found] whenever the lookup before
    the deletion does not find the row, also when it fails with another
    error of the database; with 500 when the row was found and the
    deletion fails; and with 204 and a nil body when the row was found and
    deleted.  The base logger is assumed to return
    from info-level, warn-level and error-level calls. *)
Theorem X23_DELETE_user_looks_the_user_up_first
    `{!Externals} `{!Clock} `{!UserLand} (w : World) :
  calm -> ctx_Errors w = [] ->
  let r := app.engine (users.handler_of users.DELETE_user) w in
  fst r = Ret tt /\
  responses (trace (snd r)) =
    (responses (trace w) ++
     [match uuid_Parse (gin_Param (request w) "id") with
      | inr _ => (400%Z, failure "invalid_id" "Invalid user ID format")
      | inl id =>
          match tx_First_id id with
          | inl _ =>
              match tx_Delete id with
              | Some _ =>
                  (500%Z, failure "internal_server_error" "An internal error occurred")
              | None => (204%Z, VNil)
              end
          | inr _ => (404%Z, failure "user_not_found" "User not found")
          end
      end])%list.
Proof.
  intros Hc Hnone.
  pose proof (DeleteUser_answers (request w) _ _ (stored_answers cmd.db) Hc) as Hh.
  cbv zeta in Hh. simpl mocks.on_GetByID in Hh. simpl mocks.on_Delete in Hh.
  unfold looked_up in Hh.
  destruct (uuid_Parse _) as [id|].
  2:{ by apply answered_behind_the_engine. }
  destruct (tx_First_id id) as [model|err].
  { cbn [taken] in Hh. destruct (tx_Delete id); by apply answered_behind_the_engine. }
  destruct (Is_ErrRecordNotFound err); by apply answered_behind_the_engine.
Qed.

(** X23 on the table of two users: user 2 is deleted, user 3 is not
    there. *)
Lemma X23_witness :
  let X := doubles.externals doubles.healthy in
  let L := store.land store.two_users in
  let w2 := doubles.fresh (store.request "DELETE" "/api/v1/users/2" [(":id", "2")]) in
  let w3 := doubles.fresh (store.request "DELETE" "/api/v1/users/3" [(":id", "3")]) in
  let h := @users.handler_of X store.clock L users.DELETE_user in
  @calm X /\ ctx_Errors w2 = [] /\ ctx_Errors w3 = [] /\
  responses (trace (snd (@app.engine X h w2))) = [(204%Z, VNil)] /\
  responses (trace (snd (@app.engine X h w3))) =
    [(404%Z, failure "user_not_found" "User not found")].
Proof.
  intros X L w2 w3 h.
  assert (Hc : @calm X) by (repeat split; intros c; reflexivity).
  split; [exact Hc|]. split; [reflexivity|]. split; [reflexivity|].
  destruct (@X23_DELETE_user_looks_the_user_up_first X store.clock L w2 Hc eq_refl)
    as [_ Hresp2].
  destruct (@X23_DELETE_user_looks_the_user_up_first X store.clock L w3 Hc eq_refl)
    as [_ Hresp3].
  subst h. split; [rewrite Hresp2|rewrite Hresp3]; reflexivity.
Defined.

Lemma taken_looked_up `{!UserLand} (r : UserModel.t + error) :
  taken (looked_up r) = row_found r.
Proof. destruct r as [model|err]; [done|]. simpl. by destruct (Is_ErrRecordNotFound err). Qed.

(** X24.  [POST /api/v1/users] behind the stages of the second entry
    point, for a request without recorded errors.  The request is answered
    exactly once: with 400 and [invalid_request] and the message of the
    binding error when the body does not bind; with 409 when the query by
    email or the query by username finds a row, and only then, so not
    when these queries fail; otherwise with 400 and [invalid_user_data]
    when the new user is not valid, with 500 when the row cannot be
    created, and with 201 and the new user as the user response when it
    is.  The base logger is assumed to return from info-level, warn-level
    and error-level calls. *)
Theorem X24_POST_users_creates_the_user_or_says_why_not
    `{!Externals} `{!Clock} `{!UserLand} (w : World) :
  calm -> ctx_Errors w = [] ->
  let r := app.engine (users.handler_of users.POST_users) w in
  fst r = Ret tt /\
  responses (trace (snd r)) =
    (responses (trace w) ++
     [match bind_CreateUser (request w) with
      | inr err => (400%Z, failure "invalid_request" err)
      | inl body =>
          let email := CreateUserBody.Email body in
          let username := CreateUserBody.Username body in
          let user := entity.NewUser email username (CreateUserBody.Name body) in
          if row_found (tx_First_email email) || row_found (tx_First_username username)
          then (409%Z, failure "user_already_exists"
                         "User with email or username already exists")
          else if entity.IsValid user then
                 match tx_Create (UserModel.FromEntity UserModel.zero user) with
                 | Some _ =>
                     (500%Z, failure "internal_server_error" "An internal error occurred")
                 | None => (201%Z, rendered user)
                 end
               else (400%Z, failure "invalid_user_data" "Invalid user data provided")
      end])%list.
Proof.
  intros Hc Hnone.
  pose proof (CreateUser_answers (request w) _ _ (stored_answers cmd.db) Hc) as Hh.
  cbv zeta in Hh. cbv zeta.
  destruct (bind_CreateUser _) as [body|err].
  2:{ by apply answered_behind_the_engine. }
  cbn [mocks.on_GetByEmail mocks.on_GetByUsername mocks.on_Create stored] in Hh.
  rewrite !taken_looked_up in Hh.
  destruct (row_found _ || row_found _).
  { by apply answered_behind_the_engine. }
  destruct (entity.IsValid _).
  2:{ by apply answered_behind_the_engine. }
  destruct (tx_Create _); by apply answered_behind_the_engine.
Qed.

(** X24 on the table of two users: a third user is created, and during an
    outage of the database the email of the first user is not refused as
    taken. *)
Lemma X24_witness :
  let X := doubles.externals doubles.healthy in
  let fields :=
    [("email", "eve@example.com"); ("username", "eve"); ("name", "Eve")] in
  let taken_fields :=
    [("email", "ada@example.com"); ("username", "ada"); ("name", "Ada")] in
  let w := doubles.fresh (store.request "POST" "/api/v1/users" fields) in
  let w' := doubles.fresh (store.request "POST" "/api/v1/users" taken_fields) in
  let L := store.land store.two_users in
  let L' := store.land store.unreachable in
  @calm X /\ ctx_Errors w = [] /\ ctx_Errors w' = [] /\
  responses (trace (snd (@app.engine X
                           (@users.handler_of X store.clock L users.POST_users) w))) =
    [(201%Z, @rendered L (entity.mkUser 7%N "eve@example.com" "eve" "Eve"
                            1700000000%Z 1700000000%Z))] /\
  responses (trace (snd (@app.engine X
                           (@users.handler_of X store.clock L' users.POST_users) w'))) =
    [(500%Z, failure "internal_server_error" "An internal error occurred")].
Proof.
  intros X fields taken_fields w w' L L'.
  assert (Hc : @calm X) by (repeat split; intros c; reflexivity).
  split; [exact Hc|]. split; [reflexivity|]. split; [reflexivity|].
  destruct (@X24_POST_users_creates_the_user_or_says_why_not X store.clock L w
              Hc eq_refl) as [_ Hresp].
  destruct (@X24_POST_users_creates_the_user_or_says_why_not X store.clock L' w'
              Hc eq_refl) as [_ Hresp'].
  split; [rewrite Hresp|rewrite Hresp']; reflexivity.
Defined.

(** X25.  [PUT /api/v1/users/:id] behind the stages of the second entry
    point, for a request without recorded errors.  The request is answered
    exactly once: with 400 and [invalid_id] when the route parameter is
    not a UUID, whatever the body holds; with 400 and [invalid_request]
    when the body does not bind; with 404 whenever the lookup does not
    find the row, also when it fails with another error of the database;
    with 400 and [invalid_user_data] when the renamed user is not valid;
    with 500 when the row cannot be updated; and with 200 and the renamed
    user as the user response when it is.  The base logger is assumed to
    return from info-level, warn-level and error-level calls. *)
Theorem X25_PUT_user_renames_the_user_or_says_why_not
    `{!Externals} `{!Clock} `{!UserLand} (w : World) :
  calm -> ctx_Errors w = [] ->
  let r := app.engine (users.handler_of users.PUT_user) w in
  fst r = Ret tt /\
  responses (trace (snd r)) =
    (responses (trace w) ++
     [match uuid_Parse (gin_Param (request w) "id") with
      | inr _ => (400%Z, failure "invalid_id" "Invalid user ID format")
      | inl id =>
          match bind_Name (request w) with
          | inr err => (400%Z, failure "invalid_request" err)
          | inl name =>
              match tx_First_id id with
              | inr _ => (404%Z, failure "user_not_found" "User not found")
              | inl model =>
                  let user := entity.UpdateProfile (UserModel.ToEntity model) name in
                  if entity.IsValid user then
                    match tx_Updates (entity.ID user)
                            (UserModel.FromEntity UserModel.zero user) with
                    | Some _ =>
                        (500%Z,
                         failure "internal_server_error" "An internal error occurred")
                    | None => (200%Z, rendered user)
                    end
                  else (400%Z, failure "invalid_user_data" "Invalid user data provided")
              end
          end
      end])%list.
Proof.
  intros Hc Hnone.
  pose proof (UpdateUserProfile_answers (request w) _ _ (stored_answers cmd.db) Hc) as Hh.
  cbv zeta in Hh. cbv zeta.
  simpl mocks.on_GetByID in Hh. simpl mocks.on_Update in Hh. unfold looked_up in Hh.
  destruct (uuid_Parse _) as [id|].
  2:{ by apply answered_behind_the_engine. }
  destruct (bind_Name _) as [name|err].
  2:{ by apply answered_behind_the_engine. }
  destruct (tx_First_id id) as [model|err].
  2:{ destruct (Is_ErrRecordNotFound err); by apply answered_behind_the_engine. }
  destruct (entity.IsValid _).
  2:{ by apply answered_behind_the_engine. }
  destruct (tx_Updates _ _); by apply answered_behind_the_engine.
Qed.

(** X25 on the table of two users: user 2 is renamed. *)
Lemma X25_witness :
  let X := doubles.externals doubles.healthy in
  let L := store.land store.two_users in
  let w := doubles.fresh
             (store.request "PUT" "/api/v1/users/2" [(":id", "2"); ("name", "Robert")]) in
  let r := @app.engine X (@users.handler_of X store.clock L users.PUT_user) w in
  @calm X /\ ctx_Errors w = [] /\
  fst r = Ret tt /\
  responses (trace (snd r)) =
    [(200%Z, @rendered L (entity.mkUser 2%N "bob@example.com" "bob" "Robert"
                            1600000001%Z 1700000000%Z))].
Proof.
  intros X L w r.
  assert (Hc : @calm X) by (repeat split; intros c; reflexivity).
  split; [exact Hc|]. split; [reflexivity|].
  destruct (@X25_PUT_user_renames_the_user_or_says_why_not X store.clock L w Hc eq_refl)
    as [Hret Hresp].
  split; [exact Hret|]. subst r. rewrite Hresp. reflexivity.
Defined.
